(** * WCAG check functions and report builder of wcag-mcp

    A shallow embedding of the rule-evaluation core of the wcag-mcp
    servers (packages core, text, structure, aria, forms and media) and
    the properties its specification states about it.

    JavaScript values are modelled as follows.
    - Strings are [string] (the UTF-8 bytes of the source literal).
    - A [number] the code compares against a threshold or multiplies is
      an IEEE 754 binary64 [float], with the kernel's primitive
      operations: [<=?], [<?] and [=?] are JavaScript's [<=], [<] and
      [===] on numbers (false on NaN, equal on the two zeros).
    - A [number] that is a length, a count or a heading level (1-6) is
      an integer, [nat] or [Z], printed in decimal like JavaScript
      prints an integer-valued number.
    - An optional field or argument is an [option]; [undefined] is
      [None].
    - What the code imports from outside the repository (the culori
      color library) or takes from the JavaScript runtime and cannot be
      computed here (printing a fractional number, Unicode upper-casing,
      [Math.round]) is an interface, a class.
    - The clock is the one piece of ambient state the core reads: a
      function that reads it passes a world along.
    - A plain object filled by assignment is the list of its own
      properties in creation order; what it inherits from
      [Object.prototype] and the order [Object.entries] lists keys in
      are written out. A call that can throw returns a [Completion]. *)

From Stdlib Require Import List String Ascii ZArith Bool Lia Arith.
From Stdlib Require Import Floats DecimalString.
Import ListNotations.
Open Scope string_scope.
Set Warnings "-inexact-float".

(** ** JavaScript helpers *)

Module Js.

(** The double-quote character and a line feed, for the literals that
    hold them. *)
Definition dq : string := String "034"%char "".
Definition nl : string := String "010"%char "".

(** [Array.prototype.join]. *)
Definition join (sep : string) (xs : list string) : string :=
  String.concat sep xs.

(** A length or count inside a template literal. *)
Definition natToString (n : nat) : string :=
  NilZero.string_of_uint (Nat.to_uint n).

(** An integer-valued number inside a template literal. *)
Definition intToString (z : Z) : string :=
  NilZero.string_of_int (Z.to_int z).

(** Truthiness of an optional string: [undefined] and the empty string
    are both falsy. *)
Definition truthy (s : option string) : bool :=
  match s with
  | Some (String _ _) => true
  | _ => false
  end.

(** [s || dflt] on an optional string. *)
Definition orElse (s : option string) (dflt : string) : string :=
  match s with
  | Some (String c r) => String c r
  | _ => dflt
  end.

(** What the runtime supplies and this development does not compute:
    [Number.prototype.toString] and [toFixed] on fractional numbers,
    [Math.round], and [String.prototype.toUpperCase]. *)
Class Builtins := {
  numberToString : float -> string;
  toFixed : float -> nat -> string;
  Math_round : float -> float;
  toUpperCase : string -> string
}.

(** What the checks use of [String.prototype] and cannot be computed
    here: Unicode case folding and trimming of Unicode white space. *)
Class StringOps := {
  toLowerCase : string -> string;
  trim : string -> string
}.

(** [s.length], the number of UTF-16 code units of a string held as
    well-formed UTF-8: one for each code point, two for a code point
    outside the basic plane (a four-byte sequence). *)
Definition codeUnits (c : ascii) : nat :=
  let n := N_of_ascii c in
  if ((128 <=? n) && (n <? 192))%N then 0
  else if (240 <=? n)%N then 2
  else 1.

Fixpoint length16 (s : string) : nat :=
  match s with
  | EmptyString => 0
  | String c rest => codeUnits c + length16 rest
  end.

(** [s.split(sep)] for a separator of one ASCII character: at least one
    piece, an empty piece between two separators and at either end. *)
Fixpoint String_split (sep : ascii) (s : string) : list string :=
  match s with
  | EmptyString => [EmptyString]
  | String c rest =>
    if Ascii.eqb c sep then EmptyString :: String_split sep rest
    else
      match String_split sep rest with
      | piece :: pieces => String c piece :: pieces
      | [] => [String c EmptyString]
      end
  end.

(** [haystack.includes(needle)] and [s.startsWith(p)]. *)
Fixpoint includes (haystack needle : string) : bool :=
  prefix needle haystack ||
  match haystack with
  | EmptyString => false
  | String _ rest => includes rest needle
  end.

Definition startsWith (s p : string) : bool := prefix p s.

(** [xs.includes(x)] on an array of strings. *)
Definition Array_includes (xs : list string) (x : string) : bool :=
  existsb (String.eqb x) xs.

(** [Math.max(...xs)] on the lengths of a non-empty array. *)
Definition Math_max (xs : list nat) : nat := fold_right Nat.max 0 xs.

(** [a || b] and [a && b] on optional booleans: the operand that decides
    is the value, so the result may be [undefined]. *)
Definition logicalOr (a b : option bool) : option bool :=
  match a with
  | Some true => Some true
  | _ => b
  end.

Definition logicalAnd (a b : option bool) : option bool :=
  match a with
  | Some true => b
  | _ => a
  end.

Definition isTrue (a : option bool) : bool :=
  match a with
  | Some true => true
  | _ => false
  end.

(** [[a && "x", b && "y", ...].filter(Boolean)]: the texts whose flag is
    true, in order. *)
Definition flagged (flags : list (bool * string)) : list string :=
  map snd (filter fst flags).

(** The one piece of ambient state the core reads: the clock. A world
    holds the successive readings of [new Date().toISOString()] and the
    number of readings taken so far; a computation that may read the
    clock passes the world along. *)
Record World := mkWorld {
  clock : nat -> string;
  reads : nat
}.

Definition Effect (T : Type) : Type := World -> T * World.

Definition Date_toISOString : Effect string :=
  fun w => (clock w (reads w), mkWorld (clock w) (S (reads w))).

End Js.

(** ** Core types (packages/core/src/types.ts) *)

Inductive WcagLevel := A | AA | AAA.

Inductive CheckStatus := Pass | Fail | Warning | Info.

(** [value?: string | number | boolean]: a number is either a measured
    quantity or a count. *)
Inductive Value :=
| VString (s : string)
| VNumber (x : float)
| VCount (z : Z)
| VBoolean (b : bool).

Record CheckResult := mkResult {
  criterion : string;
  name : string;
  level : WcagLevel;
  status : CheckStatus;
  value : option Value;
  required : option Value;
  message : string;
  recommendation : option string
}.

Record WcagCriterion := mkCriterion {
  c_id : string;
  c_name : string;
  c_level : WcagLevel;
  c_description : string;
  c_url : string;
  c_category : option string
}.

Record LevelTally := mkTally {
  t_passed : nat;
  t_failed : nat
}.

Record ReportSummary := mkSummary {
  total : nat;
  passed : nat;
  failed : nat;
  warnings : nat;
  levelA : LevelTally;
  levelAA : LevelTally;
  levelAAA : LevelTally
}.

Record MachineSummary := mkMachineSummary {
  ms_total : nat;
  ms_passed : nat;
  ms_failed : nat;
  ms_warnings : nat
}.

Record MachineResult := mkMachineResult {
  mr_criterion : string;
  mr_name : string;
  mr_level : WcagLevel;
  mr_status : CheckStatus;
  mr_value : option Value;
  mr_required : option Value;
  mr_message : string;
  mr_recommendation : option string;
  mr_url : option string
}.

Record MachineReport := mkMachineReport {
  wcagVersion : string;
  timestamp : string;
  category : option string;
  summary : MachineSummary;
  results : list MachineResult
}.

Record ValidationReport := mkReport {
  r_summary : ReportSummary;
  r_results : list CheckResult;
  r_human : string;
  r_machine : MachineReport
}.

Definition WcagLevel_eqb (a b : WcagLevel) : bool :=
  match a, b with
  | A, A | AA, AA | AAA, AAA => true
  | _, _ => false
  end.

Definition CheckStatus_eqb (a b : CheckStatus) : bool :=
  match a, b with
  | Pass, Pass | Fail, Fail | Warning, Warning | Info, Info => true
  | _, _ => false
  end.

Definition levelToString (l : WcagLevel) : string :=
  match l with
  | A => "A"
  | AA => "AA"
  | AAA => "AAA"
  end.

(** ** Criteria catalog (packages/core/src/criteria.ts) *)

Module Criteria.

(** The catalog in the order the source declares it. No key is an array
    index, so this is also the order [Object.values] enumerates. *)
Definition WCAG_CRITERIA : list WcagCriterion := [
  mkCriterion "1.1.1" "Non-text Content" A
    "All non-text content has a text alternative"
    "https://www.w3.org/TR/WCAG21/#non-text-content" (Some "text-alternatives");
  mkCriterion "1.2.1" "Audio-only and Video-only (Prerecorded)" A
    "Alternatives provided for prerecorded audio-only and video-only content"
    "https://www.w3.org/TR/WCAG21/#audio-only-and-video-only-prerecorded" (Some "media");
  mkCriterion "1.2.2" "Captions (Prerecorded)" A
    "Captions provided for prerecorded audio in synchronized media"
    "https://www.w3.org/TR/WCAG21/#captions-prerecorded" (Some "media");
  mkCriterion "1.2.3" "Audio Description or Media Alternative (Prerecorded)" A
    "Audio description or alternative provided for prerecorded video"
    "https://www.w3.org/TR/WCAG21/#audio-description-or-media-alternative-prerecorded" (Some "media");
  mkCriterion "1.2.4" "Captions (Live)" AA
    "Captions provided for live audio in synchronized media"
    "https://www.w3.org/TR/WCAG21/#captions-live" (Some "media");
  mkCriterion "1.2.5" "Audio Description (Prerecorded)" AA
    "Audio description provided for prerecorded video"
    "https://www.w3.org/TR/WCAG21/#audio-description-prerecorded" (Some "media");
  mkCriterion "1.2.6" "Sign Language (Prerecorded)" AAA
    "Sign language interpretation provided for prerecorded audio"
    "https://www.w3.org/TR/WCAG21/#sign-language-prerecorded" (Some "media");
  mkCriterion "1.2.7" "Extended Audio Description (Prerecorded)" AAA
    "Extended audio description provided where pauses are insufficient"
    "https://www.w3.org/TR/WCAG21/#extended-audio-description-prerecorded" (Some "media");
  mkCriterion "1.2.8" "Media Alternative (Prerecorded)" AAA
    "Alternative provided for prerecorded synchronized media"
    "https://www.w3.org/TR/WCAG21/#media-alternative-prerecorded" (Some "media");
  mkCriterion "1.2.9" "Audio-only (Live)" AAA
    "Alternative provided for live audio-only content"
    "https://www.w3.org/TR/WCAG21/#audio-only-live" (Some "media");
  mkCriterion "1.3.1" "Info and Relationships" A
    "Information, structure, and relationships can be programmatically determined"
    "https://www.w3.org/TR/WCAG21/#info-and-relationships" (Some "structure");
  mkCriterion "1.3.2" "Meaningful Sequence" A
    "Correct reading sequence can be programmatically determined"
    "https://www.w3.org/TR/WCAG21/#meaningful-sequence" (Some "structure");
  mkCriterion "1.3.3" "Sensory Characteristics" A
    "Instructions don't rely solely on sensory characteristics"
    "https://www.w3.org/TR/WCAG21/#sensory-characteristics" (Some "structure");
  mkCriterion "1.3.4" "Orientation" AA
    "Content not restricted to a single display orientation"
    "https://www.w3.org/TR/WCAG21/#orientation" (Some "structure");
  mkCriterion "1.3.5" "Identify Input Purpose" AA
    "Input field purpose can be programmatically determined"
    "https://www.w3.org/TR/WCAG21/#identify-input-purpose" (Some "forms");
  mkCriterion "1.3.6" "Identify Purpose" AAA
    "Purpose of UI components can be programmatically determined"
    "https://www.w3.org/TR/WCAG21/#identify-purpose" (Some "structure");
  mkCriterion "1.4.1" "Use of Color" A
    "Color is not the only visual means of conveying information"
    "https://www.w3.org/TR/WCAG21/#use-of-color" (Some "text");
  mkCriterion "1.4.2" "Audio Control" A
    "Mechanism to pause, stop, or control audio volume"
    "https://www.w3.org/TR/WCAG21/#audio-control" (Some "media");
  mkCriterion "1.4.3" "Contrast (Minimum)" AA
    "Text has a contrast ratio of at least 4.5:1 (3:1 for large text)"
    "https://www.w3.org/TR/WCAG21/#contrast-minimum" (Some "text");
  mkCriterion "1.4.4" "Resize Text" AA
    "Text can be resized up to 200% without loss of content or functionality"
    "https://www.w3.org/TR/WCAG21/#resize-text" (Some "text");
  mkCriterion "1.4.5" "Images of Text" AA
    "Use text rather than images of text (except for customizable or essential)"
    "https://www.w3.org/TR/WCAG21/#images-of-text" (Some "text");
  mkCriterion "1.4.6" "Contrast (Enhanced)" AAA
    "Text has a contrast ratio of at least 7:1 (4.5:1 for large text)"
    "https://www.w3.org/TR/WCAG21/#contrast-enhanced" (Some "text");
  mkCriterion "1.4.7" "Low or No Background Audio" AAA
    "Prerecorded audio has low/no background noise or can be turned off"
    "https://www.w3.org/TR/WCAG21/#low-or-no-background-audio" (Some "media");
  mkCriterion "1.4.8" "Visual Presentation" AAA
    "Text blocks: select colors, max 80 chars/line, no justify, adequate spacing, 200% resize"
    "https://www.w3.org/TR/WCAG21/#visual-presentation" (Some "text");
  mkCriterion "1.4.9" "Images of Text (No Exception)" AAA
    "Images of text only used for pure decoration or where essential"
    "https://www.w3.org/TR/WCAG21/#images-of-text-no-exception" (Some "text");
  mkCriterion "1.4.10" "Reflow" AA
    "Content reflows at 400% zoom without horizontal scrolling (320px viewport)"
    "https://www.w3.org/TR/WCAG21/#reflow" (Some "text");
  mkCriterion "1.4.11" "Non-text Contrast" AA
    "UI components and graphics have 3:1 contrast ratio"
    "https://www.w3.org/TR/WCAG21/#non-text-contrast" (Some "text");
  mkCriterion "1.4.12" "Text Spacing" AA
    "No loss of content when: line-height 1.5x, paragraph spacing 2x, letter spacing 0.12x, word spacing 0.16x"
    "https://www.w3.org/TR/WCAG21/#text-spacing" (Some "text");
  mkCriterion "1.4.13" "Content on Hover or Focus" AA
    "Additional content on hover/focus is dismissible, hoverable, and persistent"
    "https://www.w3.org/TR/WCAG21/#content-on-hover-or-focus" (Some "keyboard");
  mkCriterion "2.1.1" "Keyboard" A
    "All functionality available from keyboard"
    "https://www.w3.org/TR/WCAG21/#keyboard" (Some "keyboard");
  mkCriterion "2.1.2" "No Keyboard Trap" A
    "Keyboard focus can be moved away from any component"
    "https://www.w3.org/TR/WCAG21/#no-keyboard-trap" (Some "keyboard");
  mkCriterion "2.1.3" "Keyboard (No Exception)" AAA
    "All functionality available from keyboard without exception"
    "https://www.w3.org/TR/WCAG21/#keyboard-no-exception" (Some "keyboard");
  mkCriterion "2.1.4" "Character Key Shortcuts" A
    "Character key shortcuts can be turned off or remapped"
    "https://www.w3.org/TR/WCAG21/#character-key-shortcuts" (Some "keyboard");
  mkCriterion "2.2.1" "Timing Adjustable" A
    "Time limits can be turned off, adjusted, or extended"
    "https://www.w3.org/TR/WCAG21/#timing-adjustable" (Some "keyboard");
  mkCriterion "2.2.2" "Pause, Stop, Hide" A
    "Moving, blinking, scrolling, or auto-updating content can be paused, stopped, or hidden"
    "https://www.w3.org/TR/WCAG21/#pause-stop-hide" (Some "media");
  mkCriterion "2.2.3" "No Timing" AAA
    "Timing is not essential part of the activity"
    "https://www.w3.org/TR/WCAG21/#no-timing" (Some "keyboard");
  mkCriterion "2.2.4" "Interruptions" AAA
    "Interruptions can be postponed or suppressed"
    "https://www.w3.org/TR/WCAG21/#interruptions" (Some "keyboard");
  mkCriterion "2.2.5" "Re-authenticating" AAA
    "Data preserved after re-authentication"
    "https://www.w3.org/TR/WCAG21/#re-authenticating" (Some "forms");
  mkCriterion "2.2.6" "Timeouts" AAA
    "Users warned of inactivity timeouts that cause data loss"
    "https://www.w3.org/TR/WCAG21/#timeouts" (Some "forms");
  mkCriterion "2.3.1" "Three Flashes or Below Threshold" A
    "No content flashes more than 3 times per second"
    "https://www.w3.org/TR/WCAG21/#three-flashes-or-below-threshold" (Some "media");
  mkCriterion "2.3.2" "Three Flashes" AAA
    "No content flashes more than 3 times per second"
    "https://www.w3.org/TR/WCAG21/#three-flashes" (Some "media");
  mkCriterion "2.3.3" "Animation from Interactions" AAA
    "Motion animation can be disabled"
    "https://www.w3.org/TR/WCAG21/#animation-from-interactions" (Some "media");
  mkCriterion "2.4.1" "Bypass Blocks" A
    "Mechanism to bypass repeated blocks of content"
    "https://www.w3.org/TR/WCAG21/#bypass-blocks" (Some "structure");
  mkCriterion "2.4.2" "Page Titled" A
    "Pages have descriptive titles"
    "https://www.w3.org/TR/WCAG21/#page-titled" (Some "structure");
  mkCriterion "2.4.3" "Focus Order" A
    "Focus order preserves meaning and operability"
    "https://www.w3.org/TR/WCAG21/#focus-order" (Some "keyboard");
  mkCriterion "2.4.4" "Link Purpose (In Context)" A
    "Link purpose can be determined from link text or context"
    "https://www.w3.org/TR/WCAG21/#link-purpose-in-context" (Some "structure");
  mkCriterion "2.4.5" "Multiple Ways" AA
    "More than one way to locate a page within a set of pages"
    "https://www.w3.org/TR/WCAG21/#multiple-ways" (Some "structure");
  mkCriterion "2.4.6" "Headings and Labels" AA
    "Headings and labels describe topic or purpose"
    "https://www.w3.org/TR/WCAG21/#headings-and-labels" (Some "structure");
  mkCriterion "2.4.7" "Focus Visible" AA
    "Keyboard focus indicator is visible"
    "https://www.w3.org/TR/WCAG21/#focus-visible" (Some "keyboard");
  mkCriterion "2.4.8" "Location" AAA
    "Information about user's location within a set of pages"
    "https://www.w3.org/TR/WCAG21/#location" (Some "structure");
  mkCriterion "2.4.9" "Link Purpose (Link Only)" AAA
    "Link purpose can be determined from link text alone"
    "https://www.w3.org/TR/WCAG21/#link-purpose-link-only" (Some "structure");
  mkCriterion "2.4.10" "Section Headings" AAA
    "Section headings are used to organize content"
    "https://www.w3.org/TR/WCAG21/#section-headings" (Some "structure");
  mkCriterion "2.5.1" "Pointer Gestures" A
    "Multipoint or path-based gestures have single-pointer alternatives"
    "https://www.w3.org/TR/WCAG21/#pointer-gestures" (Some "keyboard");
  mkCriterion "2.5.2" "Pointer Cancellation" A
    "Single-pointer functions can be cancelled"
    "https://www.w3.org/TR/WCAG21/#pointer-cancellation" (Some "keyboard");
  mkCriterion "2.5.3" "Label in Name" A
    "Accessible name contains the visible label text"
    "https://www.w3.org/TR/WCAG21/#label-in-name" (Some "forms");
  mkCriterion "2.5.4" "Motion Actuation" A
    "Motion-triggered functions can be disabled and have alternatives"
    "https://www.w3.org/TR/WCAG21/#motion-actuation" (Some "keyboard");
  mkCriterion "2.5.5" "Target Size" AAA
    "Target size is at least 44Ã—44 CSS pixels"
    "https://www.w3.org/TR/WCAG21/#target-size" (Some "keyboard");
  mkCriterion "2.5.6" "Concurrent Input Mechanisms" AAA
    "Input modalities are not restricted"
    "https://www.w3.org/TR/WCAG21/#concurrent-input-mechanisms" (Some "keyboard");
  mkCriterion "3.1.1" "Language of Page" A
    "Default language of the page can be programmatically determined"
    "https://www.w3.org/TR/WCAG21/#language-of-page" (Some "text");
  mkCriterion "3.1.2" "Language of Parts" AA
    "Language of passages/phrases can be programmatically determined"
    "https://www.w3.org/TR/WCAG21/#language-of-parts" (Some "text");
  mkCriterion "3.1.3" "Unusual Words" AAA
    "Mechanism for identifying definitions of unusual words"
    "https://www.w3.org/TR/WCAG21/#unusual-words" (Some "text");
  mkCriterion "3.1.4" "Abbreviations" AAA
    "Mechanism for identifying expanded form of abbreviations"
    "https://www.w3.org/TR/WCAG21/#abbreviations" (Some "text");
  mkCriterion "3.1.5" "Reading Level" AAA
    "Supplemental content available when text requires advanced reading"
    "https://www.w3.org/TR/WCAG21/#reading-level" (Some "text");
  mkCriterion "3.1.6" "Pronunciation" AAA
    "Mechanism for identifying pronunciation of words"
    "https://www.w3.org/TR/WCAG21/#pronunciation" (Some "text");
  mkCriterion "3.2.1" "On Focus" A
    "Focus does not trigger unexpected context changes"
    "https://www.w3.org/TR/WCAG21/#on-focus" (Some "keyboard");
  mkCriterion "3.2.2" "On Input" A
    "Input does not trigger unexpected context changes"
    "https://www.w3.org/TR/WCAG21/#on-input" (Some "forms");
  mkCriterion "3.2.3" "Consistent Navigation" AA
    "Navigation is consistent across pages"
    "https://www.w3.org/TR/WCAG21/#consistent-navigation" (Some "structure");
  mkCriterion "3.2.4" "Consistent Identification" AA
    "Components with same functionality identified consistently"
    "https://www.w3.org/TR/WCAG21/#consistent-identification" (Some "structure");
  mkCriterion "3.2.5" "Change on Request" AAA
    "Context changes only on user request"
    "https://www.w3.org/TR/WCAG21/#change-on-request" (Some "forms");
  mkCriterion "3.3.1" "Error Identification" A
    "Input errors are identified and described in text"
    "https://www.w3.org/TR/WCAG21/#error-identification" (Some "forms");
  mkCriterion "3.3.2" "Labels or Instructions" A
    "Labels or instructions provided for user input"
    "https://www.w3.org/TR/WCAG21/#labels-or-instructions" (Some "forms");
  mkCriterion "3.3.3" "Error Suggestion" AA
    "Suggestions provided for correcting input errors"
    "https://www.w3.org/TR/WCAG21/#error-suggestion" (Some "forms");
  mkCriterion "3.3.4" "Error Prevention (Legal, Financial, Data)" AA
    "Submissions are reversible, checked, or confirmed"
    "https://www.w3.org/TR/WCAG21/#error-prevention-legal-financial-data" (Some "forms");
  mkCriterion "3.3.5" "Help" AAA
    "Context-sensitive help is available"
    "https://www.w3.org/TR/WCAG21/#help" (Some "forms");
  mkCriterion "3.3.6" "Error Prevention (All)" AAA
    "All submissions are reversible, checked, or confirmed"
    "https://www.w3.org/TR/WCAG21/#error-prevention-all" (Some "forms");
  mkCriterion "4.1.1" "Parsing" A
    "Elements have complete start/end tags and are properly nested (obsolete in WCAG 2.2)"
    "https://www.w3.org/TR/WCAG21/#parsing" (Some "aria");
  mkCriterion "4.1.2" "Name, Role, Value" A
    "UI components have accessible name, role, states, properties, and values"
    "https://www.w3.org/TR/WCAG21/#name-role-value" (Some "aria");
  mkCriterion "4.1.3" "Status Messages" AA
    "Status messages can be programmatically determined without focus"
    "https://www.w3.org/TR/WCAG21/#status-messages" (Some "aria")].

(** [WCAG_CRITERIA[id]]. For an id that is a member inherited from
    [Object.prototype] the source yields that member, which has no [url];
    the only use of the result, [getCriterion(id)?.url], is [undefined]
    there as it is for an id that is absent. *)
Definition getCriterion (id : string) : option WcagCriterion :=
  find (fun c => String.eqb (c_id c) id) WCAG_CRITERIA.

Definition getCriteriaByCategory (cat : string) : list WcagCriterion :=
  filter (fun c => match c_category c with
                   | Some k => String.eqb k cat
                   | None => false
                   end) WCAG_CRITERIA.

Definition getCriteriaByLevel (l : WcagLevel) : list WcagCriterion :=
  filter (fun c => WcagLevel_eqb (c_level c) l) WCAG_CRITERIA.

(** Available categories *)
Definition CATEGORIES : list string :=
  ["text"; "media"; "structure"; "keyboard"; "forms"; "aria";
   "text-alternatives"].

End Criteria.

(** ** Report builder (core package) *)

Module Report.

Definition hasStatus (s : CheckStatus) (r : CheckResult) : bool :=
  CheckStatus_eqb (status r) s.

Definition heavyRule : string :=
  "═══════════════════════════════════════════════════════════════".

Definition lightRule : string :=
  "───────────────────────────────────────────────────────────────".

(** [[criterion] name (Level X)], the head of every entry. *)
Definition entryHead (r : CheckResult) : string :=
  "[" ++ criterion r ++ "] " ++ name r ++
  " (Level " ++ levelToString (level r) ++ ")".

(** The lines of one failure or warning: head, indented message, the
    recommendation when it is truthy, and an empty line. *)
Definition detailLines (r : CheckResult) : list string :=
  [entryHead r; "   " ++ message r] ++
  (if Js.truthy (recommendation r)
   then ["   → " ++ Js.orElse (recommendation r) ""]
   else []) ++
  [""].

(** The single line of an info or passed entry. *)
Definition briefLine (r : CheckResult) : string :=
  entryHead r ++ ": " ++ message r.

(** A section of the report; nothing at all when it has no entry. *)
Definition section (heading : string) (body : list string)
    (rs : list CheckResult) : list string :=
  match rs with
  | [] => []
  | _ :: _ => [heading; lightRule] ++ body
  end.

Section Rendering.
Context {B : Js.Builtins}.

Definition formatHumanReport (results : list CheckResult)
    (title : option string) : string :=
  let reportTitle :=
    match title with
    | Some t => t
    | None => "WCAG ACCESSIBILITY REPORT"
    end in
  let passed := filter (hasStatus Pass) results in
  let failed := filter (hasStatus Fail) results in
  let warnings := filter (hasStatus Warning) results in
  let info := filter (hasStatus Info) results in
  Js.join Js.nl
    ([heavyRule;
      "                    " ++ Js.toUpperCase reportTitle ++ "              ";
      heavyRule;
      "";
      "SUMMARY: " ++ Js.natToString (List.length passed) ++ " passed, " ++
        Js.natToString (List.length failed) ++ " failed, " ++
        Js.natToString (List.length warnings) ++ " warnings";
      ""] ++
     section "❌ FAILURES" (flat_map detailLines failed) failed ++
     section "⚠️  WARNINGS" (flat_map detailLines warnings) warnings ++
     section "ℹ️  INFO" (map briefLine info ++ [""]) info ++
     section "✅ PASSED" (map briefLine passed ++ [""]) passed ++
     [heavyRule]).

End Rendering.

(** One entry of the machine report: the verdict's own fields and the
    reference URL the catalog has for its criterion, if any. *)
Definition machineResult (r : CheckResult) : MachineResult :=
  mkMachineResult (criterion r) (name r) (level r) (status r) (value r)
    (required r) (message r) (recommendation r)
    (option_map c_url (Criteria.getCriterion (criterion r))).

(** The machine report reads the clock, once, for its timestamp. *)
Definition formatMachineReport (results : list CheckResult)
    (category : option string) : Js.Effect MachineReport :=
  fun w =>
    let passed := filter (hasStatus Pass) results in
    let failed := filter (hasStatus Fail) results in
    let warnings := filter (hasStatus Warning) results in
    let '(now, w') := Js.Date_toISOString w in
    (mkMachineReport "2.1" now category
       (mkMachineSummary (List.length results) (List.length passed)
          (List.length failed) (List.length warnings))
       (map machineResult results),
     w').

Record ReportOptions := mkOptions {
  title : option string;
  opt_category : option string
}.

Definition byLevel (results : list CheckResult) (l : WcagLevel)
    : LevelTally :=
  mkTally
    (List.length (filter (fun r => WcagLevel_eqb (level r) l &&
                              CheckStatus_eqb (status r) Pass) results))
    (List.length (filter (fun r => WcagLevel_eqb (level r) l &&
                              CheckStatus_eqb (status r) Fail) results)).

Section Building.
Context {B : Js.Builtins}.

Definition createReport (results : list CheckResult)
    (options : option ReportOptions) : Js.Effect ValidationReport :=
  fun w =>
    let passed := filter (hasStatus Pass) results in
    let failed := filter (hasStatus Fail) results in
    let warnings := filter (hasStatus Warning) results in
    let human :=
      formatHumanReport results
        (match options with Some o => title o | None => None end) in
    let '(machine, w') :=
      formatMachineReport results
        (match options with Some o => opt_category o | None => None end) w in
    (mkReport
       (mkSummary (List.length results) (List.length passed)
          (List.length failed) (List.length warnings)
          (byLevel results A) (byLevel results AA) (byLevel results AAA))
       results human machine,
     w').

End Building.

End Report.

(** ** Text checks (packages/text/src/checks.ts) *)

Module Text.

(** The part of the culori library the checks import (culori.d.ts):
    [parse] yields [undefined] on a string it cannot read. *)
Class Culori := {
  Color : Type;
  parse : string -> option Color;
  wcagContrast : Color -> Color -> float
}.

Module REQUIREMENTS.
Definition contrast_AA_normal : float := 4.5.
Definition contrast_AA_large : float := 3.
Definition contrast_AAA_normal : float := 7.
Definition contrast_AAA_large : float := 4.5.
Definition textSpacing_lineHeight : float := 1.5.
Definition textSpacing_paragraphSpacing : float := 2.
Definition textSpacing_letterSpacing : float := 0.12.
Definition textSpacing_wordSpacing : float := 0.16.
Definition lineLength_maxChars : nat := 80.
Definition largeText_normalPx : float := 24.
Definition largeText_boldPx : float := 18.66.
Definition reflow_minViewportWidth : float := 320.
End REQUIREMENTS.

Definition isLargeText (sizePx : float) (isBold : bool) : bool :=
  (REQUIREMENTS.largeText_normalPx <=? sizePx)%float ||
  (isBold && (REQUIREMENTS.largeText_boldPx <=? sizePx)%float).

(** One row of the [checks] table of [checkTextSpacing]. *)
Record SpacingCheck := mkSpacingCheck {
  sc_name : string;
  sc_value : option float;
  sc_multiplier : float;
  sc_label : string
}.

Section Checks.
Context {B : Js.Builtins} {C : Culori}.

Definition checkContrastRatio (foreground background : string)
    (sizePx : float) (isBoldArg : option bool) : list CheckResult :=
  let isBold := match isBoldArg with Some b => b | None => false end in
  match parse foreground, parse background with
  | Some fg, Some bg =>
    let ratio :=
      (Js.Math_round (wcagContrast fg bg * 100) / 100)%float in
    let large := isLargeText sizePx isBold in
    let textType := if large then "large" else "normal" in
    (* AA check (1.4.3) *)
    let aaRequired :=
      if large then REQUIREMENTS.contrast_AA_large
      else REQUIREMENTS.contrast_AA_normal in
    let aaPasses := (aaRequired <=? ratio)%float in
    (* AAA check (1.4.6) *)
    let aaaRequired :=
      if large then REQUIREMENTS.contrast_AAA_large
      else REQUIREMENTS.contrast_AAA_normal in
    let aaaPasses := (aaaRequired <=? ratio)%float in
    [ mkResult "1.4.3" "Contrast (Minimum)" AA
        (if aaPasses then Pass else Fail)
        (Some (VNumber ratio)) (Some (VNumber aaRequired))
        ("Contrast ratio " ++ Js.numberToString ratio ++
         (if aaPasses then ":1 meets AA requirement ("
          else ":1 fails AA requirement (") ++
         Js.numberToString aaRequired ++ ":1 for " ++ textType ++ " text)")
        (if aaPasses then None
         else Some ("Increase contrast to at least " ++
                    Js.numberToString aaRequired ++ ":1"));
      mkResult "1.4.6" "Contrast (Enhanced)" AAA
        (if aaaPasses then Pass else if aaPasses then Warning else Fail)
        (Some (VNumber ratio)) (Some (VNumber aaaRequired))
        ("Contrast ratio " ++ Js.numberToString ratio ++
         (if aaaPasses then ":1 meets AAA requirement ("
          else ":1 does not meet AAA requirement (") ++
         Js.numberToString aaaRequired ++ ":1 for " ++ textType ++ " text)")
        (if aaaPasses then None
         else Some ("Increase contrast to at least " ++
                    Js.numberToString aaaRequired ++
                    ":1 for enhanced accessibility")) ]
  | fg, _ =>
    [ mkResult "1.4.3" "Contrast (Minimum)" AA Fail None None
        ("Invalid color: " ++
         match fg with None => foreground | Some _ => background end)
        None ]
  end.

(** [check.value! >= required]; a row with no value never reaches the
    loop, and would compare as false. *)
Definition spacingPasses (fontSize : float) (check : SpacingCheck) : bool :=
  match sc_value check with
  | Some v => (fontSize * sc_multiplier check <=? v)%float
  | None => false
  end.

Definition spacingDetail (fontSize : float) (check : SpacingCheck)
    : string :=
  let required := (fontSize * sc_multiplier check)%float in
  let passes := spacingPasses fontSize check in
  sc_label check ++ ": " ++
  match sc_value check with
  | Some v => Js.numberToString v
  | None => "undefined"
  end ++ "px " ++ (if passes then "≥" else "<") ++ " " ++
  Js.toFixed required 1 ++ "px (" ++
  Js.numberToString (sc_multiplier check) ++ "× font size) " ++
  (if passes then "✓" else "✗").

(** One turn of the loop over [testedChecks]: the state is
    [(allPass, details)]. *)
Definition spacingStep (fontSize : float) (st : bool * list string)
    (check : SpacingCheck) : bool * list string :=
  let passes := spacingPasses fontSize check in
  ((if negb passes then false else fst st),
   (snd st ++ [spacingDetail fontSize check])%list).

Definition checkTextSpacing (fontSize : float)
    (lineHeight letterSpacing wordSpacing paragraphSpacing : option float)
    : list CheckResult :=
  let checks :=
    [ mkSpacingCheck "lineHeight" lineHeight
        REQUIREMENTS.textSpacing_lineHeight "Line height";
      mkSpacingCheck "letterSpacing" letterSpacing
        REQUIREMENTS.textSpacing_letterSpacing "Letter spacing";
      mkSpacingCheck "wordSpacing" wordSpacing
        REQUIREMENTS.textSpacing_wordSpacing "Word spacing";
      mkSpacingCheck "paragraphSpacing" paragraphSpacing
        REQUIREMENTS.textSpacing_paragraphSpacing "Paragraph spacing" ] in
  let testedChecks :=
    filter (fun c => match sc_value c with Some _ => true | None => false end)
      checks in
  match testedChecks with
  | [] =>
    [ mkResult "1.4.12" "Text Spacing" AA Info None None
        "No spacing values provided to check. Ensure content adapts to user-defined spacing."
        None ]
  | _ :: _ =>
    let '(allPass, details) :=
      fold_left (spacingStep fontSize) testedChecks (true, []) in
    let listing := Js.join (Js.nl ++ "   ") details in
    [ mkResult "1.4.12" "Text Spacing" AA
        (if allPass then Pass else Fail) None None
        ((if allPass then "Text spacing supports WCAG requirements:"
          else "Text spacing fails WCAG requirements:") ++
         Js.nl ++ "   " ++ listing)
        (if allPass then None
         else Some "Ensure text remains readable when users apply custom spacing styles") ]
  end.

(** [text.split("\n")], the length of each line, and the longest. The
    spread into [Math.max] is taken within the argument limit of the
    engine. *)
Definition checkLineLength (text : string) : list CheckResult :=
  let lines := Js.String_split "010"%char text in
  let lengths := map Js.length16 lines in
  let longest := Js.Math_max lengths in
  let maxAllowed := REQUIREMENTS.lineLength_maxChars in
  let passes := (longest <=? maxAllowed)%nat in
  [ mkResult "1.4.8" "Visual Presentation (Line Length)" AAA
      (if passes then Pass else Warning)
      (Some (VCount (Z.of_nat longest))) (Some (VCount (Z.of_nat maxAllowed)))
      (if passes
       then "Longest line is " ++ Js.natToString longest ++
            " characters (max " ++ Js.natToString maxAllowed ++ " for AAA)"
       else "Longest line is " ++ Js.natToString longest ++
            " characters, exceeds " ++ Js.natToString maxAllowed ++
            " character recommendation")
      (if passes then None
       else Some "Consider breaking long lines to improve readability") ].

Definition checkTextJustification (isJustified : bool) : list CheckResult :=
  [ mkResult "1.4.8" "Visual Presentation (Justification)" AAA
      (if isJustified then Fail else Pass)
      (Some (VBoolean isJustified)) None
      (if isJustified
       then "Text is fully justified, which can create uneven spacing"
       else "Text is not fully justified")
      (if isJustified
       then Some "Use left, right, or center alignment instead of full justification"
       else None) ].

Definition checkResizeText (usesRelativeUnits hasFixedContainers : bool)
    : list CheckResult :=
  ((if negb usesRelativeUnits then
      [ mkResult "1.4.4" "Resize Text" AA Warning
          (Some (VBoolean usesRelativeUnits)) None
          "Text may not use relative units (em, rem, %)"
          (Some "Use relative units for font sizes to allow proper scaling") ]
    else
      [ mkResult "1.4.4" "Resize Text" AA Pass None None
          "Text uses relative units for proper scaling" None ]) ++
   (if hasFixedContainers then
      [ mkResult "1.4.10" "Reflow" AA Warning None None
          "Fixed-width containers may prevent content reflow at high zoom levels"
          (Some "Use responsive layouts that adapt to viewport changes") ]
    else []))%list.

Definition checkLanguage (hasLangAttribute : bool)
    (langValue : option string) : list CheckResult :=
  if negb hasLangAttribute then
    [ mkResult "3.1.1" "Language of Page" A Fail None None
        "Page is missing lang attribute on html element"
        (Some ("Add lang attribute to html element (e.g., <html lang=" ++
               Js.dq ++ "en" ++ Js.dq ++ ">)")) ]
  else if negb (Js.truthy langValue) ||
          (Js.length16 (Js.orElse langValue "") <? 2)%nat then
    [ mkResult "3.1.1" "Language of Page" A Fail
        (option_map VString langValue) None
        ("Invalid lang attribute value: " ++ Js.dq ++
         match langValue with Some v => v | None => "undefined" end ++ Js.dq)
        (Some ("Use valid BCP 47 language tag (e.g., " ++
               Js.dq ++ "en" ++ Js.dq ++ ", " ++
               Js.dq ++ "en-US" ++ Js.dq ++ ", " ++
               Js.dq ++ "es" ++ Js.dq ++ ")")) ]
  else
    [ mkResult "3.1.1" "Language of Page" A Pass
        (option_map VString langValue) None
        ("Page language is set to " ++ Js.dq ++
         Js.orElse langValue "" ++ Js.dq)
        None ].

Definition checkImagesOfText (hasImagesOfText : bool)
    (isEssentialArg : option bool) : list CheckResult :=
  let isEssential :=
    match isEssentialArg with Some b => b | None => false end in
  if negb hasImagesOfText then
    [ mkResult "1.4.5" "Images of Text" AA Pass None None
        "No images of text detected" None ]
  else if isEssential then
    [ mkResult "1.4.5" "Images of Text" AA Pass None None
        "Images of text are marked as essential (logos, etc.)" None ]
  else
    [ mkResult "1.4.5" "Images of Text" AA Fail None None
        "Images of text should be replaced with actual text"
        (Some "Use CSS for visual styling instead of text in images") ].

Record FullValidationInput := mkFullValidation {
  foreground : string;
  background : string;
  fontSize : float;
  isBold : option bool;
  lineHeight : option float;
  letterSpacing : option float;
  wordSpacing : option float;
  paragraphSpacing : option float;
  sampleText : option string;
  isJustified : option bool;
  usesRelativeUnits : option bool;
  hasFixedContainers : option bool;
  hasLangAttribute : option bool;
  langValue : option string;
  hasImagesOfText : option bool;
  imagesAreEssential : option bool
}.

Definition validateAll (input : FullValidationInput) : list CheckResult :=
  (* Contrast checks (1.4.3, 1.4.6) *)
  (checkContrastRatio (foreground input) (background input)
     (fontSize input) (isBold input) ++
   (* Text spacing check (1.4.12) *)
   checkTextSpacing (fontSize input) (lineHeight input)
     (letterSpacing input) (wordSpacing input) (paragraphSpacing input) ++
   (* Line length check (1.4.8) *)
   (if Js.truthy (sampleText input)
    then checkLineLength (Js.orElse (sampleText input) "")
    else []) ++
   (* Justification check (1.4.8) *)
   match isJustified input with
   | Some j => checkTextJustification j
   | None => []
   end ++
   (* Resize/Reflow checks (1.4.4, 1.4.10) *)
   match usesRelativeUnits input, hasFixedContainers input with
   | None, None => []
   | u, f =>
     checkResizeText (match u with Some b => b | None => true end)
       (match f with Some b => b | None => false end)
   end ++
   (* Language check (3.1.1) *)
   match hasLangAttribute input with
   | Some h => checkLanguage h (langValue input)
   | None => []
   end ++
   (* Images of text check (1.4.5) *)
   match hasImagesOfText input with
   | Some h => checkImagesOfText h (imagesAreEssential input)
   | None => []
   end)%list.

End Checks.

End Text.

(** ** Structure checks: heading structure (structure package) *)

Module Structure.

Record HeadingInput := mkHeading {
  h_level : Z;
  h_text : string;
  isFirst : option bool;
  previousLevel : option Z
}.

Record HeadingStructureInput := mkHeadingStructure {
  headings : list HeadingInput;
  hasH1 : option bool;
  h1Count : option Z
}.

(** [hN → hM ("text")], one recorded skip. *)
Definition skipMessage (previous current : HeadingInput) : string :=
  "h" ++ Js.intToString (h_level previous) ++ " → h" ++
  Js.intToString (h_level current) ++
  " (" ++ Js.dq ++ h_text current ++ Js.dq ++ ")".

(** The body of the loop [for (let i = 1; i < headings.length; i++)]. *)
Definition skipStep (hs : list HeadingInput) (skippedLevels : list string)
    (i : nat) : list string :=
  match nth_error hs i, nth_error hs (i - 1) with
  | Some current, Some previous =>
    let diff := (h_level current - h_level previous)%Z in
    if (1 <? diff)%Z
    then (skippedLevels ++ [skipMessage previous current])%list
    else skippedLevels
  | _, _ => skippedLevels
  end.

Definition skippedLevels (hs : list HeadingInput) : list string :=
  fold_left (skipStep hs) (seq 1 (List.length hs - 1)) [].

Definition countH1 (input : HeadingStructureInput) : Z :=
  match h1Count input with
  | Some n => n
  | None =>
    Z.of_nat (List.length (filter (fun h => (h_level h =? 1)%Z)
                             (headings input)))
  end.

(** The verdict about the number of h1 headings, if any. *)
Definition h1Verdicts (n : Z) : list CheckResult :=
  if (n =? 0)%Z then
    [ mkResult "1.3.1" "Info and Relationships" A Warning None None
        "Page lacks h1 heading"
        (Some "Add a main h1 heading that describes the page content") ]
  else if (1 <? n)%Z then
    [ mkResult "1.3.1" "Info and Relationships" A Warning
        (Some (VCount n)) None
        ("Page has " ++ Js.intToString n ++ " h1 headings")
        (Some "Consider using single h1 for main content; multiple h1s can confuse navigation") ]
  else [].

(** The verdict of the level scan: one warning listing every skip, or a
    pass. *)
Definition skipVerdict (skipped : list string) : CheckResult :=
  match skipped with
  | _ :: _ =>
    mkResult "1.3.1" "Info and Relationships" A Warning None None
      ("Heading levels skipped: " ++ Js.join "; " skipped)
      (Some "Use heading levels in order (h1, h2, h3...) without skipping levels")
  | [] =>
    mkResult "1.3.1" "Info and Relationships" A Pass None None
      "Heading levels follow logical sequence" None
  end.

Definition checkHeadingStructure (input : HeadingStructureInput)
    : list CheckResult :=
  let n := List.length (headings input) in
  match headings input with
  | [] =>
    [ mkResult "1.3.1" "Info and Relationships" A Warning None None
        "Page has no headings"
        (Some "Use heading elements (h1-h6) to identify sections of content") ]
  | _ :: _ =>
    (* 2.4.6 Headings and Labels (Level AA) *)
    [ mkResult "2.4.6" "Headings and Labels" AA Info None None
        ("Page has " ++ Js.natToString n ++ " heading(s)") None ] ++
    (* Check for h1 *)
    h1Verdicts (countH1 input) ++
    (* Check heading level skipping *)
    [ skipVerdict (skippedLevels (headings input)) ] ++
    (* 2.4.10 Section Headings (Level AAA) *)
    [ mkResult "2.4.10" "Section Headings" AAA
        (if (2 <=? n)%nat then Pass else Warning) None None
        (if (2 <=? n)%nat then "Section headings are used to organize content"
         else "Consider adding more section headings for AAA compliance")
        None ]
  end.

Record PageTitleInput := mkPageTitle {
  hasTitle : bool;
  titleText : option string;
  isDescriptive : option bool;
  identifiesSite : option bool
}.

Inductive DestinationType := same_page | new_page | download | external.

Record LinkInput := mkLink {
  linkText : string;
  l_isDescriptive : option bool;
  hasContext : option bool;
  contextText : option string;
  destinationType : option DestinationType;
  opensNewWindow : option bool;
  newWindowIndicated : option bool
}.

Record BypassBlocksInput := mkBypassBlocks {
  hasSkipLink : bool;
  skipLinkTarget : option string;
  hasLandmarks : option bool;
  hasHeadingStructure : option bool;
  landmarks : option (list string)
}.

Record ReadingOrderInput := mkReadingOrder {
  visualMatchesDom : bool;
  hasCssReordering : option bool;
  reorderedElements : option (list string);
  hasPositiveTabindex : option bool
}.

Record InfoRelationshipsInput := mkInfoRelationships {
  elementType : string;
  isProgrammatic : bool;
  usesSemanticHtml : option bool;
  ariaAttributes : option (list string);
  issues : option (list string)
}.

Record NavigationMethods := mkNavigationMethods {
  siteMap : option bool;
  search : option bool;
  tableOfContents : option bool;
  navigation : option bool;
  relatedLinks : option bool;
  breadcrumbs : option bool
}.

Record MultipleWaysInput := mkMultipleWays {
  navigationMethods : NavigationMethods;
  isProcessStep : option bool
}.

Record NavigationElement := mkNavigationElement {
  page : string;
  order : list string
}.

Record Component := mkComponent {
  function : string;
  identifiers : list string
}.

Section TextChecks.
Context {S : Js.StringOps}.

Definition checkPageTitle (input : PageTitleInput) : list CheckResult :=
  (* 2.4.2 Page Titled (Level A) *)
  if negb (hasTitle input) then
    [ mkResult "2.4.2" "Page Titled" A Fail None None
        "Page lacks a title"
        (Some "Add a <title> element to the page head") ]
  else
    match titleText input with
    | Some (String c rest) =>
      let title := String c rest in
      match Js.trim title with
      | EmptyString =>
        [ mkResult "2.4.2" "Page Titled" A Fail
            (Some (VString "(empty)")) None
            "Page title is empty"
            (Some "Provide a descriptive title that identifies the page content") ]
      | String _ _ =>
        (* Check if title is descriptive *)
        let genericTitles :=
          ["untitled"; "home"; "page"; "document"; "welcome"] in
        let isGeneric :=
          Js.Array_includes genericTitles (Js.trim (Js.toLowerCase title)) in
        if isGeneric ||
           match isDescriptive input with Some false => true | _ => false end
        then
          [ mkResult "2.4.2" "Page Titled" A Warning
              (Some (VString title)) None
              ("Page title " ++ Js.dq ++ title ++ Js.dq ++
               " may not be descriptive")
              (Some "Title should describe the page topic or purpose") ]
        else
          [ mkResult "2.4.2" "Page Titled" A Pass
              (Some (VString title)) None
              ("Page has title: " ++ Js.dq ++ title ++ Js.dq) None ]
      end
    | _ =>
      [ mkResult "2.4.2" "Page Titled" A Fail
          (Some (VString "(empty)")) None
          "Page title is empty"
          (Some "Provide a descriptive title that identifies the page content") ]
    end.

Definition genericTexts : list string :=
  ["click here"; "read more"; "learn more"; "here"; "more"; "link"; "this"].

Definition checkLinkPurpose (input : LinkInput) : list CheckResult :=
  (* Check for generic link text *)
  let isGeneric :=
    Js.Array_includes genericTexts
      (Js.trim (Js.toLowerCase (linkText input))) in
  (* 2.4.4 Link Purpose (In Context) - Level A *)
  let hasPurposeInContext :=
    Js.isTrue (l_isDescriptive input) ||
    (isGeneric && Js.isTrue (hasContext input)) in
  let linkOnly := Js.isTrue (l_isDescriptive input) && negb isGeneric in
  ([ mkResult "2.4.4" "Link Purpose (In Context)" A
       (if hasPurposeInContext then Pass else Fail)
       (Some (VString (linkText input))) None
       (if hasPurposeInContext
        then ("Link purpose clear: " ++ Js.dq ++ linkText input ++ Js.dq ++
              (if Js.isTrue (hasContext input)
               then " (with context)" else ""))%string
        else ("Link text " ++ Js.dq ++ linkText input ++ Js.dq ++
              " doesn't clearly indicate purpose")%string)
       (if hasPurposeInContext then None
        else Some "Use descriptive link text or ensure surrounding context clarifies purpose");
     (* 2.4.9 Link Purpose (Link Only) - Level AAA *)
     mkResult "2.4.9" "Link Purpose (Link Only)" AAA
       (if linkOnly then Pass else Warning)
       (Some (VString (linkText input))) None
       (if linkOnly
        then "Link text alone describes purpose (meets AAA)"
        else ("Consider making link text " ++ Js.dq ++ linkText input ++
              Js.dq ++ " self-describing for AAA")%string)
       (if linkOnly then None
        else Some "Link text should describe destination without needing surrounding context") ] ++
   (* Check new window indication *)
   (if Js.isTrue (opensNewWindow input) &&
       negb (Js.isTrue (newWindowIndicated input))
    then
      [ mkResult "2.4.4" "Link Purpose (In Context)" A Warning None None
          "Link opens in new window but this is not indicated"
          (Some "Indicate new window behavior (e.g., 'opens in new tab' in link text or title)") ]
    else []))%list.

End TextChecks.

Definition checkBypassBlocks (input : BypassBlocksInput) : list CheckResult :=
  (* 2.4.1 Bypass Blocks (Level A) *)
  let hasBypassMechanism :=
    hasSkipLink input || Js.isTrue (hasLandmarks input) ||
    Js.isTrue (hasHeadingStructure input) in
  if negb hasBypassMechanism then
    [ mkResult "2.4.1" "Bypass Blocks" A Fail None None
        "No mechanism to bypass repeated content blocks"
        (Some "Add skip link, use ARIA landmarks, or provide heading structure") ]
  else
    let mechanisms :=
      Js.flagged
        [ (hasSkipLink input, "skip link");
          (Js.isTrue (hasLandmarks input), "ARIA landmarks");
          (Js.isTrue (hasHeadingStructure input), "heading structure") ] in
    ([ mkResult "2.4.1" "Bypass Blocks" A Pass None None
         ("Bypass mechanism(s): " ++ Js.join ", " mechanisms)%string None ] ++
     (* Check skip link specifics *)
     (if hasSkipLink input && negb (Js.truthy (skipLinkTarget input)) then
        [ mkResult "2.4.1" "Bypass Blocks" A Warning None None
            "Skip link target not specified"
            (Some "Ensure skip link targets main content area") ]
      else []) ++
     (* Report landmarks if provided *)
     match landmarks input with
     | Some (l :: ls) =>
       [ mkResult "2.4.1" "Bypass Blocks" A Info None None
           ("Landmarks found: " ++ Js.join ", " (l :: ls))%string None ]
     | _ => []
     end)%list.

Definition checkReadingOrder (input : ReadingOrderInput) : list CheckResult :=
  (* 1.3.2 Meaningful Sequence (Level A) *)
  ((if negb (visualMatchesDom input) then
      [ mkResult "1.3.2" "Meaningful Sequence" A Fail None None
          "Visual order does not match DOM order"
          (Some "Ensure DOM order reflects meaningful reading sequence") ]
    else
      [ mkResult "1.3.2" "Meaningful Sequence" A Pass None None
          "Visual order matches DOM order" None ]) ++
   (* Check CSS reordering *)
   (if Js.isTrue (hasCssReordering input) then
      [ mkResult "1.3.2" "Meaningful Sequence" A Warning None None
          ("CSS reordering detected" ++
           match reorderedElements input with
           | Some elements => ": " ++ Js.join ", " elements
           | None => ""
           end)%string
          (Some "Verify CSS order/flex-order doesn't break reading sequence for screen readers") ]
    else []) ++
   (* Check positive tabindex *)
   (if Js.isTrue (hasPositiveTabindex input) then
      [ mkResult "2.4.3" "Focus Order" A Warning None None
          "Positive tabindex values found"
          (Some "Avoid positive tabindex; use DOM order or tabindex=0") ]
    else []))%list.

Definition checkInfoRelationships (input : InfoRelationshipsInput)
    : list CheckResult :=
  (* 1.3.1 Info and Relationships (Level A) *)
  if negb (isProgrammatic input) then
    [ mkResult "1.3.1" "Info and Relationships" A Fail None None
        (elementType input ++
         " relationships not programmatically determinable")
        (Some "Use semantic HTML or ARIA to convey structure and relationships") ]
  else
    ([ mkResult "1.3.1" "Info and Relationships" A Pass None None
         (elementType input ++
          " relationships are programmatically determinable")%string None ] ++
     (* Check semantic HTML usage *)
     (if negb (Js.isTrue (usesSemanticHtml input)) then
        [ mkResult "1.3.1" "Info and Relationships" A Warning None None
            (elementType input ++ " uses ARIA but not semantic HTML")%string
            (Some "Prefer semantic HTML elements over ARIA where possible") ]
      else []) ++
     (* Report issues *)
     map (fun issue =>
            mkResult "1.3.1" "Info and Relationships" A Warning None None
              issue None)
       (match issues input with Some xs => xs | None => [] end))%list.

Definition checkMultipleWays (input : MultipleWaysInput) : list CheckResult :=
  (* 2.4.5 Multiple Ways (Level AA) *)
  (* Exemption for pages that are part of a process *)
  if Js.isTrue (isProcessStep input) then
    [ mkResult "2.4.5" "Multiple Ways" AA Pass None None
        "Page is part of a process (exemption applies)" None ]
  else
    let methods := navigationMethods input in
    let availableMethods :=
      Js.flagged
        [ (Js.isTrue (siteMap methods), "site map");
          (Js.isTrue (search methods), "search");
          (Js.isTrue (tableOfContents methods), "table of contents");
          (Js.isTrue (navigation methods), "navigation menu");
          (Js.isTrue (relatedLinks methods), "related links");
          (Js.isTrue (breadcrumbs methods), "breadcrumbs") ] in
    let hasMultipleWays := (2 <=? List.length availableMethods)%nat in
    [ mkResult "2.4.5" "Multiple Ways" AA
        (if hasMultipleWays then Pass else Fail)
        (Some (VCount (Z.of_nat (List.length availableMethods)))) None
        (if hasMultipleWays
         then "Multiple ways to locate page: " ++
              Js.join ", " availableMethods
         else "Only " ++ Js.natToString (List.length availableMethods) ++
              " navigation method(s) found")
        (if hasMultipleWays then None
         else Some "Provide at least two ways to locate pages (e.g., navigation + search, sitemap + TOC)") ].

Definition checkConsistentNavigation
    (navigationElements : list NavigationElement) : list CheckResult :=
  match navigationElements with
  | first :: _ :: _ =>
    (* Compare navigation order across pages *)
    let firstOrder := Js.join "," (order first) in
    let isConsistent :=
      forallb (fun nav => String.eqb (Js.join "," (order nav)) firstOrder)
        navigationElements in
    [ mkResult "3.2.3" "Consistent Navigation" AA
        (if isConsistent then Pass else Fail) None None
        (if isConsistent
         then "Navigation appears in consistent order across pages"
         else "Navigation order varies between pages")
        (if isConsistent then None
         else Some "Maintain consistent navigation order across all pages") ]
  | _ =>
    [ mkResult "3.2.3" "Consistent Navigation" AA Info None None
        "Need multiple pages to check navigation consistency" None ]
  end.

(** The body of the loop over the components: one entry for a component
    with more than one distinct identifier. *)
Definition inconsistentEntry (component : Component) : list string :=
  if (1 <? List.length (nodup string_dec (identifiers component)))%nat
  then [ function component ++ ": " ++
         Js.join ", " (identifiers component) ]
  else [].

Definition checkConsistentIdentification (components : list Component)
    : list CheckResult :=
  let inconsistent := flat_map inconsistentEntry components in
  (* 3.2.4 Consistent Identification (Level AA) *)
  match inconsistent with
  | [] =>
    [ mkResult "3.2.4" "Consistent Identification" AA Pass None None
        "Components with same function are consistently identified" None ]
  | _ :: _ =>
    [ mkResult "3.2.4" "Consistent Identification" AA Fail None None
        ("Inconsistent identification: " ++ Js.join "; " inconsistent)
        (Some "Use consistent labels/names for components with the same function") ]
  end.

End Structure.

(** ** Plain objects used as string-keyed records *)

Module JsObject.

(** The own properties of an object literal [{}] that the code fills by
    assignment, in creation order. *)
Definition t (T : Type) : Type := list (string * T).

(** What [{}] inherits from [Object.prototype]: reading one of these
    keys from a record that has no own property of that name yields the
    inherited member (an object or a function), not [undefined]. *)
Definition inherited : list string :=
  [ "constructor"; "__defineGetter__"; "__defineSetter__";
    "hasOwnProperty"; "__lookupGetter__"; "__lookupSetter__";
    "isPrototypeOf"; "propertyIsEnumerable"; "toString"; "valueOf";
    "__proto__"; "toLocaleString" ].

Definition isInherited (k : string) : bool :=
  existsb (String.eqb k) inherited.

Fixpoint get {T : Type} (o : t T) (k : string) : option T :=
  match o with
  | [] => None
  | (k', v) :: rest => if String.eqb k' k then Some v else get rest k
  end.

(** Assignment [o[k] = v]: an existing property keeps its place. *)
Fixpoint set {T : Type} (o : t T) (k : string) (v : T) : t T :=
  match o with
  | [] => [(k, v)]
  | (k', v') :: rest =>
    if String.eqb k' k then (k, v) :: rest else (k', v') :: set rest k v
  end.

Definition digitValue (c : ascii) : option N :=
  let n := N_of_ascii c in
  if ((48 <=? n) && (n <=? 57))%N then Some (n - 48)%N else None.

Fixpoint parseDigits (s : string) (acc : N) : option N :=
  match s with
  | EmptyString => Some acc
  | String c rest =>
    match digitValue c with
    | Some d => parseDigits rest (acc * 10 + d)%N
    | None => None
    end
  end.

(** A key that is an array index: the canonical decimal form of an
    integer below 2^32 - 1. *)
Definition arrayIndex (k : string) : option N :=
  match k with
  | EmptyString => None
  | String c rest =>
    if Ascii.eqb c "0"%char then
      match rest with EmptyString => Some 0%N | _ => None end
    else
      match parseDigits k 0 with
      | Some n => if (n <=? 4294967294)%N then Some n else None
      | None => None
      end
  end.

Fixpoint insertByIndex {T : Type} (x : N * (string * T))
    (xs : list (N * (string * T))) : list (N * (string * T)) :=
  match xs with
  | [] => [x]
  | y :: rest =>
    if (fst x <=? fst y)%N then x :: y :: rest
    else y :: insertByIndex x rest
  end.

(** [Object.entries]: array-index keys in ascending order, then the
    other keys in creation order. *)
Definition entries {T : Type} (o : t T) : list (string * T) :=
  let indexed :=
    flat_map (fun kv => match arrayIndex (fst kv) with
                        | Some n => [(n, kv)]
                        | None => []
                        end) o in
  let named :=
    filter (fun kv => match arrayIndex (fst kv) with
                      | Some _ => false
                      | None => true
                      end) o in
  (map snd (fold_right insertByIndex [] indexed) ++ named)%list.

End JsObject.

(** A call either returns or throws. *)
Inductive Completion (T : Type) : Type :=
| Returns (x : T)
| Throws (error : string).
Arguments Returns {T} x.
Arguments Throws {T} error.

(** ** ARIA checks: landmarks (packages/aria/src/index.ts) *)

Module Aria.

Record Landmark := mkLandmark {
  role : string;
  label : option string
}.

Definition LandmarkTables : Type :=
  (JsObject.t nat * JsObject.t (list string))%type.

(** One turn of the grouping loop. A role that names a member inherited
    from [Object.prototype] finds that member in [landmarkLabels] in
    place of an array, and the call of its [push] throws. *)
Definition landmarkStep (st : Completion LandmarkTables)
    (landmark : Landmark) : Completion LandmarkTables :=
  match st with
  | Throws e => Throws e
  | Returns (landmarkCounts, landmarkLabels) =>
    if JsObject.isInherited (role landmark) then
      Throws "TypeError: landmarkLabels[landmark.role].push is not a function"
    else
      let count :=
        match JsObject.get landmarkCounts (role landmark) with
        | Some n => n
        | None => 0
        end in
      let labels :=
        match JsObject.get landmarkLabels (role landmark) with
        | Some ls => ls
        | None => []
        end in
      Returns
        (JsObject.set landmarkCounts (role landmark) (count + 1),
         JsObject.set landmarkLabels (role landmark)
           (labels ++ [Js.orElse (label landmark) "(unlabeled)"])%list)
  end.

(** [new Set(labels)]: its size and membership. *)
Definition setSize (labels : list string) : nat :=
  List.length (nodup string_dec labels).

Definition setHas (labels : list string) (x : string) : bool :=
  existsb (String.eqb x) labels.

Definition hasUniqueLabels (count : nat) (labels : list string) : bool :=
  (setSize labels =? count)%nat && negb (setHas labels "(unlabeled)").

(** The verdict for a role that occurs [count] > 1 times. *)
Definition duplicateRoleVerdict (role : string) (count : nat)
    (labels : list string) : CheckResult :=
  let unique := hasUniqueLabels count labels in
  mkResult "4.1.2" "Name, Role, Value" A
    (if unique then Pass else Fail)
    (Some (VString (Js.natToString count ++ " " ++ role ++ " landmarks")))
    None
    (if unique
     then "Multiple " ++ role ++ " landmarks have unique labels"
     else "Multiple " ++ role ++ " landmarks lack unique labels: " ++
          Js.join ", " labels)
    (if unique then None
     else Some ("Add unique aria-label or aria-labelledby to distinguish " ++
                role ++ " landmarks")).

Definition duplicateVerdicts (landmarkCounts : JsObject.t nat)
    (landmarkLabels : JsObject.t (list string)) : list CheckResult :=
  flat_map
    (fun entry =>
       let '(role, count) := entry in
       if (1 <? count)%nat then
         [ duplicateRoleVerdict role count
             (match JsObject.get landmarkLabels role with
              | Some ls => ls
              | None => []
              end) ]
       else [])
    (JsObject.entries landmarkCounts).

Definition checkLandmarks (landmarks : list Landmark)
    : Completion (list CheckResult) :=
  match fold_left landmarkStep landmarks (Returns ([], [])) with
  | Throws e => Throws e
  | Returns (landmarkCounts, landmarkLabels) =>
    (* Multiple landmarks of same type need unique labels *)
    let results := duplicateVerdicts landmarkCounts landmarkLabels in
    (* Check main landmark exists *)
    let results :=
      match JsObject.get landmarkCounts "main" with
      | Some (S _) => results
      | _ =>
        (results ++
         [ mkResult "4.1.2" "Name, Role, Value" A Warning None None
             "No main landmark found"
             (Some ("Add role=" ++ Js.dq ++ "main" ++ Js.dq ++
                    " or use <main> element for primary content")%string) ])%list
      end in
    Returns
      (match results, landmarks with
       | [], _ :: _ =>
         [ mkResult "4.1.2" "Name, Role, Value" A Pass None None
             (Js.natToString (List.length landmarks) ++
              " landmark(s) properly defined") None ]
       | _, _ => results
       end)
  end.

(** Roles that require accessible names *)
Definition ROLES_REQUIRING_NAME : list string :=
  [
    "alert"; "alertdialog"; "button"; "checkbox"; "combobox";
    "dialog"; "figure"; "form"; "grid"; "heading"; "img"; "link";
    "listbox"; "log"; "marquee"; "menu"; "menubar"; "meter";
    "navigation"; "progressbar"; "radio"; "radiogroup"; "region";
    "scrollbar"; "search"; "searchbox"; "slider"; "spinbutton";
    "status"; "switch"; "tab"; "table"; "tablist"; "tabpanel";
    "textbox"; "timer"; "toolbar"; "tree"; "treegrid" ].

(** Roles that are interactive *)
Definition INTERACTIVE_ROLES : list string :=
  [
    "button"; "checkbox"; "combobox"; "gridcell"; "link"; "listbox";
    "menu"; "menubar"; "menuitem"; "menuitemcheckbox";
    "menuitemradio"; "option"; "radio"; "scrollbar"; "searchbox";
    "slider"; "spinbutton"; "switch"; "tab"; "textbox"; "treeitem" ].

(** Landmark roles *)
Definition LANDMARK_ROLES : list string :=
  [
    "banner"; "complementary"; "contentinfo"; "form"; "main";
    "navigation"; "region"; "search" ].

Definition validRoles : list string :=
  [
    "alert"; "alertdialog"; "application"; "article"; "banner";
    "button"; "cell"; "checkbox"; "columnheader"; "combobox";
    "complementary"; "contentinfo"; "definition"; "dialog";
    "directory"; "document"; "feed"; "figure"; "form"; "grid";
    "gridcell"; "group"; "heading"; "img"; "link"; "list"; "listbox";
    "listitem"; "log"; "main"; "marquee"; "math"; "menu"; "menubar";
    "menuitem"; "menuitemcheckbox"; "menuitemradio"; "meter";
    "navigation"; "none"; "note"; "option"; "presentation";
    "progressbar"; "radio"; "radiogroup"; "region"; "row";
    "rowgroup"; "rowheader"; "scrollbar"; "search"; "searchbox";
    "separator"; "slider"; "spinbutton"; "status"; "switch"; "tab";
    "table"; "tablist"; "tabpanel"; "term"; "textbox"; "timer";
    "toolbar"; "tooltip"; "tree"; "treegrid"; "treeitem" ].

Definition isValidAriaRole (role : string) : bool :=
  Js.Array_includes validRoles role.

Definition implicitRoles : JsObject.t string :=
  [
    ("a", "link");
    ("article", "article");
    ("aside", "complementary");
    ("button", "button");
    ("datalist", "listbox");
    ("details", "group");
    ("dialog", "dialog");
    ("fieldset", "group");
    ("figure", "figure");
    ("footer", "contentinfo");
    ("form", "form");
    ("h1", "heading");
    ("h2", "heading");
    ("h3", "heading");
    ("h4", "heading");
    ("h5", "heading");
    ("h6", "heading");
    ("header", "banner");
    ("hr", "separator");
    ("img", "img");
    ("input", "textbox");
    ("li", "listitem");
    ("main", "main");
    ("math", "math");
    ("menu", "list");
    ("nav", "navigation");
    ("ol", "list");
    ("optgroup", "group");
    ("option", "option");
    ("output", "status");
    ("progress", "progressbar");
    ("section", "region");
    ("select", "listbox");
    ("summary", "button");
    ("table", "table");
    ("tbody", "rowgroup");
    ("td", "cell");
    ("textarea", "textbox");
    ("tfoot", "rowgroup");
    ("th", "columnheader");
    ("thead", "rowgroup");
    ("tr", "row");
    ("ul", "list") ].

Definition roleOwns : JsObject.t (list string) :=
  [ ("list", ["listitem"]);
    ("menu", ["menuitem"; "menuitemcheckbox"; "menuitemradio"]);
    ("menubar", ["menuitem"; "menuitemcheckbox"; "menuitemradio"]);
    ("tablist", ["tab"]);
    ("tree", ["treeitem"; "group"]);
    ("grid", ["row"; "rowgroup"]);
    ("table", ["row"; "rowgroup"]);
    ("radiogroup", ["radio"]);
    ("listbox", ["option"]) ].

Inductive AriaLive := polite | assertive | off.

Definition ariaLiveToString (v : option AriaLive) : string :=
  match v with
  | Some polite => "polite"
  | Some assertive => "assertive"
  | Some off => "off"
  | None => "undefined"
  end.

Record AriaElementInput := mkAriaElement {
  e_role : option string;
  accessibleName : option string;
  accessibleDescription : option string;
  tagName : string;
  isFocusable : option bool;
  ariaAttributes : option (JsObject.t string);
  isInteractive : option bool;
  id : option string;
  labelledBy : option (list string);
  describedBy : option (list string)
}.

Record StatusMessageInput := mkStatusMessage {
  hasLiveRegion : bool;
  ariaLive : option AriaLive;
  ariaAtomic : option bool;
  hasStatusRole : option bool;
  hasAlertRole : option bool;
  requiresFocus : option bool
}.

(** [boolean | "mixed"]. *)
Inductive Tristate := tri (b : bool) | mixed.

Record States := mkStates {
  s_expanded : option bool;
  s_selected : option bool;
  s_checked : option Tristate;
  s_pressed : option Tristate;
  s_disabled : option bool;
  s_invalid : option bool;
  s_required : option bool;
  s_readonly : option bool
}.

Record NameRoleValueInput := mkNameRoleValue {
  element : AriaElementInput;
  states : option States;
  statesAreCommunicated : option bool
}.

Definition present {T : Type} (o : option T) : nat :=
  match o with Some _ => 1 | None => 0 end.

(** [Object.keys(states).length]: the state fields that are given. *)
Definition stateKeys (st : States) : nat :=
  present (s_expanded st) + present (s_selected st) +
  present (s_checked st) + present (s_pressed st) +
  present (s_disabled st) + present (s_invalid st) +
  present (s_required st) + present (s_readonly st).

Record LabelInNameInput := mkLabelInName {
  visibleLabel : string;
  n_accessibleName : string
}.

Section StringChecks.
Context {S : Js.StringOps}.

(** [implicitRoles[tagName.toLowerCase()]]. For a tag named like a
    member that plain objects inherit the source yields that member, a
    value that is truthy and no role; its one caller treats it like
    [undefined] in every test it makes. *)
Definition getImplicitRole (tagName : string) : option string :=
  JsObject.get implicitRoles (Js.toLowerCase tagName).

Definition checkNameRoleValue (input : NameRoleValueInput)
    : list CheckResult :=
  let element := element input in
  let role :=
    if Js.truthy (e_role element) then e_role element
    else getImplicitRole (tagName element) in
  (* Check accessible name *)
  let needsName :=
    match role with
    | Some (String c r) => Js.Array_includes ROLES_REQUIRING_NAME (String c r)
    | _ => false
    end in
  let hasName :=
    Js.truthy (accessibleName element) &&
    match Js.trim (Js.orElse (accessibleName element) "") with
    | EmptyString => false
    | String _ _ => true
    end in
  let roleText := Js.orElse role "" in
  ((if needsName then
      [ mkResult "4.1.2" "Name, Role, Value" A
          (if hasName then Pass else Fail)
          (Some (VString (Js.orElse (accessibleName element) "(none)")))
          None
          (if hasName
           then ("Element has accessible name: " ++ Js.dq ++
                 Js.orElse (accessibleName element) "" ++ Js.dq)%string
           else ("Element with role " ++ Js.dq ++ roleText ++ Js.dq ++
                 " is missing accessible name")%string)
          (if hasName then None
           else Some "Add accessible name via aria-label, aria-labelledby, or native labeling mechanism") ]
    else []) ++
   (* Check role is valid *)
   match e_role element with
   | Some (String c r) =>
     let given := String c r in
     let isValidRole := isValidAriaRole given in
     [ mkResult "4.1.2" "Name, Role, Value" A
         (if isValidRole then Pass else Fail)
         (Some (VString given)) None
         ((if isValidRole then "Valid ARIA role: "
           else "Invalid ARIA role: ") ++ Js.dq ++ given ++ Js.dq)%string
         (if isValidRole then None
          else Some "Use a valid ARIA role from the WAI-ARIA specification") ]
   | _ => []
   end ++
   (* Check states are communicated *)
   match states input, statesAreCommunicated input with
   | Some st, Some communicated =>
     if (0 <? stateKeys st)%nat then
       [ mkResult "4.1.2" "Name, Role, Value" A
           (if communicated then Pass else Fail)
           (Some (VBoolean communicated)) None
           (if communicated
            then "State changes are communicated to assistive technology"
            else "State changes may not be communicated to assistive technology")
           (if communicated then None
            else Some "Use appropriate ARIA states (aria-expanded, aria-selected, etc.) that update dynamically") ]
     else []
   | _, _ => []
   end ++
   (* Check focusable interactive elements *)
   (if match role with
       | Some (String c r) => Js.Array_includes INTERACTIVE_ROLES (String c r)
       | _ => false
       end &&
       match isFocusable element with Some false => true | _ => false end
    then
      [ mkResult "4.1.2" "Name, Role, Value" A Fail None None
          ("Interactive element with role " ++ Js.dq ++ roleText ++ Js.dq ++
           " is not keyboard focusable")%string
          (Some "Ensure interactive elements can receive keyboard focus (tabindex=0 or native focusable element)") ]
    else []))%list.

Definition checkLabelInName (input : LabelInNameInput) : list CheckResult :=
  let visible := Js.trim (Js.toLowerCase (visibleLabel input)) in
  let accessible := Js.trim (Js.toLowerCase (n_accessibleName input)) in
  (* 2.5.3 Label in Name (Level A) *)
  let labelInName := Js.includes accessible visible in
  ([ mkResult "2.5.3" "Label in Name" A
       (if labelInName then Pass else Fail)
       (Some (VString ("Visible: " ++ Js.dq ++ visibleLabel input ++ Js.dq ++
                       " | Accessible: " ++ Js.dq ++
                       n_accessibleName input ++ Js.dq)%string))
       None
       (if labelInName
        then "Accessible name contains the visible label text"
        else "Accessible name does NOT contain the visible label text")
       (if labelInName then None
        else Some "Ensure the accessible name includes the visible label text, ideally at the start") ] ++
   (* Best practice: visible label at start of accessible name *)
   (if labelInName && negb (Js.startsWith accessible visible) then
      [ mkResult "2.5.3" "Label in Name" A Warning None None
          "Visible label is not at the start of accessible name"
          (Some "Place the visible label at the beginning of the accessible name for better voice control compatibility") ]
    else []))%list.

End StringChecks.

Definition checkStatusMessage (input : StatusMessageInput)
    : list CheckResult :=
  (* 4.1.3 Status Messages (Level AA) *)
  if Js.isTrue (requiresFocus input) then
    [ mkResult "4.1.3" "Status Messages" AA Fail None None
        "Status message requires focus to be perceived"
        (Some "Use aria-live regions or status/alert roles so messages are announced without focus") ]
  else
    let hasProperMarkup :=
      hasLiveRegion input || Js.isTrue (hasStatusRole input) ||
      Js.isTrue (hasAlertRole input) in
    if negb hasProperMarkup then
      [ mkResult "4.1.3" "Status Messages" AA Fail None None
          "Status message lacks live region or status role"
          (Some ("Add role=" ++ Js.dq ++ "status" ++ Js.dq ++
                 " or aria-live=" ++ Js.dq ++ "polite" ++ Js.dq ++
                 " for status messages, role=" ++ Js.dq ++ "alert" ++ Js.dq ++
                 " for urgent messages")) ]
    else
      ((* Check appropriate live region usage *)
       (if Js.isTrue (hasAlertRole input) &&
           match ariaLive input with Some polite => true | _ => false end
        then
          [ mkResult "4.1.3" "Status Messages" AA Warning None None
              "Alert role with polite live region may be redundant"
              (Some ("role=" ++ Js.dq ++ "alert" ++ Js.dq ++
                     " implies aria-live=" ++ Js.dq ++ "assertive" ++ Js.dq ++
                     "; consider using one or the other")%string) ]
        else []) ++
       [ mkResult "4.1.3" "Status Messages" AA Pass None None
           ("Status message properly announced via " ++
            Js.join ", "
              (Js.flagged
                 [ (Js.isTrue (hasStatusRole input),
                    "role=" ++ Js.dq ++ "status" ++ Js.dq);
                   (Js.isTrue (hasAlertRole input),
                    "role=" ++ Js.dq ++ "alert" ++ Js.dq);
                   (hasLiveRegion input,
                    "aria-live=" ++ Js.dq ++
                    ariaLiveToString (ariaLive input) ++ Js.dq) ]))%string
           None ])%list.

(** The issues [checkAriaAttributes] collects, in the order it tests
    them. *)
Definition ariaIssues (element : AriaElementInput) : list string :=
  let attrs :=
    match ariaAttributes element with Some o => o | None => [] end in
  let has k := Js.truthy (JsObject.get attrs k) in
  let roleGiven := Js.truthy (e_role element) in
  let roleText := Js.orElse (e_role element) "" in
  let supportsExpanded :=
    ["button"; "combobox"; "link"; "menuitem"; "row"; "tab"; "treeitem"] in
  let supportsChecked :=
    ["checkbox"; "menuitemcheckbox"; "menuitemradio"; "option"; "radio";
     "switch"] in
  ((* aria-label on non-interactive element without role *)
   (if has "aria-label" && negb roleGiven &&
       negb (Js.isTrue (isInteractive element))
    then ["aria-label on non-interactive element without explicit role"]
    else []) ++
   (* aria-hidden on focusable element *)
   (if match JsObject.get attrs "aria-hidden" with
       | Some v => String.eqb v "true"
       | None => false
       end && Js.isTrue (isFocusable element)
    then [("aria-hidden=" ++ Js.dq ++ "true" ++ Js.dq ++
           " on focusable element")%string]
    else []) ++
   (* aria-expanded on element that doesn't support it *)
   (if has "aria-expanded" && roleGiven &&
       negb (Js.Array_includes supportsExpanded roleText)
    then [("aria-expanded not supported on role " ++ Js.dq ++ roleText ++
           Js.dq)%string]
    else []) ++
   (* aria-checked on element that doesn't support it *)
   (if has "aria-checked" && roleGiven &&
       negb (Js.Array_includes supportsChecked roleText)
    then [("aria-checked not supported on role " ++ Js.dq ++ roleText ++
           Js.dq)%string]
    else []))%list.

Definition checkAriaAttributes (element : AriaElementInput)
    : Completion (list CheckResult) :=
  let attrs :=
    match ariaAttributes element with Some o => o | None => [] end in
  let issues := ariaIssues element in
  let results :=
    match issues with
    | _ :: _ =>
      [ mkResult "4.1.2" "Name, Role, Value" A Fail None None
          ("ARIA attribute issues: " ++ Js.join "; " issues)
          (Some "Use ARIA attributes only as specified in the WAI-ARIA specification") ]
    | [] =>
      if (0 <? List.length (JsObject.entries attrs))%nat then
        [ mkResult "4.1.2" "Name, Role, Value" A Pass None None
            "ARIA attributes are used appropriately" None ]
      else []
    end in
  (* Check for required owned elements *)
  match e_role element with
  | Some (String c r) =>
    let role := String c r in
    if JsObject.isInherited role then
      Throws "TypeError: roleOwns[element.role].join is not a function"
    else
      match JsObject.get roleOwns role with
      | Some owned =>
        Returns
          (results ++
           [ mkResult "4.1.2" "Name, Role, Value" A Info None None
               ("Role " ++ Js.dq ++ role ++ Js.dq ++ " must contain: " ++
                Js.join " or " owned)%string None ])%list
      | None => Returns results
      end
  | _ => Returns results
  end.

End Aria.

(** ** Form checks: error prevention (packages/forms/src/checks.ts) *)

Module Forms.

Inductive TransactionType :=
| legal | financial | data_modification | test | other.

Definition transactionTypeToString (t : TransactionType) : string :=
  match t with
  | legal => "legal"
  | financial => "financial"
  | data_modification => "data-modification"
  | test => "test"
  | other => "other"
  end.

Record FormSubmissionInput := mkFormSubmission {
  transactionType : TransactionType;
  isReversible : option bool;
  dataIsChecked : option bool;
  canReview : option bool;
  requiresConfirmation : option bool
}.

(** [a || b] on optional booleans: the first operand when it is [true],
    the second otherwise (which may be [false] or [undefined]). *)
Definition jsOr (a b : option bool) : option bool :=
  match a with
  | Some true => Some true
  | _ => b
  end.

Definition isTrue (a : option bool) : bool :=
  match a with
  | Some true => true
  | _ => false
  end.

Definition checkErrorPrevention (input : FormSubmissionInput)
    : list CheckResult :=
  let isHighStakes :=
    existsb (String.eqb (transactionTypeToString (transactionType input)))
      ["legal"; "financial"; "data-modification"] in
  if negb isHighStakes then
    [ mkResult "3.3.4" "Error Prevention (Legal, Financial, Data)" AA Info
        None None
        ("Transaction type " ++ Js.dq ++
         transactionTypeToString (transactionType input) ++ Js.dq ++
         " may not require error prevention measures")
        None ]
  else
    (* 3.3.4 Error Prevention (Legal, Financial, Data) - Level AA *)
    let hasPrevention :=
      jsOr (jsOr (jsOr (isReversible input) (dataIsChecked input))
              (canReview input))
        (requiresConfirmation input) in
    let preventionMethods :=
      ((if isTrue (isReversible input) then ["reversible"] else []) ++
       (if isTrue (dataIsChecked input) then ["checked for errors"] else []) ++
       (if isTrue (canReview input)
        then ["review before submission"] else []) ++
       (if isTrue (requiresConfirmation input)
        then ["confirmation required"] else []))%list in
    [ mkResult "3.3.4" "Error Prevention (Legal, Financial, Data)" AA
        (if isTrue hasPrevention then Pass else Fail)
        (option_map VBoolean hasPrevention) None
        (if isTrue hasPrevention
         then "Error prevention: " ++ Js.join ", " preventionMethods
         else transactionTypeToString (transactionType input) ++
              " transaction lacks error prevention mechanism")
        (if isTrue hasPrevention then None
         else Some "Provide at least one: reversibility, error checking, review opportunity, or confirmation");
      (* 3.3.6 Error Prevention (All) - Level AAA *)
      mkResult "3.3.6" "Error Prevention (All)" AAA
        (if isTrue hasPrevention then Pass else Warning) None None
        (if isTrue hasPrevention
         then "Form submission has error prevention (meets AAA for all submissions)"
         else "Consider adding error prevention for all form submissions (AAA)")
        (if isTrue hasPrevention then None
         else Some "For AAA, all submissions should be reversible, checked, or confirmed") ].

Inductive FieldType :=
| ft_text | ft_email | ft_password | ft_tel | ft_url | ft_number | ft_date
| ft_select | ft_checkbox | ft_radio | ft_textarea | ft_file | ft_other.

Definition fieldTypeToString (t : FieldType) : string :=
  match t with
  | ft_text => "text"
  | ft_email => "email"
  | ft_password => "password"
  | ft_tel => "tel"
  | ft_url => "url"
  | ft_number => "number"
  | ft_date => "date"
  | ft_select => "select"
  | ft_checkbox => "checkbox"
  | ft_radio => "radio"
  | ft_textarea => "textarea"
  | ft_file => "file"
  | ft_other => "other"
  end.

Record FormFieldInput := mkFormField {
  fieldType : FieldType;
  hasVisibleLabel : bool;
  hasAccessibleLabel : bool;
  labelText : option string;
  hasPlaceholder : option bool;
  placeholderText : option string;
  placeholderAsLabel : option bool;
  hasInstructions : option bool;
  isRequired : option bool;
  requiredIndicatedVisually : option bool;
  requiredIndicatedProgrammatically : option bool;
  autocomplete : option string;
  inputPurpose : option string
}.

Record FormErrorInput := mkFormError {
  hasErrors : bool;
  errorsInText : option bool;
  errorFieldIdentified : option bool;
  errorDescribed : option bool;
  hasSuggestions : option bool;
  errorAnnounced : option bool;
  focusMovesToError : option bool;
  errorMessage : option string
}.

Record InputConstraintInput := mkInputConstraint {
  fieldName : string;
  hasFormatRequirements : bool;
  formatExplained : option bool;
  exampleProvided : option bool;
  hasRealtimeValidation : option bool;
  hasInputConstraints : option bool;
  constraintDescription : option string
}.

Record OnInputInput := mkOnInput {
  elementType : string;
  changesContextOnInput : bool;
  userWarned : option bool
}.

(** Autocomplete token mapping for 1.3.5 *)
Definition VALID_AUTOCOMPLETE_TOKENS : JsObject.t string :=
  [
    ("name", "Full name");
    ("honorific-prefix", "Prefix (Mr., Ms., Dr.)");
    ("given-name", "First name");
    ("additional-name", "Middle name");
    ("family-name", "Last name");
    ("honorific-suffix", "Suffix (Jr., III)");
    ("nickname", "Nickname");
    ("email", "Email address");
    ("username", "Username");
    ("new-password", "New password");
    ("current-password", "Current password");
    ("one-time-code", "One-time code (OTP)");
    ("organization-title", "Job title");
    ("organization", "Organization name");
    ("street-address", "Street address");
    ("address-line1", "Address line 1");
    ("address-line2", "Address line 2");
    ("address-line3", "Address line 3");
    ("address-level4", "Address level 4");
    ("address-level3", "Address level 3");
    ("address-level2", "City");
    ("address-level1", "State/Province");
    ("country", "Country code");
    ("country-name", "Country name");
    ("postal-code", "Postal/ZIP code");
    ("cc-name", "Cardholder name");
    ("cc-given-name", "Cardholder first name");
    ("cc-additional-name", "Cardholder middle name");
    ("cc-family-name", "Cardholder last name");
    ("cc-number", "Credit card number");
    ("cc-exp", "Card expiration date");
    ("cc-exp-month", "Card expiration month");
    ("cc-exp-year", "Card expiration year");
    ("cc-csc", "Card security code");
    ("cc-type", "Card type");
    ("transaction-currency", "Transaction currency");
    ("transaction-amount", "Transaction amount");
    ("language", "Preferred language");
    ("bday", "Birthday");
    ("bday-day", "Birthday day");
    ("bday-month", "Birthday month");
    ("bday-year", "Birthday year");
    ("sex", "Sex/Gender");
    ("tel", "Full telephone number");
    ("tel-country-code", "Country code");
    ("tel-national", "National telephone number");
    ("tel-area-code", "Area code");
    ("tel-local", "Local telephone number");
    ("tel-extension", "Phone extension");
    ("impp", "IM protocol endpoint");
    ("url", "Website URL");
    ("photo", "Photo URL") ].

Definition checkFormLabels (input : FormFieldInput) : list CheckResult :=
  (* 3.3.2 Labels or Instructions (Level A) *)
  let hasLabel := hasVisibleLabel input || hasAccessibleLabel input in
  let kind := fieldTypeToString (fieldType input) in
  ((if negb hasLabel then
      [ mkResult "3.3.2" "Labels or Instructions" A Fail None None
          (kind ++ " field lacks label")%string
          (Some "Add a visible label associated with the form field using <label> element or aria-labelledby") ]
    else
      [ mkResult "3.3.2" "Labels or Instructions" A Pass
          (Some (VString (Js.orElse (labelText input)
                            "(accessible label provided)")))
          None
          (kind ++ " field has " ++
           (if hasVisibleLabel input then "visible" else "accessible") ++
           " label")%string
          None ]) ++
   (* Check placeholder-as-label anti-pattern *)
   (if isTrue (placeholderAsLabel input) then
      [ mkResult "3.3.2" "Labels or Instructions" A Fail None None
          "Placeholder text used as only label"
          (Some "Placeholders disappear on input; use persistent visible labels instead") ]
    else []) ++
   (* Check visible vs accessible label consistency *)
   (if hasVisibleLabel input && negb (hasAccessibleLabel input) then
      [ mkResult "3.3.2" "Labels or Instructions" A Warning None None
          "Visible label may not be programmatically associated"
          (Some ("Use <label for=" ++ Js.dq ++ "id" ++ Js.dq ++
                 ">, aria-labelledby, or wrap input in label element")%string) ]
    else []) ++
   (* Check required field indication *)
   (if isTrue (isRequired input) then
      (if negb (isTrue (requiredIndicatedVisually input)) then
         [ mkResult "3.3.2" "Labels or Instructions" A Warning None None
             "Required field not indicated visually"
             (Some "Add visual indicator (asterisk, 'required' text) for required fields") ]
       else []) ++
      (if negb (isTrue (requiredIndicatedProgrammatically input)) then
         [ mkResult "3.3.2" "Labels or Instructions" A Fail None None
             "Required field not indicated programmatically"
             (Some ("Add required attribute or aria-required=" ++ Js.dq ++
                    "true" ++ Js.dq)%string) ]
       else [])
    else []))%list.

(** The text a template literal gives for a member that plain objects
    inherit (a built-in function, or the prototype itself): the engine's
    own. *)
Class ObjectPrototype := {
  memberToString : string -> string
}.

Definition userInfoFields : list string :=
  ["name"; "email"; "tel"; "password"; "address"; "cc"; "bday"].

(** [input.autocomplete.split(" ").pop() || ""]. *)
Definition lastToken (autocomplete : string) : string :=
  last (Js.String_split " "%char autocomplete) "".

Section InputPurpose.
Context {P : ObjectPrototype}.

(** [VALID_AUTOCOMPLETE_TOKENS[token]]: the description of a token of
    the table, an inherited member for a token named like one. *)
Definition tokenDescription (token : string) : option string :=
  match JsObject.get VALID_AUTOCOMPLETE_TOKENS token with
  | Some description => Some description
  | None =>
    if JsObject.isInherited token then Some (memberToString token)
    else None
  end.

Definition checkInputPurpose (input : FormFieldInput) : list CheckResult :=
  (* 1.3.5 Identify Input Purpose (Level AA) *)
  (* Only applies to fields collecting user information *)
  let kind := fieldTypeToString (fieldType input) in
  let isUserInfoField :=
    existsb (fun f =>
               Js.includes kind f ||
               (Js.truthy (inputPurpose input) &&
                Js.includes (Js.orElse (inputPurpose input) "") f))
      userInfoFields in
  match autocomplete input with
  | Some (String c r) =>
    let given := String c r in
    let token := lastToken given in
    match tokenDescription token with
    | Some description =>
      [ mkResult "1.3.5" "Identify Input Purpose" AA Pass
          (Some (VString given)) None
          ("Input purpose identified: " ++ description ++
           " (autocomplete=" ++ Js.dq ++ given ++ Js.dq ++ ")")
          None ]
    | None =>
      [ mkResult "1.3.5" "Identify Input Purpose" AA Warning
          (Some (VString given)) None
          ("Autocomplete value " ++ Js.dq ++ given ++ Js.dq ++
           " may not be a standard token")
          (Some "Use standard autocomplete tokens from HTML specification") ]
    end
  | _ =>
    if isUserInfoField then
      [ mkResult "1.3.5" "Identify Input Purpose" AA Warning None None
          (kind ++ " field collecting user info should have autocomplete attribute")
          (Some ("Add appropriate autocomplete attribute (e.g., autocomplete=" ++
                 Js.dq ++ "email" ++ Js.dq ++ ")")) ]
    else []
  end.

End InputPurpose.

Definition checkErrorIdentification (input : FormErrorInput)
    : list CheckResult :=
  if negb (hasErrors input) then
    [ mkResult "3.3.1" "Error Identification" A Info None None
        "No form errors to validate" None ]
  else
    (* 3.3.1 Error Identification (Level A) *)
    let identifiedInText :=
      Js.logicalAnd (errorsInText input) (errorFieldIdentified input) in
    ([ mkResult "3.3.1" "Error Identification" A
         (if isTrue identifiedInText then Pass else Fail)
         (option_map VBoolean identifiedInText) None
         (if isTrue identifiedInText
          then "Input error is identified and described in text"
          else "Input error not properly identified in text")
         (if isTrue identifiedInText then None
          else Some "Identify the field with error and describe the error in text (not just color/icon)") ] ++
     (* Check if error is described *)
     (if negb (isTrue (errorDescribed input)) then
        [ mkResult "3.3.1" "Error Identification" A Warning None None
            "Error may not be clearly described"
            (Some "Provide clear description of what went wrong") ]
      else []) ++
     (* 3.3.3 Error Suggestion (Level AA) *)
     (if isTrue (errorsInText input) then
        [ mkResult "3.3.3" "Error Suggestion" AA
            (if isTrue (hasSuggestions input) then Pass else Fail)
            (option_map VBoolean (hasSuggestions input)) None
            (if isTrue (hasSuggestions input)
             then "Suggestions provided for correcting the error"
             else "No suggestions provided for correcting the error")
            (if isTrue (hasSuggestions input) then None
             else Some "Provide suggestions for fixing the error (unless it would compromise security)") ]
      else []) ++
     (* Check accessibility of error message *)
     (if negb (isTrue (errorAnnounced input)) then
        [ mkResult "3.3.1" "Error Identification" A Warning None None
            "Error may not be announced to screen readers"
            (Some ("Use aria-live region, role=" ++ Js.dq ++ "alert" ++ Js.dq ++
                   ", or aria-describedby to announce errors")%string) ]
      else []))%list.

Definition checkInputConstraints (input : InputConstraintInput)
    : list CheckResult :=
  if negb (hasFormatRequirements input) then []
  else
    (* 3.3.2 Labels or Instructions - format requirements *)
    let hasInstructions := jsOr (formatExplained input) (exampleProvided input) in
    (* 3.3.5 Help (Level AAA) *)
    let hasHelp :=
      isTrue hasInstructions && isTrue (hasRealtimeValidation input) in
    [ mkResult "3.3.2" "Labels or Instructions" A
        (if isTrue hasInstructions then Pass else Fail)
        (option_map VBoolean hasInstructions) None
        (if isTrue hasInstructions
         then "Format requirements for " ++ fieldName input ++ ": " ++
              Js.join ", "
                (Js.flagged
                   [ (isTrue (formatExplained input), "explained");
                     (isTrue (exampleProvided input), "example provided") ])
         else fieldName input ++
              " has format requirements but no instructions")
        (if isTrue hasInstructions then None
         else Some "Explain required format and provide examples (e.g., 'MM/DD/YYYY')");
      mkResult "3.3.5" "Help" AAA
        (if hasHelp then Pass else Warning) None None
        (if hasHelp then "Context-sensitive help is available"
         else "Consider providing context-sensitive help for complex inputs")
        (if hasHelp then None
         else Some "Provide inline help, tooltips, or real-time validation feedback") ].

Definition checkOnInput (input : OnInputInput) : list CheckResult :=
  (* 3.2.2 On Input (Level A) *)
  if negb (changesContextOnInput input) then
    [ mkResult "3.2.2" "On Input" A Pass None None
        (elementType input ++ " does not change context on input") None ]
  else
    [ mkResult "3.2.2" "On Input" A
        (if isTrue (userWarned input) then Pass else Fail)
        (option_map VBoolean (userWarned input)) None
        (if isTrue (userWarned input)
         then elementType input ++
              " changes context but user is warned in advance"
         else elementType input ++
              " changes context unexpectedly on input")
        (if isTrue (userWarned input) then None
         else Some "Either prevent context change on input, or warn user beforehand") ].

Section FormValidation.
Context {P : ObjectPrototype}.

Definition validateForm (fields : list FormFieldInput)
    (errors : option FormErrorInput) : list CheckResult :=
  (flat_map (fun field => checkFormLabels field ++ checkInputPurpose field)
     fields ++
   match errors with
   | Some e => checkErrorIdentification e
   | None => []
   end)%list.

End FormValidation.

End Forms.

(** ** Media checks: flashing (media package) *)

Module Media.

Record FlashingInput := mkFlashing {
  hasFlashing : bool;
  flashesPerSecond : option float;
  flashAreaPercent : option float;
  isBelowThreshold : option bool
}.

Inductive MediaType := audio | video | audio_video.

Inductive CaptionType := open | closed.

Record CaptionInput := mkCaption {
  c_mediaType : MediaType;
  isLive : bool;
  hasCaptions : bool;
  areSynchronized : option bool;
  hasSpackerIdentification : option bool;
  includesNonSpeechAudio : option bool;
  captionType : option CaptionType
}.

Record AudioDescriptionInput := mkAudioDescription {
  hasVideoContent : bool;
  isPrerecorded : bool;
  hasAudioDescription : bool;
  hasExtendedDescription : option bool;
  pausesAreSufficient : option bool;
  hasMediaAlternative : option bool
}.

Record TranscriptInput := mkTranscript {
  mediaType : MediaType;
  hasTranscript : bool;
  isSynchronized : option bool;
  includesVisualDescriptions : option bool;
  isAccessible : option bool
}.

Record MediaControlInput := mkMediaControl {
  autoplays : bool;
  autoplayDuration : option float;
  m_canPause : option bool;
  m_canStop : option bool;
  hasVolumeControl : option bool;
  canMute : option bool
}.

Record AnimationInput := mkAnimation {
  hasAutoAnimation : bool;
  duration : option float;
  canPause : option bool;
  canStop : option bool;
  canHide : option bool;
  isEssential : option bool
}.

Record SignLanguageInput := mkSignLanguage {
  hasAudioContent : bool;
  s_isPrerecorded : bool;
  hasSignLanguage : bool
}.

Definition checkCaptions (input : CaptionInput) : list CheckResult :=
  (* Only applies to media with audio *)
  match c_mediaType input with
  | video =>
    [ mkResult "1.2.2" "Captions (Prerecorded)" A Info None None
        "Video-only content without audio does not require captions" None ]
  | _ =>
    if isLive input then
      (* 1.2.4 Captions (Live) - Level AA *)
      [ mkResult "1.2.4" "Captions (Live)" AA
          (if hasCaptions input then Pass else Fail)
          (Some (VBoolean (hasCaptions input))) None
          (if hasCaptions input then "Live captions are provided"
           else "Live media lacks captions")
          (if hasCaptions input then None
           else Some "Provide real-time captions for live audio content") ]
    else
      (* 1.2.2 Captions (Prerecorded) - Level A *)
      ([ mkResult "1.2.2" "Captions (Prerecorded)" A
           (if hasCaptions input then Pass else Fail)
           (Some (VBoolean (hasCaptions input))) None
           (if hasCaptions input
            then "Captions are provided for prerecorded media"
            else "Prerecorded media lacks captions")
           (if hasCaptions input then None
            else Some "Provide synchronized captions for all prerecorded audio content") ] ++
       (* Check caption quality *)
       (if hasCaptions input then
          match areSynchronized input with
          | Some false =>
            [ mkResult "1.2.2" "Captions (Prerecorded)" A Warning None None
                "Captions may not be properly synchronized"
                (Some "Ensure captions are synchronized with the audio") ]
          | _ => []
          end ++
          match includesNonSpeechAudio input with
          | Some false =>
            [ mkResult "1.2.2" "Captions (Prerecorded)" A Warning None None
                "Captions may not include non-speech audio (sound effects, music)"
                (Some "Include descriptions of relevant sound effects and music in captions") ]
          | _ => []
          end
        else []))%list
  end.

Definition checkAudioDescription (input : AudioDescriptionInput)
    : list CheckResult :=
  if negb (hasVideoContent input) then
    [ mkResult "1.2.5" "Audio Description (Prerecorded)" AA Info None None
        "Audio description only applies to video content" None ]
  else if negb (isPrerecorded input) then
    [ mkResult "1.2.5" "Audio Description (Prerecorded)" AA Info None None
        "Audio description requirement applies to prerecorded content" None ]
  else
    (* 1.2.3 Audio Description or Media Alternative - Level A *)
    let hasAlternative :=
      Js.logicalOr (Some (hasAudioDescription input))
        (hasMediaAlternative input) in
    ([ mkResult "1.2.3" "Audio Description or Media Alternative (Prerecorded)" A
         (if Js.isTrue hasAlternative then Pass else Fail)
         (option_map VBoolean hasAlternative) None
         (if Js.isTrue hasAlternative
          then ("Alternative provided: " ++
                Js.join ", "
                  (Js.flagged
                     [ (hasAudioDescription input, "audio description");
                       (Js.isTrue (hasMediaAlternative input),
                        "media alternative/transcript") ]))%string
          else "No audio description or media alternative provided")
         (if Js.isTrue hasAlternative then None
          else Some "Provide audio description or full text alternative for video content");
       (* 1.2.5 Audio Description (Prerecorded) - Level AA *)
       mkResult "1.2.5" "Audio Description (Prerecorded)" AA
         (if hasAudioDescription input then Pass else Fail)
         (Some (VBoolean (hasAudioDescription input))) None
         (if hasAudioDescription input then "Audio description is provided"
          else "Audio description is not provided")
         (if hasAudioDescription input then None
          else Some "Provide audio description for visual information not available from audio track") ] ++
     (* 1.2.7 Extended Audio Description - Level AAA *)
     match pausesAreSufficient input with
     | Some false =>
       [ mkResult "1.2.7" "Extended Audio Description (Prerecorded)" AAA
           (if Js.isTrue (hasExtendedDescription input)
            then Pass else Warning)
           (option_map VBoolean (hasExtendedDescription input)) None
           (if Js.isTrue (hasExtendedDescription input)
            then "Extended audio description is provided where pauses are insufficient"
            else "Pauses may be insufficient for audio description; consider extended description")
           (if Js.isTrue (hasExtendedDescription input) then None
            else Some "Provide extended audio description that pauses video for additional description") ]
     | _ => []
     end)%list.

Definition checkTranscript (input : TranscriptInput) : list CheckResult :=
  (* 1.2.1 Audio-only and Video-only (Prerecorded) - Level A *)
  (match mediaType input with
   | audio =>
     [ mkResult "1.2.1" "Audio-only and Video-only (Prerecorded)" A
         (if hasTranscript input then Pass else Fail)
         (Some (VBoolean (hasTranscript input))) None
         (if hasTranscript input
          then "Transcript provided for audio-only content"
          else "Audio-only content lacks transcript")
         (if hasTranscript input then None
          else Some "Provide a text transcript for audio-only content") ]
   | _ => []
   end ++
   match mediaType input with
   | video =>
     [ mkResult "1.2.1" "Audio-only and Video-only (Prerecorded)" A
         (if hasTranscript input then Pass else Fail)
         (Some (VBoolean (hasTranscript input))) None
         (if hasTranscript input
          then "Alternative provided for video-only content"
          else "Video-only content lacks text alternative or audio track")
         (if hasTranscript input then None
          else Some "Provide text alternative or audio track describing video content") ]
   | _ => []
   end ++
   (* 1.2.8 Media Alternative (Prerecorded) - Level AAA *)
   match mediaType input with
   | audio_video =>
     let hasFullAlternative :=
       Js.logicalAnd (Some (hasTranscript input))
         (includesVisualDescriptions input) in
     [ mkResult "1.2.8" "Media Alternative (Prerecorded)" AAA
         (if Js.isTrue hasFullAlternative then Pass else Warning)
         (option_map VBoolean hasFullAlternative) None
         (if Js.isTrue hasFullAlternative
          then "Full media alternative (transcript with visual descriptions) is provided"
          else "Consider providing complete text alternative including visual descriptions")
         (if Js.isTrue hasFullAlternative then None
          else Some "Provide transcript that includes all audio and visual information") ]
   | _ => []
   end)%list.

Definition checkMediaControls (input : MediaControlInput) : list CheckResult :=
  if negb (autoplays input) then
    [ mkResult "1.4.2" "Audio Control" A Pass None None
        "Media does not autoplay" None ]
  else
    (* 1.4.2 Audio Control - Level A *)
    (* Applies if audio plays automatically for more than 3 seconds *)
    let exceedsThreshold :=
      (3 <? match autoplayDuration input with
            | Some d => d
            | None => 0
            end)%float in
    if negb exceedsThreshold then
      [ mkResult "1.4.2" "Audio Control" A Pass None None
          "Autoplay duration is 3 seconds or less" None ]
    else
      let hasControl :=
        Js.logicalOr
          (Js.logicalOr
             (Js.logicalOr (m_canPause input) (m_canStop input))
             (canMute input))
          (hasVolumeControl input) in
      [ mkResult "1.4.2" "Audio Control" A
          (if Js.isTrue hasControl then Pass else Fail)
          (option_map VBoolean hasControl) None
          (if Js.isTrue hasControl
           then "Audio control available: " ++
                Js.join ", "
                  (Js.flagged
                     [ (Js.isTrue (m_canPause input), "pause");
                       (Js.isTrue (m_canStop input), "stop");
                       (Js.isTrue (canMute input), "mute");
                       (Js.isTrue (hasVolumeControl input),
                        "volume control") ])
           else "Auto-playing audio lacks mechanism to pause, stop, or control volume")
          (if Js.isTrue hasControl then None
           else Some "Provide mechanism to pause, stop, or control audio volume independent of system volume") ].

Definition checkAnimation (input : AnimationInput) : list CheckResult :=
  if negb (hasAutoAnimation input) then
    [ mkResult "2.2.2" "Pause, Stop, Hide" A Pass None None
        "No auto-playing animation detected" None ]
  else if Js.isTrue (isEssential input) then
    [ mkResult "2.2.2" "Pause, Stop, Hide" A Pass None None
        "Animation is essential to the content" None ]
  else
    (* 2.2.2 Pause, Stop, Hide - Level A *)
    (* Applies if animation starts automatically and lasts more than 5
       seconds *)
    let exceedsThreshold :=
      (5 <? match duration input with Some d => d | None => 6 end)%float in
    if negb exceedsThreshold then
      [ mkResult "2.2.2" "Pause, Stop, Hide" A Pass None None
          "Animation duration is 5 seconds or less" None ]
    else
      let hasControl :=
        Js.logicalOr (Js.logicalOr (canPause input) (canStop input))
          (canHide input) in
      let canDisable :=
        Js.isTrue (Js.logicalOr (canPause input) (canStop input)) in
      [ mkResult "2.2.2" "Pause, Stop, Hide" A
          (if Js.isTrue hasControl then Pass else Fail)
          (option_map VBoolean hasControl) None
          (if Js.isTrue hasControl
           then "Animation control available: " ++
                Js.join ", "
                  (Js.flagged
                     [ (Js.isTrue (canPause input), "pause");
                       (Js.isTrue (canStop input), "stop");
                       (Js.isTrue (canHide input), "hide") ])
           else "Auto-playing animation lacks mechanism to pause, stop, or hide")
          (if Js.isTrue hasControl then None
           else Some "Provide mechanism to pause, stop, or hide moving, blinking, or scrolling content");
        (* 2.3.3 Animation from Interactions - Level AAA *)
        mkResult "2.3.3" "Animation from Interactions" AAA
          (if canDisable then Pass else Warning) None None
          (if canDisable then "Motion animation can be disabled"
           else "Consider allowing users to disable motion animation (respects prefers-reduced-motion)")
          (if canDisable then None
           else Some "Honor prefers-reduced-motion media query and provide option to disable animation") ].

Definition checkSignLanguage (input : SignLanguageInput) : list CheckResult :=
  if negb (hasAudioContent input) || negb (s_isPrerecorded input) then []
  else
    (* 1.2.6 Sign Language (Prerecorded) - Level AAA *)
    [ mkResult "1.2.6" "Sign Language (Prerecorded)" AAA
        (if hasSignLanguage input then Pass else Warning)
        (Some (VBoolean (hasSignLanguage input))) None
        (if hasSignLanguage input
         then "Sign language interpretation is provided"
         else "Consider providing sign language interpretation for deaf users")
        (if hasSignLanguage input then None
         else Some "Provide sign language interpretation for all prerecorded audio content") ].

Section Checks.
Context {B : Js.Builtins}.

Definition checkFlashing (input : FlashingInput) : list CheckResult :=
  if negb (hasFlashing input) then
    [ mkResult "2.3.1" "Three Flashes or Below Threshold" A Pass None None
        "No flashing content detected" None ]
  else
    (* 2.3.1 Three Flashes or Below Threshold - Level A *)
    let fps :=
      match flashesPerSecond input with Some x => x | None => 0%float end in
    let isSafe :=
      (fps <=? 3)%float ||
      match isBelowThreshold input with Some b => b | None => false end in
    (* 2.3.2 Three Flashes - Level AAA *)
    let noFlashing := (fps =? 0)%float in
    let area :=
      match flashAreaPercent input with Some x => x | None => 0%float end in
    ([ mkResult "2.3.1" "Three Flashes or Below Threshold" A
         (if isSafe then Pass else Fail)
         (Some (VNumber fps)) (Some (VCount 3))
         (if isSafe
          then ("Flashing content is safe (" ++ Js.numberToString fps ++
                " flashes/sec or below threshold)")%string
          else ("Content flashes " ++ Js.numberToString fps ++
                " times per second, exceeding safe threshold")%string)
         (if isSafe then None
          else Some "Reduce flash frequency to 3 or fewer per second, or ensure flashes are below general flash threshold");
       mkResult "2.3.2" "Three Flashes" AAA
         (if noFlashing then Pass else Warning)
         (Some (VNumber fps)) None
         (if noFlashing then "Content does not flash (meets AAA)"
          else ("Content flashes " ++ Js.numberToString fps ++
                " times per second - consider removing for AAA")%string)
         (if noFlashing then None
          else Some "For AAA compliance, avoid any flashing content") ] ++
     (* Large area warning *)
     (if (25 <? area)%float then
        [ mkResult "2.3.1" "Three Flashes or Below Threshold" A Warning
            (option_map VNumber (flashAreaPercent input)) None
            ("Flashing area (" ++
             match flashAreaPercent input with
             | Some x => Js.numberToString x
             | None => "undefined"
             end ++ "% of viewport) is large")%string
            (Some "Large flashing areas increase seizure risk; minimize flashing area size") ]
      else []))%list.

End Checks.

End Media.

(** * Vocabulary of the properties

    The notions the properties below are stated with. *)

(** ** Report *)

(** The verdicts a level tally may count: the decided ones. *)
Definition isDecided (r : CheckResult) : bool :=
  match status r with
  | Pass | Fail => true
  | Warning | Info => false
  end.

(** The verdict an entry of the machine report was made from: the entry
    without its reference URL. *)
Definition verdictOf (m : MachineResult) : CheckResult :=
  mkResult (mr_criterion m) (mr_name m) (mr_level m) (mr_status m)
    (mr_value m) (mr_required m) (mr_message m) (mr_recommendation m).

(** The machine report with its timestamp replaced. *)
Definition withTimestamp (t : string) (m : MachineReport) : MachineReport :=
  mkMachineReport (wcagVersion m) t (category m) (summary m) (results m).

(** ** Contrast *)

Section ContrastVocabulary.
Context {B : Js.Builtins} {C : Text.Culori}.

(** The quantities the two contrast verdicts are about: the rounded
    ratio and the thresholds for the text-size class. *)
Definition contrastRatio (fg bg : Text.Color) : float :=
  (Js.Math_round (Text.wcagContrast fg bg * 100) / 100)%float.

Definition aaRequired (sizePx : float) (isBold : option bool) : float :=
  if Text.isLargeText sizePx (match isBold with Some b => b | None => false end)
  then Text.REQUIREMENTS.contrast_AA_large
  else Text.REQUIREMENTS.contrast_AA_normal.

Definition aaaRequired (sizePx : float) (isBold : option bool) : float :=
  if Text.isLargeText sizePx (match isBold with Some b => b | None => false end)
  then Text.REQUIREMENTS.contrast_AAA_large
  else Text.REQUIREMENTS.contrast_AAA_normal.

End ContrastVocabulary.

(** ** Text spacing *)

(** A supplied dimension is at least the font size times its
    multiplier; a dimension that is not supplied is not tested. *)
Definition meetsMultiple (fontSize multiplier : float) (v : option float)
    : Prop :=
  forall x, v = Some x -> (fontSize * multiplier <=? x)%float = true.

(** ** Headings *)

Section HeadingVocabulary.
Import Structure.

(** A forward jump of more than one level between two neighbours. *)
Definition isSkip (pair : HeadingInput * HeadingInput) : bool :=
  (1 <? h_level (snd pair) - h_level (fst pair))%Z.

(** The skips of a sequence, by the wording of the rule: every pair of a
    heading and its immediate successor that jumps, in document order. *)
Definition adjacentSkips (hs : list HeadingInput) : list string :=
  map (fun pair => skipMessage (fst pair) (snd pair))
    (filter isSkip (combine hs (tl hs))).

End HeadingVocabulary.

(** The warning of the level scan, told apart from the other warnings of
    the check by the start of its message. *)
Definition isSkipWarning (v : CheckResult) : bool :=
  CheckStatus_eqb (status v) Warning &&
  prefix "Heading levels skipped: " (message v).

(** The pass verdict of the level scan. *)
Definition isSequencePass (v : CheckResult) : bool :=
  CheckStatus_eqb (status v) Pass &&
  String.eqb (message v) "Heading levels follow logical sequence".

(** The verdict that opens the result for a non-empty sequence. *)
Definition headingCountVerdict (n : nat) : CheckResult :=
  mkResult "2.4.6" "Headings and Labels" AA Info None None
    ("Page has " ++ Js.natToString n ++ " heading(s)") None.

(** The verdict that closes it. *)
Definition sectionHeadingsVerdict (n : nat) : CheckResult :=
  mkResult "2.4.10" "Section Headings" AAA
    (if (2 <=? n)%nat then Pass else Warning) None None
    (if (2 <=? n)%nat then "Section headings are used to organize content"
     else "Consider adding more section headings for AAA compliance")
    None.

(** ** Error prevention *)

Section ErrorPreventionVocabulary.
Import Forms.

(** At least one of the four safeguards is declared. *)
Definition hasSafeguard (input : FormSubmissionInput) : bool :=
  isTrue (isReversible input) || isTrue (dataIsChecked input) ||
  isTrue (canReview input) || isTrue (requiresConfirmation input).

End ErrorPreventionVocabulary.

(** ** Landmarks *)

Section LandmarkVocabulary.
Import Aria.

(** The label the check works with: the placeholder for a missing or
    empty one. *)
Definition displayLabel (l : Landmark) : string :=
  Js.orElse (label l) "(unlabeled)".

(** The landmarks of a role, in document order, and their labels. *)
Definition instancesOf (r : string) (ls : list Landmark) : list Landmark :=
  filter (fun l => String.eqb (role l) r) ls.

Definition labelsOf (r : string) (ls : list Landmark) : list string :=
  map displayLabel (instancesOf r ls).

(** What the tables hold after the landmarks [seen]. *)
Definition tablesFor (seen : list Landmark) (tables : LandmarkTables) : Prop :=
  forall r,
    match instancesOf r seen with
    | [] => JsObject.get (fst tables) r = None /\
            JsObject.get (snd tables) r = None
    | _ :: _ =>
      JsObject.get (fst tables) r = Some (List.length (instancesOf r seen)) /\
      JsObject.get (snd tables) r = Some (labelsOf r seen)
    end.

End LandmarkVocabulary.

(** ** Verdicts and the catalog *)

(** A verdict names a criterion of the catalog, at the level the catalog
    gives it and under the catalog's name or an extension of it. *)
Definition inCatalog (v : CheckResult) : bool :=
  match Criteria.getCriterion (criterion v) with
  | Some c => WcagLevel_eqb (c_level c) (level v) && prefix (c_name c) (name v)
  | None => false
  end.

(** Only a fail or a warning carries a recommendation. *)
Definition recommendsOnlyAction (v : CheckResult) : bool :=
  match status v, recommendation v with
  | (Pass | Info), Some _ => false
  | _, _ => true
  end.

Definition wellFormed (v : CheckResult) : bool :=
  inCatalog v && recommendsOnlyAction v.

(** ** Full text validation *)

(** The input of [validateAll] with other colors. *)
Definition withColors (fg bg : string) (input : Text.FullValidationInput)
    : Text.FullValidationInput :=
  Text.mkFullValidation fg bg (Text.fontSize input) (Text.isBold input)
    (Text.lineHeight input) (Text.letterSpacing input)
    (Text.wordSpacing input) (Text.paragraphSpacing input)
    (Text.sampleText input) (Text.isJustified input)
    (Text.usesRelativeUnits input) (Text.hasFixedContainers input)
    (Text.hasLangAttribute input) (Text.langValue input)
    (Text.hasImagesOfText input) (Text.imagesAreEssential input).

(** No string occurs twice. *)
Fixpoint distinct (xs : list string) : bool :=
  match xs with
  | [] => true
  | x :: rest => negb (existsb (String.eqb x) rest) && distinct rest
  end.

(** A property of the verdicts a call returns, when it returns. *)
Definition whenReturned (p : CheckResult -> bool)
    (c : Completion (list CheckResult)) : bool :=
  match c with
  | Returns results => forallb p results
  | Throws _ => true
  end.

(** ** Groups of the human report *)

(** The verdicts grouped as the human report lists them: failures,
    warnings, info, passed, each group in the order of the list. *)
Definition grouped (V : list CheckResult) : list CheckResult :=
  (filter (Report.hasStatus Fail) V ++ filter (Report.hasStatus Warning) V ++
   filter (Report.hasStatus Info) V ++ filter (Report.hasStatus Pass) V)%list.

(** ** Navigation orders *)

(** An order the comparison of [checkConsistentNavigation] reads back
    faithfully: at least one item, and no comma inside an item. *)
Definition commaFree (item : string) : bool :=
  forallb (fun c => negb (Ascii.eqb c ","%char)) (list_ascii_of_string item).

Definition plainOrder (items : list string) : bool :=
  match items with
  | [] => false
  | _ :: _ => forallb commaFree items
  end.

(** All identifiers of a component are the same text. *)
Definition sameIdentifiers (component : Structure.Component) : Prop :=
  forall x y, In x (Structure.identifiers component) ->
              In y (Structure.identifiers component) -> x = y.

(** ** Autocomplete tokens *)

Definition spaceFree (token : string) : bool :=
  forallb (fun c => negb (Ascii.eqb c " "%char)) (list_ascii_of_string token).

(** ** Transactions *)

Definition isHighStakes (t : Forms.TransactionType) : bool :=
  match t with
  | Forms.legal | Forms.financial | Forms.data_modification => true
  | _ => false
  end.

(** ** A stand-in runtime and color library

    Used only to evaluate the checks on concrete inputs. The color
    library knows black and white, whose contrast is 21; [Math_round] is
    the identity, which is exact on the integers it is given there; the
    number printers are placeholders. *)

Module Sample.

Definition builtins : Js.Builtins := {|
  Js.numberToString := fun _ => "#";
  Js.toFixed := fun _ _ => "#";
  Js.Math_round := fun x => x;
  Js.toUpperCase := fun s => s
|}.

Definition world : Js.World :=
  Js.mkWorld (fun n => "2024-01-01T00:00:0" ++ Js.natToString n ++ ".000Z") 0.

Definition parseColor (s : string) : option bool :=
  if String.eqb s "#000000" then Some false
  else if String.eqb s "#ffffff" then Some true
  else None.

Definition culori : Text.Culori := {|
  Text.Color := bool;
  Text.parse := parseColor;
  Text.wcagContrast := fun a b => if Bool.eqb a b then 1%float else 21%float
|}.

(** Case folding and trimming that leave a string as it is: exact on
    lower-case text without surrounding white space. *)
Definition strings : Js.StringOps := {|
  Js.toLowerCase := fun s => s;
  Js.trim := fun s => s
|}.

Definition prototype : Forms.ObjectPrototype := {|
  Forms.memberToString := fun _ => "function () { [native code] }"
|}.

End Sample.

(** * Properties *)

(** ** Report builder: the summary *)

Section SummaryInvariant.
Context {B : Js.Builtins}.

(** The four status buckets partition the verdict list. *)
Lemma status_buckets_partition (V : list CheckResult) :
  List.length (filter (Report.hasStatus Pass) V) +
  List.length (filter (Report.hasStatus Fail) V) +
  List.length (filter (Report.hasStatus Warning) V) +
  List.length (filter (Report.hasStatus Info) V) = List.length V.
Proof.
  induction V as [|r V IH]; [reflexivity|].
  unfold Report.hasStatus in *. simpl.
  destruct (status r); simpl; lia.
Qed.

(** A bucket splits over the three levels. *)
Lemma status_bucket_by_level (s : CheckStatus) (V : list CheckResult) :
  List.length (filter (fun r => WcagLevel_eqb (level r) A &&
                                CheckStatus_eqb (status r) s) V) +
  List.length (filter (fun r => WcagLevel_eqb (level r) AA &&
                                CheckStatus_eqb (status r) s) V) +
  List.length (filter (fun r => WcagLevel_eqb (level r) AAA &&
                                CheckStatus_eqb (status r) s) V) =
  List.length (filter (Report.hasStatus s) V).
Proof.
  induction V as [|r V IH]; [reflexivity|].
  unfold Report.hasStatus in *. simpl.
  destruct (level r), (CheckStatus_eqb (status r) s); simpl; lia.
Qed.

(** Filtering first by a weaker test changes nothing. *)
Lemma filter_filter_implied {T : Type} (p q : T -> bool) (xs : list T) :
  (forall x, p x = true -> q x = true) ->
  filter p (filter q xs) = filter p xs.
Proof.
  intros Hpq. induction xs as [|x xs IH]; [reflexivity|].
  simpl. destruct (q x) eqn:Hq; simpl.
  - now rewrite IH.
  - destruct (p x) eqn:Hp; [|exact IH].
    apply Hpq in Hp. congruence.
Qed.

(** Dropping the undecided verdicts changes no level tally. *)
Lemma byLevel_ignores_undecided (V : list CheckResult) (l : WcagLevel) :
  Report.byLevel (filter isDecided V) l = Report.byLevel V l.
Proof.
  unfold Report.byLevel.
  rewrite !filter_filter_implied; [reflexivity| |];
    intros r Hr; apply andb_prop in Hr as [_ Hr];
    unfold isDecided; destruct (status r); simpl in *; congruence.
Qed.

(** C1. For every verdict sequence [V] and any options, the summary of
    [createReport] has [total = length V]; passed, failed, warnings and
    the number of info verdicts add up to [total]; and the per-level
    tallies count pass and fail verdicts only: each tally is unchanged
    when every warning and info verdict is removed from [V], and over the
    three levels the tallies add up to [passed] and to [failed]. *)
Theorem createReport_summary_invariant (V : list CheckResult)
    (options : option Report.ReportOptions) (w : Js.World) :
  let s := r_summary (fst (Report.createReport V options w)) in
  total s = List.length V /\
  passed s + failed s + warnings s +
    List.length (filter (Report.hasStatus Info) V) = total s /\
  (levelA s = Report.byLevel (filter isDecided V) A /\
   levelAA s = Report.byLevel (filter isDecided V) AA /\
   levelAAA s = Report.byLevel (filter isDecided V) AAA) /\
  t_passed (levelA s) + t_passed (levelAA s) + t_passed (levelAAA s)
    = passed s /\
  t_failed (levelA s) + t_failed (levelAA s) + t_failed (levelAAA s)
    = failed s.
Proof.
  simpl. repeat split.
  - apply status_buckets_partition.
  - symmetry. apply byLevel_ignores_undecided.
  - symmetry. apply byLevel_ignores_undecided.
  - symmetry. apply byLevel_ignores_undecided.
  - apply (status_bucket_by_level Pass).
  - apply (status_bucket_by_level Fail).
Qed.

End SummaryInvariant.

(** ** Facts about binary64 comparison and multiplication

    Read off the specification of the primitive operations
    ([leb_spec], [ltb_spec], [mul_spec]). *)

(** Two positive finite numbers compare by exponent, then mantissa. *)
Lemma SFleb_finite_pos (m1 m2 : positive) (e1 e2 : Z) :
  SFleb (S754_finite false m1 e1) (S754_finite false m2 e2) = true <->
  (e1 < e2 \/ (e1 = e2 /\ (m1 <= m2)%positive))%Z.
Proof.
  unfold SFleb, SFcompare.
  change (PosDef.Pos.compare_cont Eq m1 m2) with (Pos.compare m1 m2).
  destruct (Z.compare_spec e1 e2) as [He|He|He].
  - destruct (Pos.compare_spec m1 m2) as [Hm|Hm|Hm]; split; intros H;
      try discriminate; try lia; auto.
  - split; intros; [lia|reflexivity].
  - split; intros H; [discriminate|lia].
Qed.

(** A threshold below another is met whenever the other is. *)
Lemma leb_weaken (lo hi r : float) (mlo mhi : positive) (elo ehi : Z) :
  Prim2SF lo = S754_finite false mlo elo ->
  Prim2SF hi = S754_finite false mhi ehi ->
  SFleb (Prim2SF lo) (Prim2SF hi) = true ->
  (hi <=? r)%float = true -> (lo <=? r)%float = true.
Proof.
  intros Hlo Hhi. rewrite !leb_spec, Hlo, Hhi, SFleb_finite_pos. intros Hle.
  destruct (Prim2SF r) as [s|s| |s m e]; try (destruct s);
    try reflexivity; try discriminate.
  rewrite !SFleb_finite_pos. lia.
Qed.

Lemma leb_7_implies_leb_4_5 (r : float) : (7 <=? r)%float = true -> (4.5 <=? r)%float = true.
Proof. now apply (leb_weaken 4.5 7 r _ _ _ _ eq_refl eq_refl). Qed.

Lemma leb_4_5_implies_leb_3 (r : float) : (4.5 <=? r)%float = true -> (3 <=? r)%float = true.
Proof. now apply (leb_weaken 3 4.5 r _ _ _ _ eq_refl eq_refl). Qed.

(** Every number but NaN is at most itself. *)
Lemma SFleb_refl (x : spec_float) : x <> S754_nan -> SFleb x x = true.
Proof.
  intros Hx. destruct x as [s|s| |s m e]; try (destruct s); try reflexivity.
  - congruence.
  - unfold SFleb, SFcompare.
    change (PosDef.Pos.compare_cont Eq m m) with (Pos.compare m m).
    now rewrite Z.compare_refl, Pos.compare_refl.
  - unfold SFleb, SFcompare.
    change (PosDef.Pos.compare_cont Eq m m) with (Pos.compare m m).
    now rewrite Z.compare_refl, Pos.compare_refl.
Qed.

(** Rounding a non-negative mantissa never yields NaN. *)
Lemma shr_1_nonneg (mrs : shr_record) :
  (0 <= shr_m mrs)%Z -> (0 <= shr_m (shr_1 mrs))%Z.
Proof.
  destruct mrs as [m r s]. simpl.
  destruct m as [|p|p]; [| destruct p | ]; simpl; lia.
Qed.

Lemma iter_pos_invariant {T : Type} (P : T -> Prop) (f : T -> T) :
  (forall x, P x -> P (f x)) ->
  forall n x, P x -> P (iter_pos f n x).
Proof.
  intros Hf. induction n as [n IH|n IH|]; intros x Hx; simpl; auto.
Qed.

Lemma shr_fexp_nonneg (m e : Z) (l : location) :
  (0 <= m)%Z -> (0 <= shr_m (fst (shr_fexp prec emax m e l)))%Z.
Proof.
  intros Hm. unfold shr_fexp, shr.
  assert (H0 : (0 <= shr_m (shr_record_of_loc m l))%Z).
  { destruct l as [|[]]; exact Hm. }
  destruct (_ - e)%Z; simpl; try exact H0.
  now apply (iter_pos_invariant (fun r => (0 <= shr_m r)%Z) shr_1 shr_1_nonneg).
Qed.

Lemma round_nearest_even_nonneg (m : Z) (l : location) :
  (0 <= m)%Z -> (0 <= round_nearest_even m l)%Z.
Proof.
  intros Hm. unfold round_nearest_even.
  destruct l as [|[]]; try destruct (Z.even m); lia.
Qed.

Lemma binary_round_aux_not_nan (s : bool) (m e : Z) (l : location) :
  (0 <= m)%Z -> binary_round_aux prec emax s m e l <> S754_nan.
Proof.
  intros Hm. unfold binary_round_aux.
  pose proof (shr_fexp_nonneg m e l Hm) as H1.
  destruct (shr_fexp prec emax m e l) as [mrs' e']. simpl in H1.
  pose proof (shr_fexp_nonneg _ e' loc_Exact
                (round_nearest_even_nonneg _ (loc_of_shr_record mrs') H1)) as H2.
  destruct (shr_fexp prec emax _ e' loc_Exact) as [mrs'' e'']. simpl in H2.
  destruct (shr_m mrs'') as [|p|p]; try discriminate; [|lia].
  destruct (e'' <=? emax - prec)%Z; discriminate.
Qed.

(** A positive number times a positive finite constant is not NaN. *)
Lemma mul_positive_not_nan (x c : float) (m : positive) (e : Z) :
  Prim2SF c = S754_finite false m e ->
  (0 <? x)%float = true ->
  Prim2SF (x * c) <> S754_nan.
Proof.
  intros Hc. rewrite ltb_spec, mul_spec, Hc.
  change (Prim2SF 0) with (S754_zero false).
  destruct (Prim2SF x) as [s|s| |s mx ex]; try (destruct s); try discriminate.
  intros _. unfold SF64mul, SFmul.
  apply binary_round_aux_not_nan. lia.
Qed.

Lemma leb_product_refl (x c : float) (m : positive) (e : Z) :
  Prim2SF c = S754_finite false m e ->
  (0 <? x)%float = true ->
  (x * c <=? x * c)%float = true.
Proof.
  intros Hc Hx. rewrite leb_spec. apply SFleb_refl.
  now apply (mul_positive_not_nan x c m e).
Qed.

(** ** Contrast check *)

Section ContrastProperties.
Context {B : Js.Builtins} {C : Text.Culori}.

(** A ratio that meets the AAA threshold meets the AA threshold. *)
Lemma aaa_met_implies_aa_met (sizePx : float) (isBold : option bool)
    (ratio : float) :
  (aaaRequired sizePx isBold <=? ratio)%float = true ->
  (aaRequired sizePx isBold <=? ratio)%float = true.
Proof.
  unfold aaaRequired, aaRequired.
  destruct (Text.isLargeText _ _).
  - apply leb_4_5_implies_leb_3.
  - apply leb_7_implies_leb_4_5.
Qed.

(** C2. When both colors parse, [checkContrastRatio] returns the AA
    verdict (1.4.3) and the AAA verdict (1.4.6) on the same rounded
    ratio; the AA verdict passes exactly when the ratio meets the AA
    threshold; if the AA verdict does not pass the AAA status is fail; if
    it passes and the ratio does not meet the AAA threshold the AAA status
    is warning; and if the ratio meets the AAA threshold the AAA status is
    pass. *)
Theorem checkContrastRatio_aaa_status (foreground background : string)
    (sizePx : float) (isBold : option bool) (fg bg : Text.Color) :
  Text.parse foreground = Some fg ->
  Text.parse background = Some bg ->
  let ratio := contrastRatio fg bg in
  exists aa aaa,
    Text.checkContrastRatio foreground background sizePx isBold = [aa; aaa] /\
    (criterion aa = "1.4.3" /\ level aa = AA /\
     value aa = Some (VNumber ratio) /\
     required aa = Some (VNumber (aaRequired sizePx isBold))) /\
    (criterion aaa = "1.4.6" /\ level aaa = AAA /\
     value aaa = Some (VNumber ratio) /\
     required aaa = Some (VNumber (aaaRequired sizePx isBold))) /\
    (status aa = Pass <->
     (aaRequired sizePx isBold <=? ratio)%float = true) /\
    (status aa <> Pass -> status aaa = Fail) /\
    (status aa = Pass ->
     (aaaRequired sizePx isBold <=? ratio)%float = false ->
     status aaa = Warning) /\
    ((aaaRequired sizePx isBold <=? ratio)%float = true ->
     status aaa = Pass).
Proof.
  intros Hfg Hbg ratio.
  pose proof (aaa_met_implies_aa_met sizePx isBold ratio) as Himp.
  unfold Text.checkContrastRatio. rewrite Hfg, Hbg.
  fold (contrastRatio fg bg). fold ratio.
  unfold aaRequired, aaaRequired in *.
  destruct (Text.isLargeText sizePx _).
  all: do 2 eexists; split; [reflexivity|]; simpl.
  all: match type of Himp with
       | (?hi <=? _)%float = true -> (?lo <=? _)%float = true =>
         destruct (hi <=? ratio)%float eqn:Haaa;
         destruct (lo <=? ratio)%float eqn:Haa
       end.
  all: try (specialize (Himp eq_refl); discriminate).
  all: repeat split; intros; congruence.
Qed.

End ContrastProperties.

(** The check on white text over a black page: both verdicts pass. *)
Lemma checkContrastRatio_aaa_status_witness :
  exists aa aaa,
    @Text.checkContrastRatio Sample.builtins Sample.culori
      "#ffffff" "#000000" 16 None = [aa; aaa] /\
    status aa = Pass /\ status aaa = Pass.
Proof.
  destruct (@checkContrastRatio_aaa_status Sample.builtins Sample.culori
              "#ffffff" "#000000" 16 None true false eq_refl eq_refl)
    as (aa & aaa & Heq & _ & _ & Haa & _ & _ & Haaa).
  exists aa, aaa. split; [exact Heq|]. split.
  - apply Haa. reflexivity.
  - apply Haaa. reflexivity.
Defined.

Section InvalidColor.
Context {B : Js.Builtins} {C : Text.Culori}.

(** C3. When at least one of the two color strings does not parse,
    [checkContrastRatio] returns (it does not throw) exactly one verdict:
    a fail under 1.4.3 (level AA) whose message is ["Invalid color: "]
    followed by a color that did not parse, the foreground when that one
    did not and otherwise the background. *)
Theorem checkContrastRatio_invalid_color (foreground background : string)
    (sizePx : float) (isBold : option bool) :
  Text.parse foreground = None \/ Text.parse background = None ->
  exists bad,
    ((bad = foreground /\ Text.parse foreground = None) \/
     (bad = background /\ Text.parse foreground <> None /\
      Text.parse background = None)) /\
    Text.checkContrastRatio foreground background sizePx isBold =
      [ mkResult "1.4.3" "Contrast (Minimum)" AA Fail None None
          ("Invalid color: " ++ bad) None ].
Proof.
  intros H. unfold Text.checkContrastRatio.
  destruct (Text.parse foreground) as [fg|] eqn:Hfg.
  - destruct (Text.parse background) as [bg|] eqn:Hbg.
    + destruct H; discriminate.
    + exists background. split; [right; repeat split; congruence|reflexivity].
  - exists foreground. split; [left; split; reflexivity|].
    destruct (Text.parse background); reflexivity.
Qed.

End InvalidColor.

(** A color name the stand-in library cannot read. *)
Lemma checkContrastRatio_invalid_color_witness :
  exists bad,
    ((bad = "#ffffff" /\ Sample.parseColor "#ffffff" = None) \/
     (bad = "no-such-color" /\ Sample.parseColor "#ffffff" <> None /\
      Sample.parseColor "no-such-color" = None)) /\
    @Text.checkContrastRatio Sample.builtins Sample.culori
      "#ffffff" "no-such-color" 16 (Some true) =
      [ mkResult "1.4.3" "Contrast (Minimum)" AA Fail None None
          ("Invalid color: " ++ bad) None ].
Proof.
  apply (@checkContrastRatio_invalid_color Sample.builtins Sample.culori
           "#ffffff" "no-such-color" 16 (Some true)).
  right. reflexivity.
Defined.

(** ** Text spacing check *)

Section TextSpacingProperties.
Context {B : Js.Builtins}.

(** The loop computes the conjunction of the per-dimension tests and
    one detail line per tested dimension. *)
Lemma spacing_loop (fontSize : float) (tested : list Text.SpacingCheck)
    (st : bool * list string) :
  fold_left (Text.spacingStep fontSize) tested st =
  (fst st && forallb (Text.spacingPasses fontSize) tested,
   (snd st ++ map (Text.spacingDetail fontSize) tested)%list).
Proof.
  revert st.
  induction tested as [|c tested IH]; intros [allPass details].
  - simpl. now rewrite andb_true_r, app_nil_r.
  - cbn [fold_left forallb map]. rewrite IH.
    unfold Text.spacingStep. cbn [fst snd].
    rewrite <- app_assoc. f_equal.
    destruct (Text.spacingPasses fontSize c), allPass; reflexivity.
Qed.

Lemma meetsMultiple_Some (fontSize multiplier x : float) :
  meetsMultiple fontSize multiplier (Some x) <->
  (fontSize * multiplier <=? x)%float = true.
Proof.
  unfold meetsMultiple. split.
  - intros H. now apply H.
  - intros H y Hy. now inversion Hy; subst.
Qed.

Lemma meetsMultiple_None (fontSize multiplier : float) :
  meetsMultiple fontSize multiplier None <-> True.
Proof.
  unfold meetsMultiple. split; [trivial|]. intros _ x Hx. discriminate.
Qed.

(** C5. With a font size F > 0 and at least one of the four spacing
    values supplied, [checkTextSpacing] emits exactly one verdict, under
    1.4.12, whose status is pass if and only if every supplied dimension
    is at least F times its multiplier (line height 1.5, letter spacing
    0.12, word spacing 0.16, paragraph spacing 2) and fail otherwise; and
    a line height equal to the product F * 1.5 meets its bound, so that
    alone it passes. Products and comparisons are those of binary64. *)
Theorem checkTextSpacing_aggregate (F : float)
    (lineHeight letterSpacing wordSpacing paragraphSpacing : option float) :
  (0 <? F)%float = true ->
  (lineHeight <> None \/ letterSpacing <> None \/
   wordSpacing <> None \/ paragraphSpacing <> None) ->
  (exists v,
     Text.checkTextSpacing F lineHeight letterSpacing wordSpacing
       paragraphSpacing = [v] /\
     criterion v = "1.4.12" /\
     (status v = Pass \/ status v = Fail) /\
     (status v = Pass <->
      meetsMultiple F 1.5 lineHeight /\
      meetsMultiple F 0.12 letterSpacing /\
      meetsMultiple F 0.16 wordSpacing /\
      meetsMultiple F 2 paragraphSpacing)) /\
  meetsMultiple F 1.5 (Some (F * 1.5)%float) /\
  (exists v,
     Text.checkTextSpacing F (Some (F * 1.5)%float) None None None = [v] /\
     status v = Pass).
Proof.
  intros HF Hsupplied.
  assert (Hbound : (F * 1.5 <=? F * 1.5)%float = true).
  { now apply (leb_product_refl F 1.5 6755399441055744 (-52)). }
  split; [|split].
  - unfold Text.checkTextSpacing.
    destruct lineHeight as [lh|], letterSpacing as [ls|],
      wordSpacing as [ws|], paragraphSpacing as [ps|];
      try (exfalso; destruct Hsupplied as [H|[H|[H|H]]]; now apply H).
    all: cbv beta iota zeta delta [filter Text.sc_value].
    all: rewrite spacing_loop.
    all: eexists; split; [reflexivity|].
    all: split; [reflexivity|].
    all: cbv beta iota zeta delta
           [status forallb Text.spacingPasses Text.sc_value
            Text.sc_multiplier andb].
    all: rewrite ?meetsMultiple_Some, ?meetsMultiple_None.
    all: change Text.REQUIREMENTS.textSpacing_lineHeight with 1.5%float.
    all: change Text.REQUIREMENTS.textSpacing_letterSpacing with 0.12%float.
    all: change Text.REQUIREMENTS.textSpacing_wordSpacing with 0.16%float.
    all: change Text.REQUIREMENTS.textSpacing_paragraphSpacing with 2%float.
    all: repeat match goal with
                | |- context [(?a <=? ?b)%float] =>
                  destruct (a <=? b)%float
                end.
    all: split; [auto|]; split; intros; try tauto;
           try discriminate;
           repeat match goal with
                  | H : _ /\ _ |- _ => destruct H
                  end; try discriminate.
  - now apply meetsMultiple_Some.
  - unfold Text.checkTextSpacing.
    cbv beta iota zeta delta [filter Text.sc_value].
    rewrite spacing_loop.
    eexists; split; [reflexivity|].
    cbv beta iota zeta delta
      [status forallb Text.spacingPasses Text.sc_value
       Text.sc_multiplier andb].
    change Text.REQUIREMENTS.textSpacing_lineHeight with 1.5%float.
    now rewrite Hbound.
Qed.

End TextSpacingProperties.

(** Font size 16 with line height 24 and letter spacing 2. *)
Lemma checkTextSpacing_aggregate_witness :
  exists v,
    @Text.checkTextSpacing Sample.builtins 16 (Some 24%float)
      (Some 2%float) None None = [v] /\
    status v = Pass.
Proof.
  destruct (@checkTextSpacing_aggregate Sample.builtins 16
              (Some 24%float) (Some 2%float) None None eq_refl
              (or_introl (fun H => eq_ind (Some 24%float)
                 (fun o => match o with Some _ => True | None => False end)
                 I None H)))
    as ((v & Heq & _ & _ & Hpass) & _).
  exists v. split; [exact Heq|].
  apply Hpass. repeat split; intros x Hx; inversion Hx; subst;
    try discriminate; reflexivity.
Defined.

(** ** Heading structure check *)

Section HeadingProperties.
Import Structure.

(** The indexed loop, started anywhere in the sequence, records the
    skips among the headings that remain. *)
Lemma skip_loop_from (before : list HeadingInput) (previous : HeadingInput)
    (rest : list HeadingInput) (skipped : list string) :
  fold_left (skipStep (before ++ previous :: rest))
    (seq (List.length before + 1) (List.length rest)) skipped =
  (skipped ++ adjacentSkips (previous :: rest))%list.
Proof.
  revert before previous skipped.
  induction rest as [|current rest IH]; intros before previous skipped.
  - simpl. now rewrite app_nil_r.
  - cbn [List.length seq fold_left].
    replace (before ++ previous :: current :: rest)%list
      with ((before ++ [previous]) ++ current :: rest)%list
      by now rewrite <- app_assoc.
    replace (S (List.length before + 1))
      with (List.length (before ++ [previous]) + 1)
      by (rewrite length_app; simpl; lia).
    rewrite IH. unfold skipStep.
    replace (List.length before + 1) with (List.length (before ++ [previous]))
      by (rewrite length_app; simpl; lia).
    rewrite nth_error_app2 by lia. rewrite Nat.sub_diag. cbn [nth_error].
    replace (List.length (before ++ [previous]) - 1) with (List.length before)
      by (rewrite length_app; simpl; lia).
    rewrite <- app_assoc. cbn [app].
    rewrite nth_error_app2 by lia. rewrite Nat.sub_diag. cbn [nth_error].
    unfold adjacentSkips. cbn [tl combine filter map].
    unfold isSkip at 2. cbn [fst snd].
    destruct (1 <? h_level current - h_level previous)%Z.
    + rewrite <- app_assoc. reflexivity.
    + reflexivity.
Qed.

(** The loop of the source computes the skips of the rule. *)
Lemma skippedLevels_adjacent (hs : list HeadingInput) :
  skippedLevels hs = adjacentSkips hs.
Proof.
  unfold skippedLevels. destruct hs as [|h rest]; [reflexivity|].
  cbn [List.length]. rewrite Nat.sub_succ, Nat.sub_0_r.
  exact (skip_loop_from [] h rest []).
Qed.

(** Every jump between neighbours is among the skips. *)
Lemma adjacentSkips_complete (hs : list HeadingInput) (i : nat)
    (previous current : HeadingInput) :
  nth_error hs i = Some previous ->
  nth_error hs (S i) = Some current ->
  (1 < h_level current - h_level previous)%Z ->
  In (skipMessage previous current) (adjacentSkips hs).
Proof.
  revert i. induction hs as [|h rest IH]; intros i Hp Hc Hjump.
  - destruct i; discriminate.
  - unfold adjacentSkips in *. destruct rest as [|h' rest']; [destruct i; discriminate|].
    cbn [tl combine filter map].
    destruct i as [|i].
    + simpl in Hp, Hc. inversion Hp; inversion Hc; subst.
      unfold isSkip at 1. cbn [fst snd].
      apply Z.ltb_lt in Hjump. rewrite Hjump. now left.
    + destruct (isSkip (h, h')); [right|]; now apply (IH i).
Qed.

(** Every recorded skip is a jump between two neighbours. *)
Lemma adjacentSkips_sound (hs : list HeadingInput) (m : string) :
  In m (adjacentSkips hs) ->
  exists i previous current,
    nth_error hs i = Some previous /\
    nth_error hs (S i) = Some current /\
    (1 < h_level current - h_level previous)%Z /\
    m = skipMessage previous current.
Proof.
  induction hs as [|h rest IH]; intros Hin.
  - contradiction.
  - unfold adjacentSkips in *. destruct rest as [|h' rest']; [contradiction|].
    cbn [tl combine filter map] in Hin.
    assert (Hrest : In m (map (fun pair => skipMessage (fst pair) (snd pair))
                            (filter isSkip (combine (h' :: rest')
                                              (tl (h' :: rest'))))) ->
                    exists i previous current,
                      nth_error (h :: h' :: rest') i = Some previous /\
                      nth_error (h :: h' :: rest') (S i) = Some current /\
                      (1 < h_level current - h_level previous)%Z /\
                      m = skipMessage previous current).
    { intros H. destruct (IH H) as (i & p & c & Hp & Hc & Hj & Hm).
      exists (S i), p, c. auto. }
    destruct (isSkip (h, h')) eqn:Hs.
    + destruct Hin as [Hm|Hin]; [|now apply Hrest].
      exists 0, h, h'. repeat split; auto.
      unfold isSkip in Hs. now apply Z.ltb_lt in Hs.
    + now apply Hrest.
Qed.

End HeadingProperties.

Section HeadingVerdicts.
Import Structure.

(** The result for a non-empty sequence: the count, the h1 verdict if
    any, the verdict of the level scan, the section-headings verdict. *)
Lemma checkHeadingStructure_nonempty (input : HeadingStructureInput) :
  headings input <> [] ->
  checkHeadingStructure input =
  (headingCountVerdict (List.length (headings input)) ::
   h1Verdicts (countH1 input) ++
   [ skipVerdict (skippedLevels (headings input));
     sectionHeadingsVerdict (List.length (headings input)) ])%list.
Proof.
  intros Hne. unfold checkHeadingStructure.
  destruct (headings input) as [|h rest] eqn:Hhs; [congruence|].
  reflexivity.
Qed.

Lemma h1Verdicts_length (n : Z) : List.length (h1Verdicts n) <= 1.
Proof.
  unfold h1Verdicts. destruct (n =? 0)%Z, (1 <? n)%Z; simpl; lia.
Qed.

Lemma h1Verdicts_are_warnings (n : Z) (v : CheckResult) :
  In v (h1Verdicts n) ->
  status v = Warning /\ isSkipWarning v = false /\ isSequencePass v = false.
Proof.
  unfold h1Verdicts.
  destruct (n =? 0)%Z; [|destruct (1 <? n)%Z]; simpl; intros Hv;
    [destruct Hv as [<-|[]]|destruct Hv as [<-|[]]|contradiction];
    repeat split; reflexivity.
Qed.

Lemma filter_none {T : Type} (p : T -> bool) (xs : list T) :
  (forall x, In x xs -> p x = false) -> filter p xs = [].
Proof.
  induction xs as [|x xs IH]; intros H; [reflexivity|].
  simpl. rewrite (H x (or_introl eq_refl)). apply IH.
  intros y Hy. apply H. now right.
Qed.

Lemma sectionHeadingsVerdict_other (n : nat) :
  isSkipWarning (sectionHeadingsVerdict n) = false /\
  isSequencePass (sectionHeadingsVerdict n) = false.
Proof.
  unfold sectionHeadingsVerdict, isSkipWarning, isSequencePass.
  destruct (2 <=? n)%nat; split; reflexivity.
Qed.

Lemma skipVerdict_warning (skipped : list string) :
  skipped <> [] ->
  skipVerdict skipped =
    mkResult "1.3.1" "Info and Relationships" A Warning None None
      ("Heading levels skipped: " ++ Js.join "; " skipped)
      (Some "Use heading levels in order (h1, h2, h3...) without skipping levels").
Proof.
  destruct skipped; [congruence|reflexivity].
Qed.

Lemma headingCountVerdict_other (n : nat) :
  isSkipWarning (headingCountVerdict n) = false /\
  isSequencePass (headingCountVerdict n) = false.
Proof. split; reflexivity. Qed.

Lemma prefix_append (s t : string) : prefix s (s ++ t) = true.
Proof.
  induction s as [|a s IH]; simpl.
  - now destruct t.
  - destruct (ascii_dec a a); [exact IH|congruence].
Qed.

Lemma skipVerdict_is_skip_warning (skipped : list string) :
  skipped <> [] ->
  isSkipWarning (skipVerdict skipped) = true /\
  isSequencePass (skipVerdict skipped) = false.
Proof.
  intros Hsk. rewrite (skipVerdict_warning skipped Hsk).
  split; [|reflexivity].
  unfold isSkipWarning. cbn [status message CheckStatus_eqb andb].
  apply prefix_append.
Qed.

Lemma skipVerdict_is_sequence_pass :
  isSkipWarning (skipVerdict []) = false /\
  isSequencePass (skipVerdict []) = true.
Proof. split; reflexivity. Qed.

(** The verdicts of the level scan within the whole result. *)
Lemma checkHeadingStructure_scan (input : HeadingStructureInput) :
  headings input <> [] ->
  let skipped := skippedLevels (headings input) in
  let result := checkHeadingStructure input in
  (skipped <> [] ->
   filter isSkipWarning result = [skipVerdict skipped] /\
   filter isSequencePass result = []) /\
  (skipped = [] ->
   filter isSkipWarning result = [] /\
   filter isSequencePass result = [skipVerdict []]).
Proof.
  intros Hne skipped result. subst result.
  rewrite (checkHeadingStructure_nonempty input Hne). fold skipped.
  pose proof (sectionHeadingsVerdict_other
                (List.length (headings input))) as [Hs1 Hs2].
  pose proof (headingCountVerdict_other
                (List.length (headings input))) as [Hc1 Hc2].
  assert (Hh1 : filter isSkipWarning (h1Verdicts (countH1 input)) = []).
  { apply filter_none. intros v Hv. now apply h1Verdicts_are_warnings in Hv. }
  assert (Hh2 : filter isSequencePass (h1Verdicts (countH1 input)) = []).
  { apply filter_none. intros v Hv. now apply h1Verdicts_are_warnings in Hv. }
  split; intros Hsk.
  - destruct (skipVerdict_is_skip_warning skipped Hsk) as [Hv1 Hv2].
    cbn [filter]. rewrite !filter_app, Hh1, Hh2, Hc1, Hc2.
    cbn [filter app]. rewrite Hs1, Hs2, Hv1, Hv2. split; reflexivity.
  - rewrite Hsk. destruct skipVerdict_is_sequence_pass as [Hv1 Hv2].
    cbn [filter]. rewrite !filter_app, Hh1, Hh2, Hc1, Hc2.
    cbn [filter app]. rewrite Hs1, Hs2, Hv1, Hv2. split; reflexivity.
Qed.


End HeadingVerdicts.


Section HeadingCount.
Context {B : Js.Builtins}.
Import Structure.

Lemma h1Verdicts_no_info (n : Z) :
  filter (Report.hasStatus Info) (h1Verdicts n) = [].
Proof.
  apply filter_none. intros v Hv.
  apply h1Verdicts_are_warnings in Hv as [Hs _].
  unfold Report.hasStatus. now rewrite Hs.
Qed.

(** C10. For a non-empty heading sequence the result of
    [checkHeadingStructure] opens with an info verdict under 2.4.6
    (Headings and Labels, level AA) that reports the number of headings;
    it is the only info verdict of the result, which has at least three
    verdicts; and a report built from the result counts it in [total]
    and in none of passed, failed and warnings. *)
Theorem checkHeadingStructure_count_verdict
    (input : HeadingStructureInput) (options : option Report.ReportOptions)
    (w : Js.World) :
  headings input <> [] ->
  let result := checkHeadingStructure input in
  let s := r_summary (fst (Report.createReport result options w)) in
  (exists rest,
     result =
       mkResult "2.4.6" "Headings and Labels" AA Info None None
         ("Page has " ++ Js.natToString (List.length (headings input)) ++
          " heading(s)") None :: rest /\
     filter (Report.hasStatus Info) rest = []) /\
  3 <= List.length result /\
  total s = List.length result /\
  passed s + failed s + warnings s + 1 = total s.
Proof.
  intros Hne result s.
  assert (Hres : result =
            (headingCountVerdict (List.length (headings input)) ::
             h1Verdicts (countH1 input) ++
             [ skipVerdict (skippedLevels (headings input));
               sectionHeadingsVerdict (List.length (headings input)) ])%list).
  { apply checkHeadingStructure_nonempty, Hne. }
  assert (Hrest : filter (Report.hasStatus Info)
            (h1Verdicts (countH1 input) ++
             [ skipVerdict (skippedLevels (headings input));
               sectionHeadingsVerdict (List.length (headings input)) ])%list
            = []).
  { rewrite filter_app, h1Verdicts_no_info. unfold Report.hasStatus.
    cbn [filter app]. unfold skipVerdict, sectionHeadingsVerdict.
    destruct (skippedLevels (headings input));
      destruct (2 <=? List.length (headings input))%nat; reflexivity. }
  split; [|split; [|split]].
  - eexists. split; [exact Hres|exact Hrest].
  - rewrite Hres. cbn [List.length]. rewrite length_app. simpl. lia.
  - reflexivity.
  - pose proof (status_buckets_partition result) as Hpart.
    assert (Hinfo : List.length (filter (Report.hasStatus Info) result) = 1).
    { rewrite Hres. cbn [filter]. unfold Report.hasStatus at 1.
      cbn [headingCountVerdict status CheckStatus_eqb]. now rewrite Hrest. }
    subst s. simpl. lia.
Qed.

End HeadingCount.

(** A page with the single heading h1. *)
Lemma checkHeadingStructure_count_verdict_witness :
  3 <= List.length
         (Structure.checkHeadingStructure
            (Structure.mkHeadingStructure
               [Structure.mkHeading 1 "Title" None None] None None)).
Proof.
  destruct (@checkHeadingStructure_count_verdict Sample.builtins
              (Structure.mkHeadingStructure
                 [Structure.mkHeading 1 "Title" None None] None None)
              None Sample.world
              (fun H => eq_ind (A := list Structure.HeadingInput)
                 [Structure.mkHeading 1 "Title" None None]
                 (fun l => match l with [] => False | _ :: _ => True end)
                 I [] H))
    as (_ & Hlen & _).
  exact Hlen.
Defined.

(** ** Determinism of the contrast check and the place of the timestamp *)

Section Determinism.
Context {B : Js.Builtins} {C : Text.Culori}.

Lemma verdictOf_machineResult (V : list CheckResult) :
  map verdictOf (map Report.machineResult V) = V.
Proof.
  induction V as [|[] V IH]; [reflexivity|].
  simpl. now rewrite IH.
Qed.

(** What a report is made of, the clock apart: its verdicts, summary and
    human text are computed from the verdict list alone, the entries of
    its machine report are the verdicts with a reference URL added, and
    rendering takes one reading of the clock, the timestamp. *)
Lemma createReport_clock (V : list CheckResult)
    (options : option Report.ReportOptions) (w : Js.World) :
  let r := fst (Report.createReport V options w) in
  let w' := snd (Report.createReport V options w) in
  r_results r = V /\
  r_summary r = r_summary (fst (Report.createReport V options w')) /\
  r_human r = r_human (fst (Report.createReport V options w')) /\
  map verdictOf (results (r_machine r)) = V /\
  timestamp (r_machine r) = Js.clock w (Js.reads w) /\
  Js.clock w' = Js.clock w /\ Js.reads w' = S (Js.reads w) /\
  forall w2,
    withTimestamp (Js.clock w2 (Js.reads w2)) (r_machine r) =
    r_machine (fst (Report.createReport V options w2)).
Proof.
  simpl. repeat split. apply verdictOf_machineResult.
Qed.


End Determinism.

(** ** Flashing check *)

(** The catalog has 2.3.1 at level A and 2.3.2 at level AAA, the levels
    the check gives its verdicts. *)
Lemma flash_criteria_levels :
  option_map c_level (Criteria.getCriterion "2.3.1") = Some A /\
  option_map c_level (Criteria.getCriterion "2.3.2") = Some AAA.
Proof. split; reflexivity. Qed.

Section FlashingProperties.
Context {B : Js.Builtins}.

(** C8 (as amended). With flashing content present, 3 flashes per second
    give a pass under 2.3.1, at level A, whatever the other fields; 4
    flashes per second, when the content is not declared below the
    general flash threshold, give a fail under 2.3.1 at level A and a
    warning under 2.3.2 at level AAA. *)
Theorem checkFlashing_three_and_four (input : Media.FlashingInput) :
  Media.hasFlashing input = true ->
  (Media.flashesPerSecond input = Some 3%float ->
   exists v rest,
     Media.checkFlashing input = v :: rest /\
     criterion v = "2.3.1" /\ level v = A /\ status v = Pass) /\
  (Media.flashesPerSecond input = Some 4%float ->
   Media.isBelowThreshold input <> Some true ->
   exists v1 v2 rest,
     Media.checkFlashing input = v1 :: v2 :: rest /\
     criterion v1 = "2.3.1" /\ level v1 = A /\ status v1 = Fail /\
     criterion v2 = "2.3.2" /\ level v2 = AAA /\ status v2 = Warning).
Proof.
  intros Hflash. unfold Media.checkFlashing. rewrite Hflash.
  cbn [negb]. split.
  - intros Hfps. rewrite Hfps. do 2 eexists. split; [reflexivity|].
    repeat split.
  - intros Hfps Hbelow. rewrite Hfps. do 3 eexists. split; [reflexivity|].
    cbn [criterion level status].
    change (4 <=? 3)%float with false. change (4 =? 0)%float with false.
    destruct (Media.isBelowThreshold input) as [[|]|];
      try congruence; repeat split.
Qed.

End FlashingProperties.

(** Content flashing four times per second. *)
Lemma checkFlashing_three_and_four_witness :
  exists v1 v2 rest,
    @Media.checkFlashing Sample.builtins
      (Media.mkFlashing true (Some 4%float) None None) = v1 :: v2 :: rest /\
    status v1 = Fail /\ status v2 = Warning.
Proof.
  destruct (@checkFlashing_three_and_four Sample.builtins
              (Media.mkFlashing true (Some 4%float) None None) eq_refl)
    as [_ Hfour].
  destruct (Hfour eq_refl
              (fun H => eq_ind (A := option bool) None
                 (fun o => match o with None => True | Some _ => False end)
                 I (Some true) H))
    as (v1 & v2 & rest & Heq & _ & _ & Hs1 & _ & _ & Hs2).
  exists v1, v2, rest. repeat split; assumption.
Defined.

(** C8 as stated fails: at 3 flashes per second no verdict under 2.3.1
    has level AA (the criterion is a level A criterion), and at 4 flashes
    per second the verdict under 2.3.1 is a pass, not a fail, when the
    content is declared below the general flash threshold. *)
Lemma checkFlashing_level_counterexample :
  (~ exists v,
       In v (@Media.checkFlashing Sample.builtins
               (Media.mkFlashing true (Some 3%float) None None)) /\
       criterion v = "2.3.1" /\ level v = AA) /\
  (~ exists v,
       In v (@Media.checkFlashing Sample.builtins
               (Media.mkFlashing true (Some 4%float) None None)) /\
       criterion v = "2.3.1" /\ level v = AA /\ status v = Fail) /\
  (exists v rest,
     @Media.checkFlashing Sample.builtins
       (Media.mkFlashing true (Some 4%float) None (Some true)) = v :: rest /\
     criterion v = "2.3.1" /\ status v = Pass).
Proof.
  split; [|split].
  - intros (v & Hin & _ & Hl).
    simpl in Hin. destruct Hin as [<-|[<-|[]]]; discriminate.
  - intros (v & Hin & _ & Hl & _).
    simpl in Hin. destruct Hin as [<-|[<-|[]]]; discriminate.
  - do 2 eexists. split; [reflexivity|]. split; reflexivity.
Qed.

(** ** Error prevention check *)

Section ErrorPreventionProperties.
Import Forms.

Lemma jsOr_isTrue (a b : option bool) :
  isTrue (jsOr a b) = isTrue a || isTrue b.
Proof. destruct a as [[|]|], b as [[|]|]; reflexivity. Qed.

(** For a legal, financial or data-modification transaction the check
    emits the AA verdict under 3.3.4 and the AAA verdict under 3.3.6,
    both decided by the same condition. *)
Lemma checkErrorPrevention_high_stakes (input : FormSubmissionInput) :
  transactionType input = legal \/ transactionType input = financial \/
  transactionType input = data_modification ->
  exists aa aaa,
    checkErrorPrevention input = [aa; aaa] /\
    criterion aa = "3.3.4" /\ level aa = AA /\
    status aa = (if hasSafeguard input then Pass else Fail) /\
    criterion aaa = "3.3.6" /\ level aaa = AAA /\
    status aaa = (if hasSafeguard input then Pass else Warning).
Proof.
  intros Htype. unfold checkErrorPrevention, hasSafeguard.
  rewrite <- !jsOr_isTrue.
  destruct Htype as [H|[H|H]]; rewrite H; cbn [transactionTypeToString];
    (do 2 eexists; split; [reflexivity|]; repeat split).
Qed.

(** For any other transaction the check returns before it reaches
    3.3.6: a single info verdict under 3.3.4, whatever the safeguards. *)
Lemma checkErrorPrevention_low_stakes (input : FormSubmissionInput) :
  transactionType input = test \/ transactionType input = other ->
  checkErrorPrevention input =
    [ mkResult "3.3.4" "Error Prevention (Legal, Financial, Data)" AA Info
        None None
        ("Transaction type " ++ Js.dq ++
         transactionTypeToString (transactionType input) ++ Js.dq ++
         " may not require error prevention measures")
        None ].
Proof.
  intros Htype. unfold checkErrorPrevention.
  destruct Htype as [H|H]; rewrite H; reflexivity.
Qed.

(** C4 (the code at the failing input). A submission of type [other]
    that declares no safeguard gets no verdict under 3.3.6 at all: the
    result is the single info verdict under 3.3.4. *)
Theorem checkErrorPrevention_other_has_no_aaa_verdict :
  checkErrorPrevention (mkFormSubmission other None None None None) =
    [ mkResult "3.3.4" "Error Prevention (Legal, Financial, Data)" AA Info
        None None
        ("Transaction type " ++ Js.dq ++ "other" ++ Js.dq ++
         " may not require error prevention measures")
        None ] /\
  ~ exists v,
      In v (checkErrorPrevention (mkFormSubmission other None None None None)) /\
      criterion v = "3.3.6".
Proof.
  split; [reflexivity|].
  intros (v & Hin & Hc). simpl in Hin.
  destruct Hin as [<-|[]]. discriminate.
Qed.

End ErrorPreventionProperties.

(** ** Landmark check *)

Section LandmarkGrouping.
Import Aria.

(** Reading and listing a record after assignments. *)
Lemma get_set {T : Type} (o : JsObject.t T) (k k' : string) (v : T) :
  JsObject.get (JsObject.set o k v) k' =
  if String.eqb k k' then Some v else JsObject.get o k'.
Proof.
  induction o as [|[k0 v0] o IH]; simpl.
  - reflexivity.
  - destruct (String.eqb k0 k) eqn:H0; simpl.
    + apply String.eqb_eq in H0. subst k0.
      destruct (String.eqb k k'); reflexivity.
    + rewrite IH. destruct (String.eqb k k') eqn:Hk; [|reflexivity].
      apply String.eqb_eq in Hk. subst k'. now rewrite H0.
Qed.

Lemma get_In {T : Type} (o : JsObject.t T) (k : string) (v : T) :
  JsObject.get o k = Some v -> In (k, v) o.
Proof.
  induction o as [|[k0 v0] o IH]; simpl; [discriminate|].
  destruct (String.eqb k0 k) eqn:H0.
  - apply String.eqb_eq in H0. intros H. inversion H. subst. now left.
  - intros H. right. now apply IH.
Qed.

Lemma insertByIndex_In {T : Type} (x y : N * (string * T))
    (xs : list (N * (string * T))) :
  In y (JsObject.insertByIndex x xs) <-> y = x \/ In y xs.
Proof.
  induction xs as [|z xs IH]; simpl.
  - intuition.
  - destruct (fst x <=? fst z)%N; simpl; rewrite ?IH; intuition.
Qed.

Lemma sorted_In {T : Type} (y : N * (string * T))
    (xs : list (N * (string * T))) :
  In y (fold_right JsObject.insertByIndex [] xs) <-> In y xs.
Proof.
  induction xs as [|x xs IH]; simpl; [reflexivity|].
  rewrite insertByIndex_In, IH. intuition.
Qed.

Lemma entries_In {T : Type} (o : JsObject.t T) (kv : string * T) :
  In kv (JsObject.entries o) <-> In kv o.
Proof.
  unfold JsObject.entries. rewrite in_app_iff, in_map_iff, filter_In.
  split.
  - intros [((n & kv') & Heq & Hin)|[Hin _]]; [|exact Hin].
    simpl in Heq. subst kv'. apply sorted_In, in_flat_map in Hin.
    destruct Hin as (kv' & Hin & Hsel).
    destruct (JsObject.arrayIndex (fst kv')); [|contradiction].
    destruct Hsel as [Heq|[]]. inversion Heq. now subst.
  - intros Hin. destruct (JsObject.arrayIndex (fst kv)) as [n|] eqn:Hidx.
    + left. exists (n, kv). split; [reflexivity|].
      apply sorted_In, in_flat_map. exists kv. split; [exact Hin|].
      rewrite Hidx. now left.
    + right. split; [exact Hin|reflexivity].
Qed.

Lemma instancesOf_app (r : string) (xs ys : list Landmark) :
  instancesOf r (xs ++ ys) = (instancesOf r xs ++ instancesOf r ys)%list.
Proof. apply filter_app. Qed.

(** The grouping loop maintains the tables. *)
Lemma landmarkStep_tables (seen : list Landmark) (tables : LandmarkTables)
    (l : Landmark) :
  JsObject.isInherited (role l) = false ->
  tablesFor seen tables ->
  exists tables',
    landmarkStep (Returns tables) l = Returns tables' /\
    tablesFor (seen ++ [l]) tables'.
Proof.
  intros Hown Hinv. destruct tables as [counts labels].
  unfold landmarkStep. rewrite Hown. eexists. split; [reflexivity|].
  intros r. specialize (Hinv r) as Hr. specialize (Hinv (role l)) as Hl.
  cbn [fst snd] in *. rewrite !get_set.
  unfold labelsOf in *. rewrite instancesOf_app.
  unfold instancesOf at 2. unfold instancesOf at 3. unfold instancesOf at 4.
  cbn [filter].
  destruct (String.eqb (role l) r) eqn:Heq.
  - apply String.eqb_eq in Heq. subst r. cbn [app].
    destruct (instancesOf (role l) seen) as [|x xs] eqn:Hi.
    + destruct Hl as [-> ->]. simpl. split; reflexivity.
    + destruct Hl as [-> ->]. cbn [app]. split.
      * f_equal. cbn [List.length]. rewrite length_app. simpl. lia.
      * f_equal. change (x :: xs ++ [l])%list with ((x :: xs) ++ [l])%list.
        rewrite map_app. reflexivity.
  - rewrite app_nil_r. exact Hr.
Qed.

Lemma landmark_loop (ls seen : list Landmark) (tables : LandmarkTables) :
  (forall l, In l ls -> JsObject.isInherited (role l) = false) ->
  tablesFor seen tables ->
  exists tables',
    fold_left landmarkStep ls (Returns tables) = Returns tables' /\
    tablesFor (seen ++ ls) tables'.
Proof.
  revert seen tables. induction ls as [|l ls IH]; intros seen tables Hown Hinv.
  - exists tables. rewrite app_nil_r. split; [reflexivity|exact Hinv].
  - destruct (landmarkStep_tables seen tables l) as (t1 & Hstep & Hinv1);
      [apply Hown; now left|exact Hinv|].
    destruct (IH (seen ++ [l])%list t1) as (t2 & Hfold & Hinv2);
      [intros x Hx; apply Hown; now right|exact Hinv1|].
    exists t2. cbn [fold_left]. rewrite Hstep.
    rewrite <- app_assoc in Hinv2. split; assumption.
Qed.

(** The size of a set of labels and distinctness. *)
Lemma nodup_length_le (xs : list string) :
  List.length (nodup string_dec xs) <= List.length xs.
Proof.
  induction xs as [|x xs IH]; simpl; [lia|].
  destruct (in_dec string_dec x xs); simpl; lia.
Qed.

Lemma setSize_NoDup (xs : list string) :
  setSize xs = List.length xs <-> NoDup xs.
Proof.
  unfold setSize. split.
  - induction xs as [|x xs IH]; simpl; intros H; [constructor|].
    pose proof (nodup_length_le xs) as Hle.
    destruct (in_dec string_dec x xs) as [Hin|Hnin]; simpl in H; [lia|].
    constructor; [exact Hnin|]. apply IH. lia.
  - intros H. now rewrite nodup_fixed_point.
Qed.

Lemma setHas_In (xs : list string) (x : string) :
  setHas xs x = true <-> In x xs.
Proof.
  unfold setHas. rewrite existsb_exists. split.
  - intros (y & Hin & Heq). apply String.eqb_eq in Heq. now subst.
  - intros Hin. exists x. split; [exact Hin|apply String.eqb_refl].
Qed.

Lemma hasUniqueLabels_spec (labels : list string) :
  hasUniqueLabels (List.length labels) labels = true <->
  NoDup labels /\ ~ In "(unlabeled)" labels.
Proof.
  unfold hasUniqueLabels.
  rewrite andb_true_iff, Nat.eqb_eq, setSize_NoDup, negb_true_iff.
  rewrite <- setHas_In.
  destruct (setHas labels "(unlabeled)"); intuition congruence.
Qed.

(** A role that plain objects inherit a member for makes the check
    throw. *)
Lemma landmark_loop_throws (ls : list Landmark) (e : string) :
  fold_left landmarkStep ls (Throws e) = Throws e.
Proof. induction ls as [|l ls IH]; [reflexivity|exact IH]. Qed.

Lemma landmark_loop_inherited (ls : list Landmark)
    (st : Completion LandmarkTables) :
  (exists l, In l ls /\ JsObject.isInherited (role l) = true) ->
  exists e, fold_left landmarkStep ls st = Throws e.
Proof.
  revert st. induction ls as [|x ls IH]; intros st (l & Hin & Hl).
  - contradiction.
  - cbn [fold_left]. destruct st as [[counts labels]|e0].
    + unfold landmarkStep at 2.
      destruct (JsObject.isInherited (role x)) eqn:Hx.
      * eexists. apply landmark_loop_throws.
      * destruct Hin as [->|Hin]; [congruence|].
        apply IH. now exists l.
    + exists e0. apply landmark_loop_throws.
Qed.

Lemma checkLandmarks_inherited_role_throws (ls : list Landmark) :
  (exists l, In l ls /\ JsObject.isInherited (role l) = true) ->
  exists e, checkLandmarks ls = Throws e.
Proof.
  intros Hex. unfold checkLandmarks.
  destruct (landmark_loop_inherited ls (Returns ([], [])) Hex) as (e & He).
  exists e. now rewrite He.
Qed.

(** The verdict of a role that occurs more than once, when no role
    names an inherited member: it is in the result, made from the number
    of instances and their labels in document order, and it passes
    exactly when the labels (the placeholder standing for a missing or
    empty one) are pairwise distinct and none is the placeholder. *)
Lemma checkLandmarks_duplicate_role (ls : list Landmark) (r : string) :
  (forall l, In l ls -> JsObject.isInherited (role l) = false) ->
  1 < List.length (instancesOf r ls) ->
  let v := duplicateRoleVerdict r (List.length (instancesOf r ls))
             (labelsOf r ls) in
  (exists results, checkLandmarks ls = Returns results /\ In v results) /\
  (status v = Pass <->
   NoDup (labelsOf r ls) /\ ~ In "(unlabeled)" (labelsOf r ls)).
Proof.
  intros Hown Hmany v. split.
  - destruct (landmark_loop ls [] ([], [])) as ([counts labels] & Hfold & Hinv);
      [exact Hown|intros r'; split; reflexivity|].
    cbn [app] in Hinv. specialize (Hinv r). cbn [fst snd] in Hinv.
    destruct (instancesOf r ls) as [|x xs] eqn:Hi; [simpl in Hmany; lia|].
    destruct Hinv as [Hc Hl].
    unfold checkLandmarks.
    destruct (fold_left landmarkStep ls _) as [[counts' labels']|e];
      [|discriminate].
    inversion Hfold. subst counts' labels'. clear Hfold.
    assert (Hv : In v (duplicateVerdicts counts labels)).
    { unfold duplicateVerdicts. apply in_flat_map.
      exists (r, List.length (x :: xs)). split.
      - apply entries_In, get_In, Hc.
      - apply Nat.ltb_lt in Hmany. rewrite Hmany, Hl.
        now left. }
    eexists. split; [reflexivity|].
    set (results := match JsObject.get counts "main" with
                    | Some (S _) => duplicateVerdicts counts labels
                    | _ => _
                    end).
    assert (Hr : In v results).
    { subst results. destruct (JsObject.get counts "main") as [[|n]|];
        try exact Hv; apply in_or_app; now left. }
    destruct results as [|y ys]; [contradiction|].
    destruct ls; exact Hr.
  - subst v. unfold duplicateRoleVerdict. cbn [status].
    rewrite <- hasUniqueLabels_spec. unfold labelsOf.
    rewrite length_map.
    destruct (hasUniqueLabels _ _); split; intros; congruence.
Qed.

(** The same condition in the words of the rule: the instances carry
    pairwise distinct, non-empty labels, and none of the labels is the
    placeholder text itself. *)
Lemma displayLabel_given (l : Landmark) :
  displayLabel l <> "(unlabeled)" ->
  exists s, label l = Some s /\ s <> "" /\ s <> "(unlabeled)" /\
            displayLabel l = s.
Proof.
  unfold displayLabel. destruct (label l) as [[|c s]|]; simpl; intros H;
    try congruence.
  exists (String c s). repeat split; congruence.
Qed.

Lemma labels_unique_iff (r : string) (ls : list Landmark) :
  NoDup (labelsOf r ls) /\ ~ In "(unlabeled)" (labelsOf r ls) <->
  NoDup (map label (instancesOf r ls)) /\
  forall l, In l (instancesOf r ls) ->
    exists s, label l = Some s /\ s <> "" /\ s <> "(unlabeled)".
Proof.
  unfold labelsOf. generalize (instancesOf r ls) as I. intros I. split.
  - intros [Hnd Hph]. split.
    + assert (Hmap : map displayLabel I =
                     map (fun o => Js.orElse o "(unlabeled)") (map label I))
        by now rewrite map_map.
      rewrite Hmap in Hnd. now apply NoDup_map_inv in Hnd.
    + intros l Hl.
      destruct (displayLabel_given l) as (s & Hs & H1 & H2 & _).
      * intros Heq. apply Hph. rewrite <- Heq. now apply in_map.
      * now exists s.
  - intros [Hnd Hall].
    assert (Hph : ~ In "(unlabeled)" (map displayLabel I)).
    { intros Hin. apply in_map_iff in Hin as (l & Heq & Hl).
      destruct (Hall l Hl) as (s & Hs & H1 & H2).
      unfold displayLabel in Heq. rewrite Hs in Heq.
      destruct s; simpl in Heq; congruence. }
    split; [|exact Hph].
    apply NoDup_map_inv in Hnd as HndI.
    apply NoDup_map_NoDup_ForallPairs; [|exact HndI].
    intros x y Hx Hy Heq.
    destruct (Hall x Hx) as (sx & Hsx & Hx1 & _).
    destruct (Hall y Hy) as (sy & Hsy & Hy1 & _).
    unfold displayLabel in Heq. rewrite Hsx, Hsy in Heq.
    assert (Hlab : label x = label y).
    { destruct sx, sy; simpl in Heq; congruence. }
    clear - Hnd Hx Hy Hlab.
    induction I as [|z I IH]; [contradiction|].
    simpl in Hnd. inversion Hnd as [|? ? Hnin Hnd']; subst.
    destruct Hx as [->|Hx], Hy as [->|Hy]; auto.
    + exfalso. apply Hnin. rewrite Hlab. now apply in_map.
    + exfalso. apply Hnin. rewrite <- Hlab. now apply in_map.
Qed.

End LandmarkGrouping.

Section LandmarkProperties.
Import Aria.

(** Two navigation landmarks with the same label: a fail, and the
    warning that no main landmark exists. *)
Lemma checkLandmarks_same_label :
  exists v rest,
    checkLandmarks [ mkLandmark "navigation" (Some "Main Nav");
                     mkLandmark "navigation" (Some "Main Nav") ] =
      Returns (v :: rest) /\
    value v = Some (VString "2 navigation landmarks") /\
    status v = Fail.
Proof. do 2 eexists. split; [reflexivity|]. split; reflexivity. Qed.

(** The same two landmarks with distinct labels: a pass. *)
Lemma checkLandmarks_distinct_labels :
  exists v rest,
    checkLandmarks [ mkLandmark "navigation" (Some "Main Nav");
                     mkLandmark "navigation" (Some "Footer Nav") ] =
      Returns (v :: rest) /\
    value v = Some (VString "2 navigation landmarks") /\
    status v = Pass.
Proof. do 2 eexists. split; [reflexivity|]. split; reflexivity. Qed.

(** Two navigation landmarks without labels: a fail. *)
Lemma checkLandmarks_unlabeled :
  exists v rest,
    checkLandmarks [ mkLandmark "navigation" None;
                     mkLandmark "navigation" (Some "") ] =
      Returns (v :: rest) /\
    value v = Some (VString "2 navigation landmarks") /\
    status v = Fail.
Proof. do 2 eexists. split; [reflexivity|]. split; reflexivity. Qed.

(** C7 (the code at the failing input). Two navigation landmarks whose
    labels are distinct and non-empty, one of them the text
    [(unlabeled)] that the check itself uses as the placeholder of a
    missing label: the verdict for the role is a fail that reports the
    labels as not unique. *)
Theorem checkLandmarks_placeholder_label_fails :
  let landmarks := [ mkLandmark "navigation" (Some "(unlabeled)");
                     mkLandmark "navigation" (Some "Footer Nav") ] in
  (NoDup (map label (instancesOf "navigation" landmarks)) /\
   forall l, In l (instancesOf "navigation" landmarks) ->
     exists s, label l = Some s /\ s <> "") /\
  checkLandmarks landmarks =
  Returns
    [ mkResult "4.1.2" "Name, Role, Value" A Fail
        (Some (VString "2 navigation landmarks")) None
        "Multiple navigation landmarks lack unique labels: (unlabeled), Footer Nav"
        (Some "Add unique aria-label or aria-labelledby to distinguish navigation landmarks");
      mkResult "4.1.2" "Name, Role, Value" A Warning None None
        "No main landmark found"
        (Some ("Add role=" ++ Js.dq ++ "main" ++ Js.dq ++
               " or use <main> element for primary content")) ].
Proof.
  intros landmarks. split; [split|reflexivity].
  - simpl. repeat constructor; simpl; intuition discriminate.
  - simpl. intros l [<-|[<-|[]]]; eexists; split; try reflexivity;
      discriminate.
Qed.

End LandmarkProperties.

(** * Further properties of the checks *)

(** ** Verdicts and the catalog *)

(** A verdict with the criterion, name and level written in a check is
    well formed whatever the rest of it, provided its status and
    recommendation agree. *)
Ltac well_formed_verdicts :=
  repeat first
    [ reflexivity
    | progress cbn [forallb app map flat_map]
    | rewrite forallb_app
    | apply andb_true_intro; split
    | match goal with
      | |- context [match ?x with _ => _ end] =>
        match type of x with
        | bool => destruct x eqn:?
        | option _ => destruct x eqn:?
        | list _ => destruct x eqn:?
        | string => destruct x eqn:?
        | _ => destruct x eqn:?
        end
      end ].

Section TextWellFormed.
Context {B : Js.Builtins} {C : Text.Culori}.

Lemma checkContrastRatio_well_formed (foreground background : string)
    (sizePx : float) (isBold : option bool) :
  forallb wellFormed
    (Text.checkContrastRatio foreground background sizePx isBold) = true.
Proof. unfold Text.checkContrastRatio. well_formed_verdicts. Qed.

Lemma checkTextSpacing_well_formed (fontSize : float)
    (lineHeight letterSpacing wordSpacing paragraphSpacing : option float) :
  forallb wellFormed
    (Text.checkTextSpacing fontSize lineHeight letterSpacing wordSpacing
       paragraphSpacing) = true.
Proof. unfold Text.checkTextSpacing. well_formed_verdicts. Qed.

Lemma checkLineLength_well_formed (text : string) :
  forallb wellFormed (Text.checkLineLength text) = true.
Proof. unfold Text.checkLineLength. well_formed_verdicts. Qed.

Lemma checkTextJustification_well_formed (isJustified : bool) :
  forallb wellFormed (Text.checkTextJustification isJustified) = true.
Proof. unfold Text.checkTextJustification. well_formed_verdicts. Qed.

Lemma checkResizeText_well_formed (usesRelativeUnits hasFixedContainers : bool) :
  forallb wellFormed
    (Text.checkResizeText usesRelativeUnits hasFixedContainers) = true.
Proof. unfold Text.checkResizeText. well_formed_verdicts. Qed.

Lemma checkLanguage_well_formed (hasLangAttribute : bool)
    (langValue : option string) :
  forallb wellFormed (Text.checkLanguage hasLangAttribute langValue) = true.
Proof. unfold Text.checkLanguage. well_formed_verdicts. Qed.

Lemma checkImagesOfText_well_formed (hasImagesOfText : bool)
    (isEssential : option bool) :
  forallb wellFormed
    (Text.checkImagesOfText hasImagesOfText isEssential) = true.
Proof. unfold Text.checkImagesOfText. well_formed_verdicts. Qed.

(** X1. Every verdict of the text checks, alone or through
    [validateAll], names a criterion of the catalog at the catalog's
    level, under the catalog's name or an extension of it (1.4.8 is
    reported as Line Length and as Justification), and carries a
    recommendation only when it is a fail or a warning. *)
Theorem text_checks_well_formed :
  (forall foreground background sizePx isBold,
     forallb wellFormed
       (Text.checkContrastRatio foreground background sizePx isBold) = true) /\
  (forall fontSize lineHeight letterSpacing wordSpacing paragraphSpacing,
     forallb wellFormed
       (Text.checkTextSpacing fontSize lineHeight letterSpacing wordSpacing
          paragraphSpacing) = true) /\
  (forall text, forallb wellFormed (Text.checkLineLength text) = true) /\
  (forall isJustified,
     forallb wellFormed (Text.checkTextJustification isJustified) = true) /\
  (forall usesRelativeUnits hasFixedContainers,
     forallb wellFormed
       (Text.checkResizeText usesRelativeUnits hasFixedContainers) = true) /\
  (forall hasLangAttribute langValue,
     forallb wellFormed
       (Text.checkLanguage hasLangAttribute langValue) = true) /\
  (forall hasImagesOfText isEssential,
     forallb wellFormed
       (Text.checkImagesOfText hasImagesOfText isEssential) = true) /\
  (forall input, forallb wellFormed (Text.validateAll input) = true).
Proof.
  repeat split; intros.
  - apply checkContrastRatio_well_formed.
  - apply checkTextSpacing_well_formed.
  - apply checkLineLength_well_formed.
  - apply checkTextJustification_well_formed.
  - apply checkResizeText_well_formed.
  - apply checkLanguage_well_formed.
  - apply checkImagesOfText_well_formed.
  - unfold Text.validateAll. rewrite !forallb_app.
    rewrite checkContrastRatio_well_formed, checkTextSpacing_well_formed.
    repeat (apply andb_true_intro; split); try reflexivity.
    + destruct (Js.truthy _); [apply checkLineLength_well_formed|reflexivity].
    + destruct (Text.isJustified input);
        [apply checkTextJustification_well_formed|reflexivity].
    + destruct (Text.usesRelativeUnits input), (Text.hasFixedContainers input);
        try reflexivity; apply checkResizeText_well_formed.
    + destruct (Text.hasLangAttribute input);
        [apply checkLanguage_well_formed|reflexivity].
    + destruct (Text.hasImagesOfText input);
        [apply checkImagesOfText_well_formed|reflexivity].
Qed.

End TextWellFormed.

Lemma forallb_flat_map {T U : Type} (p : U -> bool) (f : T -> list U)
    (xs : list T) :
  (forall x, forallb p (f x) = true) ->
  forallb p (flat_map f xs) = true.
Proof.
  intros Hf. induction xs as [|x xs IH]; [reflexivity|].
  simpl. now rewrite forallb_app, Hf, IH.
Qed.

Lemma forallb_map_const {T U : Type} (p : U -> bool) (f : T -> U)
    (xs : list T) :
  (forall x, p (f x) = true) -> forallb p (map f xs) = true.
Proof.
  intros Hf. induction xs as [|x xs IH]; [reflexivity|].
  simpl. now rewrite Hf, IH.
Qed.

Section StructureWellFormed.
Context {S : Js.StringOps}.

Lemma checkHeadingStructure_well_formed
    (input : Structure.HeadingStructureInput) :
  forallb wellFormed (Structure.checkHeadingStructure input) = true.
Proof.
  unfold Structure.checkHeadingStructure, Structure.h1Verdicts,
    Structure.skipVerdict.
  well_formed_verdicts.
Qed.

Lemma checkInfoRelationships_well_formed
    (input : Structure.InfoRelationshipsInput) :
  forallb wellFormed (Structure.checkInfoRelationships input) = true.
Proof.
  unfold Structure.checkInfoRelationships.
  destruct (negb (Structure.isProgrammatic input)); [reflexivity|].
  rewrite !forallb_app.
  rewrite forallb_map_const by reflexivity.
  destruct (negb (Js.isTrue (Structure.usesSemanticHtml input))); reflexivity.
Qed.


End StructureWellFormed.

Section AriaWellFormed.
Context {S : Js.StringOps}.

Lemma checkLandmarks_well_formed (landmarks : list Aria.Landmark) :
  whenReturned wellFormed (Aria.checkLandmarks landmarks) = true.
Proof.
  unfold Aria.checkLandmarks.
  destruct (fold_left Aria.landmarkStep landmarks _)
    as [[landmarkCounts landmarkLabels]|e]; [|reflexivity].
  assert (Hdup : forallb wellFormed
                   (Aria.duplicateVerdicts landmarkCounts landmarkLabels)
                 = true).
  { unfold Aria.duplicateVerdicts. apply forallb_flat_map.
    intros [role count]. unfold Aria.duplicateRoleVerdict.
    well_formed_verdicts. }
  cbn [whenReturned].
  match goal with
  | |- forallb _ (match ?r with _ => _ end) = true =>
    assert (Hres : forallb wellFormed r = true);
      [|destruct r; destruct landmarks; first [exact Hres|reflexivity]]
  end.
  destruct (JsObject.get landmarkCounts "main") as [[|n]|];
    rewrite ?forallb_app, Hdup; reflexivity.
Qed.


End AriaWellFormed.

Section FormsWellFormed.
Context {P : Forms.ObjectPrototype}.

Lemma checkFormLabels_well_formed (input : Forms.FormFieldInput) :
  forallb wellFormed (Forms.checkFormLabels input) = true.
Proof. unfold Forms.checkFormLabels. well_formed_verdicts. Qed.

Lemma checkInputPurpose_well_formed (input : Forms.FormFieldInput) :
  forallb wellFormed (Forms.checkInputPurpose input) = true.
Proof. unfold Forms.checkInputPurpose. well_formed_verdicts. Qed.

Lemma checkErrorIdentification_well_formed (input : Forms.FormErrorInput) :
  forallb wellFormed (Forms.checkErrorIdentification input) = true.
Proof. unfold Forms.checkErrorIdentification. well_formed_verdicts. Qed.


End FormsWellFormed.

Section MediaWellFormed.
Context {B : Js.Builtins}.


End MediaWellFormed.

(** ** Line length *)

Lemma String_split_nonempty (sep : ascii) (s : string) :
  Js.String_split sep s <> [].
Proof.
  destruct s as [|c s]; simpl; [discriminate|].
  destruct (Ascii.eqb c sep); [discriminate|].
  destruct (Js.String_split sep s); discriminate.
Qed.

(** Joining the pieces with the separator gives the string back. *)
Lemma String_split_join (sep : ascii) (s : string) :
  String.concat (String sep "") (Js.String_split sep s) = s.
Proof.
  induction s as [|c s IH]; [reflexivity|].
  pose proof (String_split_nonempty sep s) as Hne.
  cbn [Js.String_split].
  destruct (Ascii.eqb c sep) eqn:Hc.
  - apply Ascii.eqb_eq in Hc. subst c.
    destruct (Js.String_split sep s) as [|p ps] eqn:Hs; [congruence|].
    change (String.concat (String sep "") ("" :: p :: ps))
      with (String sep (String.concat (String sep "") (p :: ps))).
    now rewrite IH.
  - destruct (Js.String_split sep s) as [|p ps] eqn:Hs; [congruence|].
    destruct ps as [|q qs].
    + simpl in *. now rewrite IH.
    + change (String.concat (String sep "") (String c p :: q :: qs))
        with (String c (String.concat (String sep "") (p :: q :: qs))).
      now rewrite IH.
Qed.

(** No piece holds the separator. *)
Lemma String_split_pieces (sep : ascii) (s piece : string) :
  In piece (Js.String_split sep s) ->
  forall c, In c (list_ascii_of_string piece) -> c <> sep.
Proof.
  revert piece. induction s as [|c s IH]; intros piece Hin.
  - destruct Hin as [<-|[]]. intros c [].
  - cbn [Js.String_split] in Hin.
    destruct (Ascii.eqb c sep) eqn:Hc.
    + destruct Hin as [<-|Hin]; [intros x []|now apply IH].
    + pose proof (String_split_nonempty sep s) as Hne.
      destruct (Js.String_split sep s) as [|p ps]; [congruence|].
      destruct Hin as [<-|Hin].
      * intros x [<-|Hx].
        -- intros ->. now rewrite Ascii.eqb_refl in Hc.
        -- apply (IH p); [now left|exact Hx].
      * apply IH. now right.
Qed.

Lemma Math_max_upper (xs : list nat) (x : nat) :
  In x xs -> x <= Js.Math_max xs.
Proof.
  induction xs as [|y ys IH]; [contradiction|].
  intros [->|Hin]; simpl; [lia|]. specialize (IH Hin). lia.
Qed.

Lemma Math_max_attained (xs : list nat) :
  xs <> [] -> In (Js.Math_max xs) xs.
Proof.
  induction xs as [|y ys IH]; [congruence|]. intros _.
  destruct ys as [|z zs].
  - simpl. left. lia.
  - assert (Hin : In (Js.Math_max (z :: zs)) (z :: zs))
      by (apply IH; discriminate).
    change (Js.Math_max (y :: z :: zs))
      with (Nat.max y (Js.Math_max (z :: zs))).
    destruct (Nat.max_spec y (Js.Math_max (z :: zs))) as [[_ ->]|[_ ->]];
      [now right|now left].
Qed.


(** ** Language of the page *)

(** X7. [checkLanguage] always returns exactly one verdict, under 3.1.1:
    a pass when the page has a lang attribute whose value has at least
    two UTF-16 code units, and a fail in every other case (no attribute,
    no value, or a value of fewer than two code units). No table of
    language tags is consulted. *)
Theorem checkLanguage_pass_iff (hasLangAttribute : bool)
    (langValue : option string) :
  exists v,
    Text.checkLanguage hasLangAttribute langValue = [v] /\
    criterion v = "3.1.1" /\
    (status v = Pass \/ status v = Fail) /\
    (status v = Pass <->
     hasLangAttribute = true /\
     exists tag, langValue = Some tag /\ 2 <= Js.length16 tag).
Proof.
  unfold Text.checkLanguage.
  destruct hasLangAttribute; cbn [negb].
  - destruct langValue as [[|c tag]|]; cbn [Js.truthy Js.orElse negb orb].
    + eexists. split; [reflexivity|]. split; [reflexivity|].
      split; [now right|]. split; [discriminate|].
      intros (_ & tag & Htag & Hlen). inversion Htag. subst.
      simpl in Hlen. lia.
    + destruct (Js.length16 (String c tag) <? 2)%nat eqn:Hlt;
        (eexists; split; [reflexivity|]; split; [reflexivity|]).
      * split; [now right|]. split; [discriminate|].
        intros (_ & t & Ht & Hlen). inversion Ht. subst t.
        apply Nat.ltb_lt in Hlt. lia.
      * split; [now left|]. split; [|reflexivity].
        intros _. split; [reflexivity|].
        exists (String c tag). split; [reflexivity|].
        apply Nat.ltb_ge in Hlt. exact Hlt.
    + eexists. split; [reflexivity|]. split; [reflexivity|].
      split; [now right|]. split; [discriminate|].
      intros (_ & tag & Htag & _). discriminate.
  - eexists. split; [reflexivity|]. split; [reflexivity|].
    split; [now right|]. split; [discriminate|].
    intros (H & _). discriminate.
Qed.

(** ** Full text validation *)

Section ValidateAll.
Context {B : Js.Builtins} {C : Text.Culori}.

Lemma checkContrastRatio_length (foreground background : string)
    (sizePx : float) (isBold : option bool) :
  1 <= List.length
         (Text.checkContrastRatio foreground background sizePx isBold) <= 2.
Proof.
  unfold Text.checkContrastRatio.
  destruct (Text.parse foreground), (Text.parse background); simpl; lia.
Qed.

Lemma checkContrastRatio_first (foreground background : string)
    (sizePx : float) (isBold : option bool) :
  exists v rest,
    Text.checkContrastRatio foreground background sizePx isBold = v :: rest /\
    criterion v = "1.4.3".
Proof.
  unfold Text.checkContrastRatio.
  destruct (Text.parse foreground), (Text.parse background);
    do 2 eexists; split; reflexivity.
Qed.

Lemma checkTextSpacing_single (fontSize : float)
    (lineHeight letterSpacing wordSpacing paragraphSpacing : option float) :
  exists v,
    Text.checkTextSpacing fontSize lineHeight letterSpacing wordSpacing
      paragraphSpacing = [v] /\
    criterion v = "1.4.12".
Proof.
  unfold Text.checkTextSpacing.
  destruct (filter _ _); [eexists; split; reflexivity|].
  destruct (fold_left _ _ _). eexists. split; reflexivity.
Qed.


End ValidateAll.

(** ** The criteria catalog *)

Lemma find_by_id_unique (catalog : list WcagCriterion) (c : WcagCriterion) :
  NoDup (map c_id catalog) ->
  In c catalog ->
  find (fun x => String.eqb (c_id x) (c_id c)) catalog = Some c.
Proof.
  induction catalog as [|x xs IH]; intros Hnd Hin; [contradiction|].
  simpl in Hnd. inversion Hnd as [|? ? Hnin Hnd']; subst.
  simpl. destruct Hin as [->|Hin].
  - now rewrite String.eqb_refl.
  - destruct (String.eqb (c_id x) (c_id c)) eqn:Heq; [|now apply IH].
    apply String.eqb_eq in Heq. exfalso. apply Hnin.
    rewrite Heq. now apply in_map.
Qed.

Lemma distinct_NoDup (xs : list string) :
  distinct xs = true -> NoDup xs.
Proof.
  induction xs as [|x xs IH]; intros H; [constructor|].
  simpl in H. apply andb_prop in H as [Hx Hxs].
  constructor; [|now apply IH].
  intros Hin. apply negb_true_iff in Hx.
  assert (Hex : existsb (String.eqb x) xs = true).
  { apply existsb_exists. exists x. split; [exact Hin|apply String.eqb_refl]. }
  congruence.
Qed.

Lemma catalog_ids_distinct : NoDup (map c_id Criteria.WCAG_CRITERIA).
Proof. apply distinct_NoDup. vm_compute. reflexivity. Qed.


Lemma catalog_categories_known :
  forallb (fun c => match c_category c with
                    | Some k => Js.Array_includes Criteria.CATEGORIES k
                    | None => false
                    end) Criteria.WCAG_CRITERIA = true.
Proof. vm_compute. reflexivity. Qed.

Lemma filter_by_category_partition (categories : list string)
    (catalog : list WcagCriterion) :
  forallb (fun c => match c_category c with
                    | Some k => Js.Array_includes categories k
                    | None => false
                    end) catalog = true ->
  (forall c, In c catalog ->
     exists k,
       In k categories /\
       forall k', In c (filter (fun c0 => match c_category c0 with
                                          | Some k0 => String.eqb k0 k'
                                          | None => false
                                          end) catalog) <-> k' = k) /\
  (forall k c, In c (filter (fun c0 => match c_category c0 with
                                       | Some k0 => String.eqb k0 k
                                       | None => false
                                       end) catalog) ->
     In c catalog /\ In k categories).
Proof.
  intros Hknown. rewrite forallb_forall in Hknown.
  assert (Hcat : forall c, In c catalog ->
            exists k, c_category c = Some k /\ In k categories).
  { intros c Hin. specialize (Hknown c Hin).
    destruct (c_category c) as [k|]; [|discriminate].
    exists k. split; [reflexivity|].
    unfold Js.Array_includes in Hknown.
    apply existsb_exists in Hknown. destruct Hknown as (k' & Hk' & Heq).
    apply String.eqb_eq in Heq. subst k'. exact Hk'. }
  split.
  - intros c Hin. destruct (Hcat c Hin) as (k & Hk & Hink).
    exists k. split; [exact Hink|].
    intros k'. rewrite filter_In, Hk. split.
    + intros [_ Heq]. apply String.eqb_eq in Heq. symmetry. exact Heq.
    + intros ->. split; [exact Hin|apply String.eqb_refl].
  - intros k c Hin. apply filter_In in Hin. destruct Hin as [Hin Heq].
    split; [exact Hin|].
    destruct (Hcat c Hin) as (k' & Hk' & Hink').
    rewrite Hk' in Heq. apply String.eqb_eq in Heq. subst k'. exact Hink'.
Qed.

Lemma filter_by_level_partition (catalog : list WcagCriterion) :
  (forall c, In c catalog ->
     forall l, In c (filter (fun c0 => WcagLevel_eqb (c_level c0) l) catalog)
               <-> l = c_level c) /\
  List.length (filter (fun c0 => WcagLevel_eqb (c_level c0) A) catalog) +
  List.length (filter (fun c0 => WcagLevel_eqb (c_level c0) AA) catalog) +
  List.length (filter (fun c0 => WcagLevel_eqb (c_level c0) AAA) catalog) =
  List.length catalog.
Proof.
  split.
  - intros c Hin l. rewrite filter_In. split.
    + intros [_ Heq]. destruct (c_level c), l; simpl in Heq; congruence.
    + intros ->. split; [exact Hin|]. destruct (c_level c); reflexivity.
  - induction catalog as [|c rest IH]; [reflexivity|].
    simpl. destruct (c_level c); simpl; lia.
Qed.

(** X10. The category and level queries partition the catalog. Every
    entry has one of the seven categories of [CATEGORIES] and is returned
    by [getCriteriaByCategory] for that category and no other, and by
    [getCriteriaByLevel] for its level and no other; the queries return
    entries of the catalog only, and a category outside the list returns
    none. *)
Theorem catalog_queries_partition :
  (forall c, In c Criteria.WCAG_CRITERIA ->
     exists k,
       In k Criteria.CATEGORIES /\
       forall k', In c (Criteria.getCriteriaByCategory k') <-> k' = k) /\
  (forall c, In c Criteria.WCAG_CRITERIA ->
     forall l, In c (Criteria.getCriteriaByLevel l) <-> l = c_level c) /\
  (forall k c, In c (Criteria.getCriteriaByCategory k) ->
     In c Criteria.WCAG_CRITERIA /\ In k Criteria.CATEGORIES) /\
  List.length (Criteria.getCriteriaByLevel A) +
  List.length (Criteria.getCriteriaByLevel AA) +
  List.length (Criteria.getCriteriaByLevel AAA) =
  List.length Criteria.WCAG_CRITERIA.
Proof.
  destruct (filter_by_category_partition Criteria.CATEGORIES
              Criteria.WCAG_CRITERIA catalog_categories_known) as [Hc Hk].
  destruct (filter_by_level_partition Criteria.WCAG_CRITERIA) as [Hl Hsum].
  split; [exact Hc|].
  split; [exact Hl|].
  split; [exact Hk|exact Hsum].
Qed.

(** ** The reports *)

Lemma find_by_id_Some (catalog : list WcagCriterion) (id : string)
    (c : WcagCriterion) :
  NoDup (map c_id catalog) ->
  (find (fun x => String.eqb (c_id x) id) catalog = Some c <->
   In c catalog /\ c_id c = id).
Proof.
  intros Hnd. split.
  - intros Hfind. apply find_some in Hfind. destruct Hfind as [Hin Heq].
    apply String.eqb_eq in Heq. split; assumption.
  - intros [Hin <-]. apply find_by_id_unique; assumption.
Qed.

Lemma getCriterion_Some (id : string) (c : WcagCriterion) :
  Criteria.getCriterion id = Some c <->
  In c Criteria.WCAG_CRITERIA /\ c_id c = id.
Proof.
  unfold Criteria.getCriterion. apply find_by_id_Some.
  exact catalog_ids_distinct.
Qed.

(** X11. The entries of the machine report are the verdicts in their
    order, each with the reference URL of the catalog: an entry has a URL
    exactly when the catalog lists its criterion, the URL is that of the
    catalog's entry, and an entry made from a verdict that names a
    criterion of the catalog, as the verdicts of the checks do, always
    has one. The category is passed through and the version is 2.1. *)
Theorem formatMachineReport_entries (V : list CheckResult)
    (cat : option string) (w : Js.World) :
  let m := fst (Report.formatMachineReport V cat w) in
  wcagVersion m = "2.1" /\ category m = cat /\
  map verdictOf (results m) = V /\
  (forall e u, In e (results m) ->
     (mr_url e = Some u <->
      exists c, In c Criteria.WCAG_CRITERIA /\
                c_id c = mr_criterion e /\ c_url c = u)) /\
  (forall e, In e (results m) ->
     (mr_url e = None <->
      ~ In (mr_criterion e) (map c_id Criteria.WCAG_CRITERIA))) /\
  (forall e, In e (results m) -> inCatalog (verdictOf e) = true ->
     mr_url e <> None).
Proof.
  cbn [Report.formatMachineReport Js.Date_toISOString fst wcagVersion
       category results].
  split; [reflexivity|]. split; [reflexivity|].
  split; [apply verdictOf_machineResult|].
  assert (Hurl : forall e, In e (map Report.machineResult V) ->
            mr_url e = option_map c_url (Criteria.getCriterion (mr_criterion e))).
  { intros e He. apply in_map_iff in He as (r & <- & _). reflexivity. }
  split; [|split].
  - intros e u He. rewrite (Hurl e He). split.
    + destruct (Criteria.getCriterion (mr_criterion e)) as [c|] eqn:Hget;
        [|discriminate].
      intros [= <-]. apply getCriterion_Some in Hget. destruct Hget.
      exists c. repeat split; assumption.
    + intros (c & Hin & Hid & Hu).
      assert (Hget : Criteria.getCriterion (mr_criterion e) = Some c)
        by (apply getCriterion_Some; split; assumption).
      rewrite Hget. simpl. now rewrite Hu.
  - intros e He. rewrite (Hurl e He). split.
    + destruct (Criteria.getCriterion (mr_criterion e)) as [c|] eqn:Hget;
        [discriminate|].
      intros _ Hin. apply in_map_iff in Hin as (c & Hid & Hin).
      assert (Hsome : Criteria.getCriterion (mr_criterion e) = Some c)
        by (apply getCriterion_Some; split; assumption).
      congruence.
    + intros Hnin.
      destruct (Criteria.getCriterion (mr_criterion e)) as [c|] eqn:Hget;
        [|reflexivity].
      apply getCriterion_Some in Hget. destruct Hget as [Hin Hid].
      exfalso. apply Hnin. rewrite <- Hid. apply in_map. exact Hin.
  - intros e He. rewrite (Hurl e He). unfold inCatalog, verdictOf.
    cbn [criterion].
    destruct (Criteria.getCriterion (mr_criterion e)); simpl; congruence.
Qed.

Lemma filter_hasStatus_same (s : CheckStatus) (V : list CheckResult) :
  filter (Report.hasStatus s) (filter (Report.hasStatus s) V) =
  filter (Report.hasStatus s) V.
Proof.
  induction V as [|r V IH]; [reflexivity|].
  simpl. destruct (Report.hasStatus s r) eqn:H; [|exact IH].
  simpl. now rewrite H, IH.
Qed.

Lemma filter_hasStatus_other (s s' : CheckStatus) (V : list CheckResult) :
  s <> s' ->
  filter (Report.hasStatus s) (filter (Report.hasStatus s') V) = [].
Proof.
  intros Hne. induction V as [|r V IH]; [reflexivity|].
  simpl. destruct (Report.hasStatus s' r) eqn:H; [|exact IH].
  simpl. rewrite IH.
  unfold Report.hasStatus in *.
  destruct (status r), s, s'; simpl in *; congruence.
Qed.

Lemma filter_grouped (s : CheckStatus) (V : list CheckResult) :
  filter (Report.hasStatus s) (grouped V) = filter (Report.hasStatus s) V.
Proof.
  unfold grouped. rewrite !filter_app.
  destruct s;
    repeat first
      [ rewrite filter_hasStatus_same
      | rewrite filter_hasStatus_other by discriminate ];
    rewrite ?app_nil_r; reflexivity.
Qed.

Section HumanReport.
Context {B : Js.Builtins}.

(** X12. The human report is a function of the four status groups of
    the verdicts: it is the same for the list and for the list regrouped
    as failures, warnings, info and passed, so moving a verdict past one
    of another status changes nothing; regrouping is idempotent and keeps
    the number of verdicts. A missing title is the default title. *)
Theorem formatHumanReport_grouping (V : list CheckResult)
    (title : option string) :
  Report.formatHumanReport (grouped V) title =
    Report.formatHumanReport V title /\
  grouped (grouped V) = grouped V /\
  List.length (grouped V) = List.length V /\
  Report.formatHumanReport V None =
    Report.formatHumanReport V (Some "WCAG ACCESSIBILITY REPORT").
Proof.
  split; [|split; [|split]].
  - unfold Report.formatHumanReport. now rewrite !filter_grouped.
  - unfold grouped at 1. now rewrite !filter_grouped.
  - unfold grouped. rewrite !length_app.
    pose proof (status_buckets_partition V). lia.
  - reflexivity.
Qed.

End HumanReport.

(** ** Consistent navigation and identification *)

Lemma String_split_app (sep : ascii) (x t : string) :
  (forall c, In c (list_ascii_of_string x) -> c <> sep) ->
  Js.String_split sep (x ++ t) =
  match Js.String_split sep t with
  | piece :: pieces => (x ++ piece) :: pieces
  | [] => [x]
  end.
Proof.
  induction x as [|c x IH]; intros Hfree.
  - simpl. destruct (Js.String_split sep t) eqn:Ht; [|reflexivity].
    now apply String_split_nonempty in Ht.
  - cbn [append Js.String_split].
    assert (Hc : Ascii.eqb c sep = false).
    { apply Ascii.eqb_neq. apply Hfree. now left. }
    rewrite Hc, IH by (intros d Hd; apply Hfree; now right).
    destruct (Js.String_split sep t) as [|p ps] eqn:Ht;
      [now apply String_split_nonempty in Ht|reflexivity].
Qed.

Lemma append_empty_r (s : string) : (s ++ "")%string = s.
Proof. induction s as [|c s IH]; [reflexivity|]. simpl. now rewrite IH. Qed.

(** Splitting a joined list of separator-free items gives the items. *)
Lemma String_split_concat (sep : ascii) (xs : list string) :
  xs <> [] ->
  (forall x c, In x xs -> In c (list_ascii_of_string x) -> c <> sep) ->
  Js.String_split sep (String.concat (String sep "") xs) = xs.
Proof.
  induction xs as [|x xs IH]; [congruence|]. intros _ Hfree.
  destruct xs as [|y ys].
  - cbn [String.concat]. rewrite <- (append_empty_r x) at 1.
    rewrite String_split_app by (intros c Hc; apply (Hfree x); [now left|exact Hc]).
    simpl. now rewrite append_empty_r.
  - change (String.concat (String sep "") (x :: y :: ys))
      with (x ++ String sep (String.concat (String sep "") (y :: ys)))%string.
    rewrite String_split_app by (intros c Hc; apply (Hfree x); [now left|exact Hc]).
    cbn [Js.String_split]. rewrite Ascii.eqb_refl.
    rewrite IH; [now rewrite append_empty_r|discriminate|].
    intros z c Hz Hc. apply (Hfree z); [now right|exact Hc].
Qed.

Lemma commaFree_spec (item : string) :
  commaFree item = true ->
  forall c, In c (list_ascii_of_string item) -> c <> ","%char.
Proof.
  unfold commaFree. rewrite forallb_forall. intros H c Hc.
  apply Ascii.eqb_neq. apply negb_true_iff. now apply H.
Qed.

Lemma join_plainOrder_injective (xs ys : list string) :
  plainOrder xs = true -> plainOrder ys = true ->
  Js.join "," xs = Js.join "," ys -> xs = ys.
Proof.
  intros Hx Hy Heq.
  assert (Hsplit : forall zs, plainOrder zs = true ->
            Js.String_split ","%char (Js.join "," zs) = zs).
  { intros zs Hz. apply String_split_concat.
    - destruct zs; [discriminate|discriminate].
    - intros z c Hin Hc. destruct zs as [|z0 zs']; [contradiction|].
      unfold plainOrder in Hz. rewrite forallb_forall in Hz.
      exact (commaFree_spec z (Hz z Hin) c Hc). }
  rewrite <- (Hsplit xs Hx), <- (Hsplit ys Hy). now rewrite Heq.
Qed.

(** X13. [checkConsistentNavigation] on fewer than two pages gives one
    info verdict. On two or more it gives one verdict under 3.2.3, a pass
    or a fail, and it compares the orders as texts, the items joined by
    commas: it passes exactly when all pages have the same joined text.
    Pages with equal orders therefore pass, and when every order has at
    least one item and no item holds a comma, a pass means that all pages
    have the same order; the page names play no part. *)
Theorem checkConsistentNavigation_verdict
    (navigationElements : list Structure.NavigationElement) :
  2 <= List.length navigationElements ->
  exists v,
    Structure.checkConsistentNavigation navigationElements = [v] /\
    criterion v = "3.2.3" /\ level v = AA /\
    (status v = Pass \/ status v = Fail) /\
    (status v = Pass <->
     forall a b, In a navigationElements -> In b navigationElements ->
       Js.join "," (Structure.order a) = Js.join "," (Structure.order b)) /\
    ((forall a b, In a navigationElements -> In b navigationElements ->
        Structure.order a = Structure.order b) -> status v = Pass) /\
    ((forall a, In a navigationElements ->
        plainOrder (Structure.order a) = true) ->
     status v = Pass ->
     forall a b, In a navigationElements -> In b navigationElements ->
       Structure.order a = Structure.order b).
Proof.
  intros Hlen.
  destruct navigationElements as [|first [|second rest]];
    [simpl in Hlen; lia|simpl in Hlen; lia|].
  unfold Structure.checkConsistentNavigation.
  set (navs := first :: second :: rest).
  set (isConsistent := forallb _ navs).
  assert (Hiff : isConsistent = true <->
            forall a b, In a navs -> In b navs ->
              Js.join "," (Structure.order a) =
              Js.join "," (Structure.order b)).
  { subst isConsistent. rewrite forallb_forall. split.
    - intros H a b Ha Hb.
      apply H in Ha. apply H in Hb.
      apply String.eqb_eq in Ha. apply String.eqb_eq in Hb. congruence.
    - intros H nav Hnav. apply String.eqb_eq. apply H; [exact Hnav|now left]. }
  eexists. split; [reflexivity|]. cbn [criterion level status].
  split; [reflexivity|]. split; [reflexivity|].
  split; [destruct isConsistent; [now left|now right]|].
  assert (Hpass : (if isConsistent then Pass else Fail) = Pass <->
                  isConsistent = true)
    by (destruct isConsistent; split; congruence).
  split; [now rewrite Hpass|]. split.
  - intros Hsame. apply Hpass, Hiff. intros a b Ha Hb.
    now rewrite (Hsame a b Ha Hb).
  - intros Hplain Hp a b Ha Hb.
    apply join_plainOrder_injective; [now apply Hplain|now apply Hplain|].
    apply Hiff; [now apply Hpass|exact Ha|exact Hb].
Qed.

Lemma checkConsistentNavigation_verdict_witness :
  exists v,
    Structure.checkConsistentNavigation
      [ Structure.mkNavigationElement "/" ["Home"; "About"];
        Structure.mkNavigationElement "/about" ["Home,About"] ] = [v] /\
    status v = Pass.
Proof.
  destruct (checkConsistentNavigation_verdict
              [ Structure.mkNavigationElement "/" ["Home"; "About"];
                Structure.mkNavigationElement "/about" ["Home,About"] ])
    as (v & Hv & _ & _ & _ & Hiff & _); [simpl; lia|].
  exists v. split; [exact Hv|].
  apply Hiff. intros a b [<-|[<-|[]]] [<-|[<-|[]]]; reflexivity.
Defined.

Lemma checkConsistentNavigation_single
    (navigationElements : list Structure.NavigationElement) :
  List.length navigationElements < 2 ->
  Structure.checkConsistentNavigation navigationElements =
    [ mkResult "3.2.3" "Consistent Navigation" AA Info None None
        "Need multiple pages to check navigation consistency" None ].
Proof.
  intros Hlen. destruct navigationElements as [|first [|second rest]];
    [reflexivity|reflexivity|simpl in Hlen; lia].
Qed.

Lemma nodup_at_most_one (xs : list string) :
  (1 <? List.length (nodup string_dec xs))%nat = false <->
  forall x y, In x xs -> In y xs -> x = y.
Proof.
  rewrite Nat.ltb_ge. split.
  - intros Hlen x y Hx Hy.
    apply (nodup_In string_dec) in Hx. apply (nodup_In string_dec) in Hy.
    destruct (nodup string_dec xs) as [|a [|b rest]].
    + contradiction.
    + destruct Hx as [<-|[]], Hy as [<-|[]]. reflexivity.
    + simpl in Hlen. lia.
  - intros Hsame.
    pose proof (NoDup_nodup string_dec xs) as Hnd.
    assert (Hin : forall x, In x (nodup string_dec xs) -> In x xs)
      by (intros x; apply nodup_In).
    destruct (nodup string_dec xs) as [|a [|b rest]]; simpl; try lia.
    exfalso. inversion Hnd as [|? ? Hnin _]; subst. apply Hnin.
    left. apply Hsame; apply Hin; simpl; auto.
Qed.

(** X14. [checkConsistentIdentification] gives exactly one verdict, under
    3.2.4 at level AA, a pass or a fail: a pass exactly when within every
    component all identifiers are the same text, an empty list of
    identifiers included. A fail lists the components that have two
    different identifiers, in their order, and no others. *)
Theorem checkConsistentIdentification_verdict
    (components : list Structure.Component) :
  exists v,
    Structure.checkConsistentIdentification components = [v] /\
    criterion v = "3.2.4" /\ level v = AA /\
    (status v = Pass \/ status v = Fail) /\
    (status v = Pass <->
     forall component, In component components -> sameIdentifiers component) /\
    (status v = Fail ->
     message v =
       "Inconsistent identification: " ++
       Js.join "; "
         (map (fun component =>
                 Structure.function component ++ ": " ++
                 Js.join ", " (Structure.identifiers component))
            (filter (fun component =>
                       (1 <? List.length
                               (nodup string_dec
                                  (Structure.identifiers component)))%nat)
               components))).
Proof.
  unfold Structure.checkConsistentIdentification.
  assert (Hlist : flat_map Structure.inconsistentEntry components =
            map (fun component =>
                   Structure.function component ++ ": " ++
                   Js.join ", " (Structure.identifiers component))
              (filter (fun component =>
                         (1 <? List.length
                                 (nodup string_dec
                                    (Structure.identifiers component)))%nat)
                 components)).
  { induction components as [|c cs IH]; [reflexivity|].
    cbn [flat_map filter]. unfold Structure.inconsistentEntry at 1.
    destruct (1 <? _)%nat; simpl; now rewrite IH. }
  assert (Hnone : flat_map Structure.inconsistentEntry components = [] <->
            forall component, In component components ->
                              sameIdentifiers component).
  { clear Hlist. induction components as [|c cs IH].
    - simpl. split; [intros _ ? []|reflexivity].
    - cbn [flat_map]. split.
      + intros H. apply app_eq_nil in H as [Hc Hcs].
        intros component [<-|Hin]; [|now apply IH].
        unfold Structure.inconsistentEntry in Hc.
        destruct (1 <? _)%nat eqn:Hn; [discriminate|].
        unfold sameIdentifiers. now apply nodup_at_most_one.
      + intros H.
        assert (Hc : sameIdentifiers c) by (apply H; now left).
        unfold sameIdentifiers in Hc. apply nodup_at_most_one in Hc.
        unfold Structure.inconsistentEntry at 1. rewrite Hc. simpl.
        apply IH. intros component Hin. apply H. now right. }
  rewrite <- Hlist.
  destruct (flat_map Structure.inconsistentEntry components) as [|e es].
  - eexists. split; [reflexivity|]. cbn [criterion level status message].
    split; [reflexivity|]. split; [reflexivity|]. split; [now left|].
    split; [|discriminate].
    split; [intros _; now apply Hnone|reflexivity].
  - eexists. split; [reflexivity|]. cbn [criterion level status message].
    split; [reflexivity|]. split; [reflexivity|]. split; [now right|].
    split; [|reflexivity].
    split; [discriminate|]. intros H. apply Hnone in H. discriminate.
Qed.

(** ** Link purpose *)

Section LinkPurpose.
Context {S : Js.StringOps}.
Import Structure.

(** X15. [checkLinkPurpose] gives the level A verdict under 2.4.4, then
    the level AAA verdict under 2.4.9, then at most one warning, present
    exactly when the link opens a new window and this is not indicated.
    The AAA verdict passes exactly for a link marked descriptive whose
    text is not one of the generic texts, and then the A verdict passes
    too. Context counts only for a generic text: a link whose text is not
    generic passes level A exactly when it is marked descriptive,
    whatever the context. The AAA verdict never fails. *)
Theorem checkLinkPurpose_levels (input : LinkInput) :
  let isGeneric :=
    Js.Array_includes genericTexts
      (Js.trim (Js.toLowerCase (linkText input))) in
  exists a aaa extra,
    checkLinkPurpose input = a :: aaa :: extra /\
    (criterion a = "2.4.4" /\ level a = A /\
     criterion aaa = "2.4.9" /\ level aaa = AAA) /\
    (status a = Pass \/ status a = Fail) /\
    (status aaa = Pass \/ status aaa = Warning) /\
    (status aaa = Pass <->
     l_isDescriptive input = Some true /\ isGeneric = false) /\
    (status aaa = Pass -> status a = Pass) /\
    (status a = Pass <->
     l_isDescriptive input = Some true \/
     (isGeneric = true /\ hasContext input = Some true)) /\
    (isGeneric = false ->
     (status a = Pass <-> l_isDescriptive input = Some true)) /\
    (extra = [] \/
     exists w, extra = [w] /\ status w = Warning /\ criterion w = "2.4.4") /\
    (extra <> [] <->
     opensNewWindow input = Some true /\
     newWindowIndicated input <> Some true).
Proof.
  intros isGeneric. unfold checkLinkPurpose. fold isGeneric.
  do 3 eexists. split; [reflexivity|].
  cbn [criterion level status].
  destruct (l_isDescriptive input) as [[|]|], isGeneric,
    (hasContext input) as [[|]|],
    (opensNewWindow input) as [[|]|],
    (newWindowIndicated input) as [[|]|];
    cbn [Js.isTrue orb andb negb];
    repeat split;
    try solve [ auto | congruence | discriminate
              | intros [? ?]; congruence
              | intros [?|[? ?]]; congruence
              | right; eexists; repeat split; reflexivity
              | intros; split; congruence
              | intros _; right; split; reflexivity].
Qed.

End LinkPurpose.

(** ** Label in name *)

Lemma prefix_empty (s : string) : prefix "" s = true.
Proof. destruct s; reflexivity. Qed.

Lemma startsWith_includes (s p : string) :
  Js.startsWith s p = true -> Js.includes s p = true.
Proof.
  unfold Js.startsWith. intros H.
  destruct s as [|c s]; cbn [Js.includes]; now rewrite H.
Qed.

Section LabelInName.
Context {S : Js.StringOps}.
Import Aria.

(** X16. [checkLabelInName] compares the two texts in lower case and
    trimmed. Its first verdict, under 2.5.3, is a pass or a fail; a
    second verdict, when there is one, is the warning that the label is
    not at the start, and it only accompanies a pass. When the accessible
    name starts with the visible label, in particular when the two are
    equal or the label is empty after trimming, the result is the pass
    alone. *)
Theorem checkLabelInName_cases (input : LabelInNameInput) :
  let visible := Js.trim (Js.toLowerCase (visibleLabel input)) in
  let accessible := Js.trim (Js.toLowerCase (n_accessibleName input)) in
  exists v extra,
    checkLabelInName input = v :: extra /\
    criterion v = "2.5.3" /\ level v = A /\
    (status v = Pass <-> Js.includes accessible visible = true) /\
    (status v = Fail <-> Js.includes accessible visible = false) /\
    (status v = Fail -> extra = []) /\
    (extra = [] \/
     exists w, extra = [w] /\ status w = Warning /\ status v = Pass /\
               Js.startsWith accessible visible = false) /\
    (Js.startsWith accessible visible = true ->
     status v = Pass /\ extra = []) /\
    (visible = "" \/ visible = accessible -> status v = Pass /\ extra = []).
Proof.
  intros visible accessible. unfold checkLabelInName.
  fold visible. fold accessible.
  assert (Hstart : Js.startsWith accessible visible = true ->
                   Js.includes accessible visible = true)
    by apply startsWith_includes.
  assert (Hsame : visible = "" \/ visible = accessible ->
                  Js.startsWith accessible visible = true).
  { intros [->| ->]; unfold Js.startsWith.
    - apply prefix_empty.
    - rewrite <- (append_empty_r accessible) at 2. apply prefix_append. }
  do 2 eexists. split; [reflexivity|]. cbn [criterion level status].
  destruct (Js.includes accessible visible) eqn:Hinc,
           (Js.startsWith accessible visible) eqn:Hst;
    cbn [andb negb app];
    repeat split; try solve [auto | congruence | discriminate];
    try solve [ right; eexists; repeat split; reflexivity
              | intros H; specialize (Hsame H); congruence
              | match goal with
                | H : _ \/ _ |- _ => specialize (Hsame H); congruence
                end
              | specialize (Hstart eq_refl); congruence
              | intros _; specialize (Hstart eq_refl); congruence ].
Qed.

End LabelInName.

(** ** Roles that name an inherited member *)

Section InheritedRoles.
Import Aria.

(** X17. A role spelled like a member that every object inherits
    ([constructor], [toString], [__proto__] and the like) makes both
    [checkLandmarks] and [checkAriaAttributes] throw a TypeError in place
    of returning verdicts: the tables the checks index by role are plain
    objects. One such landmark anywhere in the list is enough. *)
Theorem inherited_role_throws (r : string) :
  In r JsObject.inherited ->
  (forall landmarks, (exists l, In l landmarks /\ role l = r) ->
     exists e, checkLandmarks landmarks = Throws e) /\
  (forall element, e_role element = Some r ->
     checkAriaAttributes element =
       Throws "TypeError: roleOwns[element.role].join is not a function").
Proof.
  intros Hin.
  assert (Hinh : JsObject.isInherited r = true).
  { unfold JsObject.isInherited. apply existsb_exists.
    exists r. split; [exact Hin|apply String.eqb_refl]. }
  split.
  - intros landmarks (l & Hl & Hr).
    apply checkLandmarks_inherited_role_throws.
    exists l. split; [exact Hl|]. now rewrite Hr.
  - intros element Hrole. unfold checkAriaAttributes. rewrite Hrole.
    destruct r as [|c r]; [|now rewrite Hinh].
    exfalso. simpl in Hin.
    repeat (destruct Hin as [Hin|Hin]; [discriminate|]). exact Hin.
Qed.

Lemma inherited_role_throws_witness :
  (exists e,
     checkLandmarks [ mkLandmark "main" None;
                      mkLandmark "constructor" (Some "x") ] = Throws e) /\
  checkAriaAttributes
    (mkAriaElement (Some "toString") None None "div" None None None None
       None None) =
    Throws "TypeError: roleOwns[element.role].join is not a function".
Proof.
  split.
  - apply (proj1 (inherited_role_throws "constructor"
                    ltac:(simpl; auto))).
    eexists. split; [right; left; reflexivity|reflexivity].
  - apply (proj2 (inherited_role_throws "toString" ltac:(simpl; tauto))).
    reflexivity.
Defined.

End InheritedRoles.

(** ** Landmarks of one role *)

Section LandmarkRule.
Import Aria.

(** X18. When no role names an inherited member and a role occurs more
    than once, [checkLandmarks] returns, and its result holds one verdict
    for that role under 4.1.2, whose value counts the instances. The
    verdict is a pass or a fail, and a pass exactly when the instances
    carry pairwise distinct labels, each present, non-empty and other
    than the placeholder text [(unlabeled)]. *)
Theorem checkLandmarks_role_verdict (landmarks : list Landmark)
    (r : string) :
  (forall l, In l landmarks -> JsObject.isInherited (role l) = false) ->
  1 < List.length (instancesOf r landmarks) ->
  exists results v,
    checkLandmarks landmarks = Returns results /\ In v results /\
    criterion v = "4.1.2" /\ level v = A /\
    value v =
      Some (VString
              (Js.natToString (List.length (instancesOf r landmarks)) ++
               " " ++ r ++ " landmarks")) /\
    (status v = Pass \/ status v = Fail) /\
    (status v = Pass <->
     NoDup (map label (instancesOf r landmarks)) /\
     forall l, In l (instancesOf r landmarks) ->
       exists s, label l = Some s /\ s <> "" /\ s <> "(unlabeled)").
Proof.
  intros Hown Hmany.
  destruct (checkLandmarks_duplicate_role landmarks r Hown Hmany)
    as [(results & Hret & Hin) Hpass].
  exists results. eexists. split; [exact Hret|]. split; [exact Hin|].
  split; [reflexivity|]. split; [reflexivity|]. split; [reflexivity|].
  split.
  - cbn [duplicateRoleVerdict status].
    destruct (hasUniqueLabels _ _); [now left|now right].
  - rewrite <- labels_unique_iff. exact Hpass.
Qed.

Lemma checkLandmarks_role_verdict_witness :
  exists results v,
    checkLandmarks [ mkLandmark "navigation" (Some "Main Nav");
                     mkLandmark "main" None;
                     mkLandmark "navigation" (Some "Footer Nav") ] =
      Returns results /\
    In v results /\ criterion v = "4.1.2" /\
    value v = Some (VString "2 navigation landmarks").
Proof.
  destruct (checkLandmarks_role_verdict
              [ mkLandmark "navigation" (Some "Main Nav");
                mkLandmark "main" None;
                mkLandmark "navigation" (Some "Footer Nav") ] "navigation")
    as (results & v & Hret & Hin & Hc & _ & Hv & _).
  - intros l [<-|[<-|[<-|[]]]]; reflexivity.
  - simpl. lia.
  - exists results, v. repeat split; assumption.
Defined.

End LandmarkRule.

(** ** Error prevention by transaction type *)

Section ErrorPreventionVerdicts.
Import Forms.

(** X19. [checkErrorPrevention] judges only legal, financial and
    data-modification transactions. For these it gives two verdicts, the
    AA one under 3.3.4 and the AAA one under 3.3.6, decided by the same
    condition, that at least one safeguard is declared: both pass, or the
    first fails and the second warns. For a test or other transaction
    the result is a single info verdict under 3.3.4, so a verdict under
    3.3.6 exists exactly for the three judged types. *)
Theorem checkErrorPrevention_verdicts (input : FormSubmissionInput) :
  ((exists v, In v (checkErrorPrevention input) /\ criterion v = "3.3.6") <->
   isHighStakes (transactionType input) = true) /\
  (isHighStakes (transactionType input) = true ->
   exists aa aaa,
     checkErrorPrevention input = [aa; aaa] /\
     criterion aa = "3.3.4" /\ level aa = AA /\
     criterion aaa = "3.3.6" /\ level aaa = AAA /\
     (status aa = Pass <-> hasSafeguard input = true) /\
     (status aaa = Pass <-> status aa = Pass) /\
     (status aa = Fail <-> status aaa = Warning) /\
     (status aa = Pass \/ status aa = Fail)) /\
  (isHighStakes (transactionType input) = false ->
   exists v,
     checkErrorPrevention input = [v] /\
     criterion v = "3.3.4" /\ status v = Info).
Proof.
  assert (Hhigh : isHighStakes (transactionType input) = true ->
            transactionType input = legal \/
            transactionType input = financial \/
            transactionType input = data_modification).
  { destruct (transactionType input); simpl; intros H;
      try discriminate; auto. }
  assert (Hlow : isHighStakes (transactionType input) = false ->
            transactionType input = test \/ transactionType input = other).
  { destruct (transactionType input); simpl; intros H;
      try discriminate; auto. }
  split; [|split].
  - split.
    + intros (v & Hin & Hc).
      destruct (isHighStakes (transactionType input)) eqn:Hs; [reflexivity|].
      rewrite (checkErrorPrevention_low_stakes input (Hlow eq_refl)) in Hin.
      destruct Hin as [<-|[]]. discriminate.
    + intros Hs.
      destruct (checkErrorPrevention_high_stakes input (Hhigh Hs))
        as (aa & aaa & Heq & _ & _ & _ & Hc & _).
      exists aaa. split; [|exact Hc]. rewrite Heq. right. now left.
  - intros Hs.
    destruct (checkErrorPrevention_high_stakes input (Hhigh Hs))
      as (aa & aaa & Heq & Hc1 & Hl1 & Hs1 & Hc2 & Hl2 & Hs2).
    exists aa, aaa. rewrite Hs1, Hs2.
    destruct (hasSafeguard input);
      repeat split; try assumption; try congruence; auto.
  - intros Hs.
    rewrite (checkErrorPrevention_low_stakes input (Hlow Hs)).
    eexists. repeat split.
Qed.

End ErrorPreventionVerdicts.

(** ** Autocomplete tokens *)

Lemma String_split_append (sep : ascii) (p t : string) :
  Js.String_split sep (p ++ String sep t) =
  (Js.String_split sep p ++ Js.String_split sep t)%list.
Proof.
  induction p as [|c p IH].
  - simpl. now rewrite Ascii.eqb_refl.
  - cbn [append Js.String_split]. rewrite IH.
    destruct (Ascii.eqb c sep); [reflexivity|].
    destruct (Js.String_split sep p) as [|q qs] eqn:Hp;
      [now apply String_split_nonempty in Hp|reflexivity].
Qed.

Lemma last_app_nonempty {T : Type} (xs ys : list T) (d : T) :
  ys <> [] -> last (xs ++ ys) d = last ys d.
Proof.
  intros Hne. induction xs as [|x xs IH]; [reflexivity|].
  cbn [app]. destruct (xs ++ ys)%list as [|z zs] eqn:Hz.
  - apply app_eq_nil in Hz. destruct Hz. contradiction.
  - rewrite <- IH. reflexivity.
Qed.

Lemma spaceFree_spec (token : string) :
  spaceFree token = true ->
  forall c, In c (list_ascii_of_string token) -> c <> " "%char.
Proof.
  unfold spaceFree. rewrite forallb_forall. intros H c Hc.
  apply Ascii.eqb_neq. apply negb_true_iff. now apply H.
Qed.

Lemma lastToken_single (token : string) :
  spaceFree token = true -> Forms.lastToken token = token.
Proof.
  intros Hfree. unfold Forms.lastToken.
  rewrite <- (append_empty_r token) at 1.
  rewrite String_split_app by now apply spaceFree_spec.
  simpl. apply append_empty_r.
Qed.

Lemma lastToken_append (before token : string) :
  spaceFree token = true ->
  Forms.lastToken (before ++ " " ++ token) = token.
Proof.
  intros Hfree. unfold Forms.lastToken.
  change (before ++ " " ++ token)%string
    with (before ++ String " "%char token)%string.
  rewrite String_split_append.
  rewrite last_app_nonempty by apply String_split_nonempty.
  now apply lastToken_single.
Qed.

Lemma get_None_iff {T : Type} (o : JsObject.t T) (k : string) :
  JsObject.get o k = None <-> ~ In k (map fst o).
Proof.
  induction o as [|[k' v] o IH]; simpl; [tauto|].
  destruct (String.eqb k' k) eqn:Hk.
  - apply String.eqb_eq in Hk. split; [discriminate|]. intros H.
    exfalso. apply H. now left.
  - apply String.eqb_neq in Hk. rewrite IH. tauto.
Qed.

Section InputPurposeProperties.
Context {P : Forms.ObjectPrototype}.
Import Forms.


End InputPurposeProperties.


Section FormValidationProperties.
Context {P : Forms.ObjectPrototype}.
Import Forms.

Lemma checkFormLabels_first (field : FormFieldInput) :
  exists v rest,
    checkFormLabels field = v :: rest /\ criterion v = "3.3.2" /\
    (status v = Pass <->
     hasVisibleLabel field || hasAccessibleLabel field = true) /\
    (status v = Pass \/ status v = Fail).
Proof.
  unfold checkFormLabels.
  destruct (hasVisibleLabel field || hasAccessibleLabel field);
    cbn [negb app]; do 2 eexists; (split; [reflexivity|]);
    cbn [criterion status]; repeat split; auto; discriminate.
Qed.

(** X21. [validateForm] is the concatenation, field by field in order,
    of the label verdicts and the input-purpose verdicts of each field,
    followed by the error verdicts when errors are given: validating two
    lists of fields one after the other gives the verdicts of the
    combined list. Every field contributes at least one verdict, so a
    form with fields never validates to an empty result, and with no
    field and no errors the result is empty. *)
Theorem validateForm_composition (fields more : list FormFieldInput)
    (errors : option FormErrorInput) :
  validateForm (fields ++ more) errors =
    (validateForm fields None ++ validateForm more errors)%list /\
  validateForm fields errors =
    (validateForm fields None ++ validateForm [] errors)%list /\
  validateForm [] None = [] /\
  (forall field,
     validateForm [field] None =
       (checkFormLabels field ++ checkInputPurpose field)%list) /\
  (forall e, validateForm [] (Some e) = checkErrorIdentification e) /\
  List.length fields <= List.length (validateForm fields errors).
Proof.
  unfold validateForm. split; [|split; [|split; [|split; [|split]]]].
  - rewrite flat_map_app, app_nil_r, app_assoc. reflexivity.
  - now rewrite !app_nil_r.
  - reflexivity.
  - intros field. simpl. now rewrite !app_nil_r.
  - reflexivity.
  - rewrite length_app.
    assert (Hfields : List.length fields <=
              List.length
                (flat_map (fun field =>
                             checkFormLabels field ++ checkInputPurpose field)
                   fields)%list).
    { induction fields as [|f fs IH]; [simpl; lia|].
      cbn [flat_map]. rewrite !length_app.
      destruct (checkFormLabels_first f) as (v & rest & Heq & _).
      rewrite Heq. simpl. lia. }
    lia.
Qed.

End FormValidationProperties.

(** ** Media alternatives *)

Section MediaProperties.
Import Media.

(** X22. For prerecorded video [checkAudioDescription] gives the level A
    verdict under 1.2.3, then the level AA verdict under 1.2.5, then the
    level AAA verdict under 1.2.7 exactly when the pauses are declared
    insufficient. The AA verdict passes exactly when an audio description
    exists, the A verdict when an audio description or a media
    alternative exists, so passing AA implies passing A. The A verdict
    has no value at all when there is no audio description and the media
    alternative is left unspecified. The AAA verdict never fails. *)
Theorem checkAudioDescription_levels (input : AudioDescriptionInput) :
  hasVideoContent input = true -> isPrerecorded input = true ->
  exists a aa extra,
    checkAudioDescription input = a :: aa :: extra /\
    (criterion a = "1.2.3" /\ level a = A /\
     criterion aa = "1.2.5" /\ level aa = AA) /\
    (status a = Pass \/ status a = Fail) /\
    (status aa = Pass \/ status aa = Fail) /\
    (status aa = Pass <-> hasAudioDescription input = true) /\
    (status a = Pass <->
     hasAudioDescription input = true \/
     hasMediaAlternative input = Some true) /\
    (status aa = Pass -> status a = Pass) /\
    (value a = None <->
     hasAudioDescription input = false /\ hasMediaAlternative input = None) /\
    (extra = [] \/
     exists aaa, extra = [aaa] /\ criterion aaa = "1.2.7" /\
                 level aaa = AAA /\
                 (status aaa = Pass \/ status aaa = Warning)) /\
    (extra <> [] <-> pausesAreSufficient input = Some false).
Proof.
  intros Hvideo Hpre. unfold checkAudioDescription.
  rewrite Hvideo, Hpre. cbn [negb].
  do 3 eexists. split; [reflexivity|].
  cbn [criterion level status value].
  destruct (hasAudioDescription input),
    (hasMediaAlternative input) as [[|]|],
    (pausesAreSufficient input) as [[|]|],
    (hasExtendedDescription input) as [[|]|];
    cbn [Js.logicalOr Js.isTrue option_map];
    repeat split;
    try solve [ auto | congruence | discriminate
              | intros [? ?]; congruence
              | intros [?|?]; congruence
              | right; eexists; repeat split; auto ].
Qed.

Lemma checkAudioDescription_levels_witness :
  exists a aa extra,
    checkAudioDescription
      (mkAudioDescription true true false None None (Some true)) =
      a :: aa :: extra /\
    status a = Pass /\ status aa = Fail.
Proof.
  destruct (checkAudioDescription_levels
              (mkAudioDescription true true false None None (Some true)))
    as (a & aa & extra & Heq & _ & _ & [Haa|Haa] & Hiff & Ha & _);
    [reflexivity|reflexivity| |].
  - apply Hiff in Haa. discriminate.
  - exists a, aa, extra. split; [exact Heq|]. split; [|exact Haa].
    apply Ha. right. reflexivity.
Defined.

(** Outside prerecorded video the check gives a single info verdict. *)
Lemma checkAudioDescription_not_applicable (input : AudioDescriptionInput) :
  hasVideoContent input = false \/ isPrerecorded input = false ->
  exists v,
    checkAudioDescription input = [v] /\
    criterion v = "1.2.5" /\ status v = Info.
Proof.
  unfold checkAudioDescription.
  intros [H|H]; rewrite H; destruct (hasVideoContent input);
    cbn [negb]; eexists; repeat split.
Qed.

(** X23. An automatic, non-essential animation that lasts more than
    five seconds, a missing duration counting as six, gets two verdicts
    from [checkAnimation]: level A under 2.2.2, which passes exactly when
    it can be paused, stopped or hidden and fails otherwise, and level
    AAA under 2.3.3, which passes exactly when it can be paused or
    stopped and warns otherwise. Passing AAA implies passing A, and being
    able to hide the animation satisfies A only. *)
Theorem checkAnimation_controls (input : AnimationInput) :
  hasAutoAnimation input = true ->
  isEssential input <> Some true ->
  (5 <? match duration input with Some d => d | None => 6 end)%float = true ->
  exists a aaa,
    checkAnimation input = [a; aaa] /\
    (criterion a = "2.2.2" /\ level a = A /\
     criterion aaa = "2.3.3" /\ level aaa = AAA) /\
    (status a = Pass \/ status a = Fail) /\
    (status aaa = Pass \/ status aaa = Warning) /\
    (status a = Pass <->
     canPause input = Some true \/ canStop input = Some true \/
     canHide input = Some true) /\
    (status aaa = Pass <->
     canPause input = Some true \/ canStop input = Some true) /\
    (status aaa = Pass -> status a = Pass).
Proof.
  intros Hauto Hess Hlong. unfold checkAnimation.
  rewrite Hauto, Hlong. cbn [negb].
  assert (He : Js.isTrue (isEssential input) = false)
    by (destruct (isEssential input) as [[|]|]; simpl; congruence).
  rewrite He.
  do 2 eexists. split; [reflexivity|].
  cbn [criterion level status].
  destruct (canPause input) as [[|]|], (canStop input) as [[|]|],
    (canHide input) as [[|]|];
    cbn [Js.logicalOr Js.isTrue];
    repeat split;
    try solve [ auto | congruence | discriminate
              | intros [?|?]; congruence
              | intros [?|[?|?]]; congruence ].
Qed.

Lemma checkAnimation_controls_witness :
  exists a aaa,
    checkAnimation (mkAnimation true None None None (Some true) None) =
      [a; aaa] /\
    status a = Pass /\ status aaa = Warning.
Proof.
  destruct (checkAnimation_controls
              (mkAnimation true None None None (Some true) None))
    as (a & aaa & Heq & _ & _ & [Hp|Hw] & Ha & Haaa & _);
    [reflexivity|discriminate|reflexivity| |].
  - apply Haaa in Hp. destruct Hp; discriminate.
  - exists a, aaa. split; [exact Heq|]. split; [|exact Hw].
    apply Ha. right. right. reflexivity.
Defined.

(** An animation that is not automatic, or is essential, or does not
    last more than five seconds, passes with a single verdict. *)
Lemma checkAnimation_exempt (input : AnimationInput) :
  hasAutoAnimation input = false \/ isEssential input = Some true \/
  (5 <? match duration input with Some d => d | None => 6 end)%float = false ->
  exists v,
    checkAnimation input = [v] /\ criterion v = "2.2.2" /\ status v = Pass.
Proof.
  unfold checkAnimation.
  intros [H|[H|H]]; rewrite H; destruct (hasAutoAnimation input);
    cbn [negb Js.isTrue]; try (eexists; repeat split; fail);
    destruct (Js.isTrue (isEssential input)); eexists; repeat split.
Qed.

(** X24. [checkTranscript] gives exactly one verdict for every input.
    For audio-only and for video-only content it is the level A verdict
    under 1.2.1, a pass with a transcript and a fail without. For content
    with both it is the level AAA verdict under 1.2.8, a pass when the
    transcript exists and includes visual descriptions and a warning
    otherwise, never a fail. Whether the transcript is synchronized or
    accessible is not read. *)
Theorem checkTranscript_one_verdict (input : TranscriptInput) :
  exists v,
    checkTranscript input = [v] /\
    (mediaType input <> audio_video ->
     criterion v = "1.2.1" /\ level v = A /\
     status v = (if hasTranscript input then Pass else Fail)) /\
    (mediaType input = audio_video ->
     criterion v = "1.2.8" /\ level v = AAA /\
     (status v = Pass \/ status v = Warning) /\
     (status v = Pass <->
      hasTranscript input = true /\
      includesVisualDescriptions input = Some true)) /\
    forall synchronized accessible,
      checkTranscript
        (mkTranscript (mediaType input) (hasTranscript input) synchronized
           (includesVisualDescriptions input) accessible) =
      [v].
Proof.
  unfold checkTranscript. cbn [mediaType hasTranscript
                               includesVisualDescriptions].
  destruct (mediaType input); cbn [app];
    eexists; (split; [reflexivity|]); cbn [criterion level status];
    (split; [|split]); try congruence; try reflexivity;
    try (intros _; repeat split; fail).
  intros _.
  destruct (hasTranscript input),
    (includesVisualDescriptions input) as [[|]|];
    cbn [Js.logicalAnd Js.isTrue];
    repeat split; try solve [auto | congruence | intros [? ?]; congruence].
Qed.

(** X25. The warnings of [checkCaptions] about caption quality appear
    only for prerecorded media with audio whose captions exist, after a
    first verdict that passes: a result that holds a warning starts with
    a pass under 1.2.2. Live media get the single verdict under 1.2.4 at
    level AA and video without audio a single info verdict, whatever the
    quality flags say. *)
Theorem checkCaptions_warnings (input : CaptionInput) :
  exists first rest,
    checkCaptions input = first :: rest /\
    (c_mediaType input = video ->
     rest = [] /\ criterion first = "1.2.2" /\ status first = Info) /\
    (c_mediaType input <> video -> isLive input = true ->
     rest = [] /\ criterion first = "1.2.4" /\ level first = AA /\
     status first = (if hasCaptions input then Pass else Fail)) /\
    (c_mediaType input <> video -> isLive input = false ->
     criterion first = "1.2.2" /\ level first = A /\
     status first = (if hasCaptions input then Pass else Fail)) /\
    (forall v, In v rest -> status v = Warning /\ criterion v = "1.2.2") /\
    (rest <> [] -> status first = Pass /\ hasCaptions input = true /\
                   isLive input = false) /\
    List.length rest <= 2.
Proof.
  unfold checkCaptions.
  destruct (c_mediaType input), (isLive input), (hasCaptions input),
    (areSynchronized input) as [[|]|],
    (includesNonSpeechAudio input) as [[|]|];
    cbn [app]; do 2 eexists; (split; [reflexivity|]);
    cbn [criterion level status];
    repeat split;
    try solve [ auto | congruence | discriminate | simpl; lia
              | intros; exfalso; congruence
              | intros v [<-|[]]; reflexivity
              | intros v [<-|[<-|[]]]; reflexivity
              | intros v []
              | match goal with
                | H : In _ _ |- _ =>
                  simpl in H;
                  repeat (destruct H as [<-|H]; [reflexivity|]);
                  destruct H
                end ].
Qed.

End MediaProperties.

(** ** The role tables *)

Lemma Array_includes_In (xs : list string) (x : string) :
  Js.Array_includes xs x = true <-> In x xs.
Proof.
  unfold Js.Array_includes. rewrite existsb_exists. split.
  - intros (y & Hy & Heq). apply String.eqb_eq in Heq. now subst y.
  - intros Hin. exists x. split; [exact Hin|apply String.eqb_refl].
Qed.

Lemma roles_requiring_name_valid :
  forallb Aria.isValidAriaRole Aria.ROLES_REQUIRING_NAME = true.
Proof. vm_compute. reflexivity. Qed.

Lemma interactive_roles_valid :
  forallb Aria.isValidAriaRole Aria.INTERACTIVE_ROLES = true.
Proof. vm_compute. reflexivity. Qed.

Lemma implicit_roles_valid :
  forallb Aria.isValidAriaRole (map snd Aria.implicitRoles) = true.
Proof. vm_compute. reflexivity. Qed.

Section RoleTables.
Context {S : Js.StringOps}.
Import Aria.

(** X26. The role tables of the ARIA checks agree with the list of
    valid roles: every role that requires an accessible name, every
    interactive role and the implicit role of every tag is a valid ARIA
    role. So when [checkNameRoleValue] is given an explicit role that
    requires a name, its result starts with the verdict on the name, a
    pass or a fail, followed by the verdict on the role, and the latter
    is a pass. *)
Theorem checkNameRoleValue_known_roles :
  (forall r, In r ROLES_REQUIRING_NAME \/ In r INTERACTIVE_ROLES ->
             isValidAriaRole r = true) /\
  (forall tag r, getImplicitRole tag = Some r -> isValidAriaRole r = true) /\
  (forall input r,
     e_role (element input) = Some r -> In r ROLES_REQUIRING_NAME ->
     exists nameVerdict roleVerdict rest,
       checkNameRoleValue input = nameVerdict :: roleVerdict :: rest /\
       value roleVerdict = Some (VString r) /\
       status roleVerdict = Pass /\
       (status nameVerdict = Pass \/ status nameVerdict = Fail)).
Proof.
  pose proof roles_requiring_name_valid as Hname.
  pose proof interactive_roles_valid as Hinter.
  pose proof implicit_roles_valid as Himpl.
  unfold getImplicitRole.
  generalize dependent implicitRoles. intros implicit Himpl.
  rewrite forallb_forall in Hname, Hinter, Himpl.
  split; [|split].
  - intros r [Hr|Hr]; [now apply Hname|now apply Hinter].
  - intros tag r Hget. apply Himpl. apply get_In in Hget.
    apply in_map_iff. now exists (Js.toLowerCase tag, r).
  - intros input r Hrole Hr.
    assert (Hvalid : isValidAriaRole r = true) by now apply Hname.
    assert (Hneeds : Js.Array_includes ROLES_REQUIRING_NAME r = true)
      by now apply Array_includes_In.
    assert (Hcons : exists c rest, r = String c rest).
    { destruct r as [|c rest]; [|now exists c, rest].
      exfalso. clear - Hvalid. vm_compute in Hvalid. discriminate. }
    destruct Hcons as (c & rest & ->).
    unfold checkNameRoleValue. rewrite Hrole.
    cbn [Js.truthy]. rewrite Hneeds, Hvalid.
    cbn [app]. do 3 eexists. split; [reflexivity|].
    cbn [value status]. split; [reflexivity|]. split; [reflexivity|].
    match goal with |- context [if ?b then Pass else Fail] =>
      destruct b; [now left|now right] end.
Qed.

End RoleTables.
